(** * watcher: the retry loop, the per-endpoint status and the alert dispatcher

    A shallow embedding of the Go packages [ping], [config] and [engine] of
    petergardfjall/watcher, followed by the properties proved about them.

    Conventions of the embedding:
    - Go's [int] (on the 64-bit platforms the program is built for),
      [int64] and [time.Duration] are 64-bit two's complement integers:
      they are values of [Z] and every arithmetic operation of the source
      is followed by [wrap64];
    - a Go [error] is [option string]: [None] is [nil], [Some msg] is an error
      whose message is [msg] ([fmt.Errorf] never returns [nil]);
    - a [*bytes.Buffer] is [option (list byte)], a [*time.Time] is
      [option Z] (wall-clock nanoseconds; [time.Now().UTC()] carries no
      monotonic reading);
    - a Go [map[string]T] is a [gmap string T];
    - the outside world (the network answering a probe, the clock, the
      file system) is an explicit argument or a component of [World]. *)

From Stdlib Require Import ZArith Lia List Bool.
From stdpp Require Import base option list strings pretty gmap.

Local Open Scope Z_scope.

(** ** Machine integers *)

Module GoInt.

Definition min_int64 : Z := - 2 ^ 63.
Definition max_int64 : Z := 2 ^ 63 - 1.

(** Two's complement wrap-around of a 64-bit signed result. *)
Definition wrap64 (z : Z) : Z := (z + 2 ^ 63) mod 2 ^ 64 - 2 ^ 63.

(** Saturation, as done by [time.Time.Sub]. *)
Definition sat64 (z : Z) : Z :=
  if z <? min_int64 then min_int64
  else if max_int64 <? z then max_int64
  else z.

Definition in_int64 (z : Z) : Prop := min_int64 <= z <= max_int64.

End GoInt.
Import GoInt.

(** ** Package [time] (the part the program uses) *)

Module time.

(** [time.Duration]: nanoseconds, int64. *)
Definition Nanosecond : Z := 1.
Definition Second : Z := 1000000000.
Definition Minute : Z := 60 * Second.

(** [time.Since(t)] is [time.Now().Sub(t)]; [Sub] saturates. *)
Definition Since (now t : Z) : Z := sat64 (now - t).

End time.

(** ** Package [config] *)

Module config.

(** [Retries]: the retry behaviour of a pinger. *)
Record Retries := mkRetries {
  Attempts : Z;
  Delay : Z;
  ExponentialBackoff : bool }.

(** [Schedule]; both fields are pointers in the source. *)
Record Schedule := mkSchedule {
  Interval : option Z;
  Schedule_Retries : option Retries }.

Record HTTPBasicAuth := mkHTTPBasicAuth {
  HTTPBasicAuth_Username : string;
  HTTPBasicAuth_Password : string }.

Record HTTPExpectation := mkHTTPExpectation { StatusCode : Z }.

Record HTTPCheck := mkHTTPCheck {
  URL : string;
  VerifyCert : bool;
  BasicAuth : option HTTPBasicAuth;
  HTTPCheck_Expect : HTTPExpectation;
  HTTPCheck_Timeout : option Z }.

Record SSHAuth := mkSSHAuth {
  SSHAuth_Username : string;
  SSHAuth_Password : option string;
  Key : option string;
  Agent : bool }.

Record SSHExpectation := mkSSHExpectation { ExitCode : Z }.

Record SSHCheck := mkSSHCheck {
  Host : string;
  Port : Z;
  Auth : SSHAuth;
  Command : string;
  CommandFile : string;
  SSHCheck_Expect : SSHExpectation;
  SSHCheck_Timeout : option Z }.

Record EmailAuth := mkEmailAuth {
  EmailAuth_Username : string;
  EmailAuth_Password : string }.

Record Email := mkEmail {
  SMTPHost : string;
  SMTPPort : Z;
  Email_Auth : option EmailAuth;
  From_ : string;
  To : list string }.

Record Alerter := mkAlerter {
  AdvertisedIP : string;
  AdvertisedPort : Z;
  ReminderDelay : Z;
  Alerter_Email : option Email }.

(** A [Pinger] definition; [Check] is the raw, not yet parsed JSON. *)
Record Pinger := mkPinger {
  Name : string;
  Type_ : string;
  Check : string;
  Pinger_Schedule : option Schedule }.

Record Engine := mkEngine {
  DefaultSchedule : option Schedule;
  Pingers : list Pinger;
  Engine_Alerter : option Alerter }.

(** What the Go runtime and the host contribute to validation and to the
    construction of pingers: the JSON decoder, the regular expressions of
    the package, [url.Parse], [strings.TrimSpace] and the file system. *)
Record Runtime := mkRuntime {
  json_Unmarshal_HTTPCheck : string -> string + HTTPCheck;
  json_Unmarshal_SSHCheck : string -> string + SSHCheck;
  url_Parse : string -> option string;
  strings_TrimSpace : string -> string;
  ipv4AddrRegexp : string -> bool;
  hostnameRegexp : string -> bool;
  loginNameRegexp : string -> bool;
  os_Stat : string -> option string;
  ioutil_ReadFile : string -> string + string }.

(** [Retries.Validate]: the message of the error, or [None] for [nil]. *)
Definition Retries_Validate (retry : Retries) : option string :=
  if Attempts retry <? 0
  then Some "retries: attempts must be a positive number"%string
  else None.

Definition ValidPort (port : Z) : bool := (0 <? port) && (port <? 65535).

Definition ValidHTTPStatusCode (statusCode : Z) : bool :=
  (100 <=? statusCode) && (statusCode <? 600).

Definition SSHExpectation_Validate (expect : SSHExpectation) : option string :=
  if (ExitCode expect <? 0) || (255 <? ExitCode expect)
  then Some "expect: exitCode must be in the range [0,255]"%string
  else None.

Definition HTTPExpectation_Validate (expect : HTTPExpectation) : option string :=
  if negb (ValidHTTPStatusCode (StatusCode expect))
  then Some ("http expect: illegal statusCode: " +:+ pretty (StatusCode expect))
  else None.

Definition ValidHostOrIpAddr (rt : Runtime) (hostOrIp : string) : bool :=
  ipv4AddrRegexp rt hostOrIp || hostnameRegexp rt hostOrIp.

Definition HTTPBasicAuth_Validate (rt : Runtime) (auth : HTTPBasicAuth)
  : option string :=
  if (String.length (strings_TrimSpace rt (HTTPBasicAuth_Username auth)) =? 0)%nat
  then Some "basicAuth: no username given"%string
  else if (String.length (strings_TrimSpace rt (HTTPBasicAuth_Password auth)) =? 0)%nat
  then Some "basicAuth: no password given"%string
  else None.

Definition HTTPCheck_Validate (rt : Runtime) (check : HTTPCheck) : option string :=
  match url_Parse rt (URL check) with
  | Some err => Some ("http check: invalid URL: " +:+ err)
  | None =>
    match from_option (HTTPBasicAuth_Validate rt) None (BasicAuth check) with
    | Some err => Some ("http check: " +:+ err)
    | None =>
      match HTTPExpectation_Validate (HTTPCheck_Expect check) with
      | Some err => Some ("http check: " +:+ err)
      | None => None
      end
    end
  end.

Definition SSHAuth_Validate (rt : Runtime) (auth : SSHAuth) : option string :=
  if negb (loginNameRegexp rt (SSHAuth_Username auth))
  then Some ("auth: illegal username: '" +:+ SSHAuth_Username auth +:+ "'")
  else
    match Key auth, SSHAuth_Password auth, Agent auth with
    | None, None, false =>
        Some "auth: no auth method given (at least one of password, key, or agent auth must be specified)"%string
    | _, _, _ => None
    end.

Definition SSHCheck_Validate (rt : Runtime) (check : SSHCheck) : option string :=
  if negb (ValidHostOrIpAddr rt (Host check))
  then Some ("ssh check: illegal host: '" +:+ Host check +:+ "'")
  else if negb (ValidPort (Port check))
  then Some ("ssh check: illegal port: '" +:+ pretty (Port check) +:+ "'")
  else
    match SSHAuth_Validate rt (Auth check) with
    | Some err => Some ("ssh check: " +:+ err)
    | None =>
      match SSHExpectation_Validate (SSHCheck_Expect check) with
      | Some err => Some ("ssh check: " +:+ err)
      | None =>
        if String.eqb (Command check) "" && String.eqb (CommandFile check) ""
        then Some "ssh check: neither command nor commandFile given"%string
        else if negb (String.eqb (Command check) "")
                && negb (String.eqb (CommandFile check) "")
        then Some "ssh check: only one of command and commandFile is allowed, not both"%string
        else if negb (String.eqb (CommandFile check) "")
        then match os_Stat rt (CommandFile check) with
             | Some err => Some ("ssh check: command file: " +:+ err)
             | None => None
             end
        else None
      end
    end.

(** The rest of what validation takes from the outside: the regular
    expression for pinger names and [mail.ParseAddress] (its error, or
    [None]). *)
Record Syntax := mkSyntax {
  validPingerName : string -> bool;
  mail_ParseAddress : string -> option string }.

(** [ValidPingerName]. *)
Definition ValidPingerName (sx : Syntax) (name : string) : bool :=
  validPingerName sx name.

(** [Schedule.Validate]. *)
Definition Schedule_Validate (schedule : Schedule) : option string :=
  match Interval schedule with
  | None => Some "schedule: missing interval"%string
  | Some _ =>
    match Schedule_Retries schedule with
    | None => Some "schedule: missing retries"%string
    | Some retries =>
      match Retries_Validate retries with
      | Some err => Some ("schedule: " +:+ err)
      | None => None
      end
    end
  end.

(** [Pinger.Validate]. The check is raw JSON: [len(pinger.Check) == 0] is
    the test for the empty string. *)
Definition Pinger_Validate (sx : Syntax) (pinger : Pinger) : option string :=
  if String.eqb (Name pinger) ""
  then Some "pinger: missing name"%string
  else if negb (ValidPingerName sx (Name pinger))
  then Some ("pinger: illegal name: '" +:+ Name pinger
             +:+ "' (must be of form '^[a-zA-Z0-9_\-\.]+$')")
  else if String.eqb (Type_ pinger) ""
  then Some ("pinger '" +:+ Name pinger +:+ "': missing type")
  else if (String.length (Check pinger) =? 0)%nat || String.eqb (Check pinger) "null"
  then Some ("pinger '" +:+ Name pinger +:+ "': missing check")
  else
    match from_option Schedule_Validate None (Pinger_Schedule pinger) with
    | Some err => Some ("pinger '" +:+ Name pinger +:+ "': " +:+ err)
    | None => None
    end.

(** [EmailAuth.Validate]. *)
Definition EmailAuth_Validate (rt : Runtime) (auth : EmailAuth) : option string :=
  if negb (loginNameRegexp rt (EmailAuth_Username auth))
  then Some ("auth: illegal username: '" +:+ EmailAuth_Username auth +:+ "'")
  else if (String.length (EmailAuth_Password auth) =? 0)%nat
  then Some "auth: no password given"%string
  else None.

(** The loop of [Email.Validate] over the receivers. The message of the
    source names the sender, not the rejected receiver. *)
Fixpoint Email_Validate_To (sx : Syntax) (from : string) (to : list string)
  : option string :=
  match to with
  | [] => None
  | receiver :: rest =>
    match mail_ParseAddress sx receiver with
    | Some err => Some ("email: illegal To address: '" +:+ from +:+ "': " +:+ err)
    | None => Email_Validate_To sx from rest
    end
  end.

(** [Email.Validate]. *)
Definition Email_Validate (rt : Runtime) (sx : Syntax) (email : Email)
  : option string :=
  if negb (ValidHostOrIpAddr rt (SMTPHost email))
  then Some ("email: illegal smtpHost: '" +:+ SMTPHost email +:+ "'")
  else if negb (ValidPort (SMTPPort email))
  then Some ("email: illegal smtpPort: '" +:+ pretty (SMTPPort email) +:+ "'")
  else
    match from_option (EmailAuth_Validate rt) None (Email_Auth email) with
    | Some err => Some ("email: " +:+ err)
    | None =>
      match mail_ParseAddress sx (From_ email) with
      | Some err =>
          Some ("email: illegal From address: '" +:+ From_ email +:+ "': " +:+ err)
      | None => Email_Validate_To sx (From_ email) (To email)
      end
    end.

(** [Alerter.Validate]. *)
Definition Alerter_Validate (rt : Runtime) (sx : Syntax) (alerter : Alerter)
  : option string :=
  if negb (ValidHostOrIpAddr rt (AdvertisedIP alerter))
  then Some ("alerter: advertisedIP: illegal IP/hostname: '"
             +:+ AdvertisedIP alerter +:+ "'")
  else if negb (ValidPort (AdvertisedPort alerter))
  then Some ("alerter: advertisedPort: illegal port: "
             +:+ pretty (AdvertisedPort alerter))
  else
    match from_option (Email_Validate rt sx) None (Alerter_Email alerter) with
    | Some err => Some ("alerter: " +:+ err)
    | None => None
    end.

(** The loop of [Engine.Validate] over the pingers; [takenNames] is the map
    of the names seen so far, a missing key reading as [false]. *)
Fixpoint Engine_Validate_loop (sx : Syntax) (pingers : list Pinger)
    (takenNames : gmap string bool) : option string :=
  match pingers with
  | [] => None
  | pinger :: rest =>
    if default false (takenNames !! Name pinger)
    then Some ("engine: pinger name '" +:+ Name pinger
               +:+ "' is used multiple times -- pinger names must be unique")
    else
      let takenNames := <[Name pinger := true]> takenNames in
      match Pinger_Validate sx pinger with
      | Some err => Some ("engine: " +:+ err)
      | None => Engine_Validate_loop sx rest takenNames
      end
  end.

(** [Engine.Validate]. *)
Definition Engine_Validate (rt : Runtime) (sx : Syntax) (engine : Engine)
  : option string :=
  match from_option Schedule_Validate None (DefaultSchedule engine) with
  | Some err => Some ("engine: " +:+ err)
  | None =>
    match Engine_Validate_loop sx (Pingers engine) ∅ with
    | Some err => Some err
    | None =>
      match from_option (Alerter_Validate rt sx) None (Engine_Alerter engine) with
      | Some err => Some ("engine: " +:+ err)
      | None => None
      end
    end
  end.

End config.

(** ** Results of fallible Go functions *)

(** A function returning [(T, error)] yields [Ok v] for [(v, nil)] and
    [Err msg] for [(nil, err)]. *)
Inductive result (A : Type) : Type :=
| Ok (a : A)
| Err (msg : string).
Arguments Ok {A} a.
Arguments Err {A} msg.

(** A call either returns or panics at run time (here: by dereferencing a
    nil pointer). *)
Inductive run (A : Type) : Type :=
| Return (a : A)
| Panic.
Arguments Return {A} a.
Arguments Panic {A}.

(** ** Package [ping] *)

Module ping.

(** [Status]: [StatusUnknown] is 0, the zero value of the type. *)
Inductive Status := StatusUnknown | StatusOK | StatusNOK.

#[global] Instance Status_eq_dec : EqDecision Status.
Proof. solve_decision. Defined.

Definition Status_eqb (a b : Status) : bool := bool_decide (a = b).

Record Result := mkResult {
  Result_Status : Status;
  Error : option string }.

Definition Buffer := list Byte.byte.

(** The zero value of [Result], which named results start from. *)
Definition Result_zero : Result := mkResult StatusUnknown None.

(** The [Pinger] interface.  One invocation of [Ping] talks to the outside
    world; [Exchange] is what the outside world does during that one
    invocation, so [Ping] is a function of the pinger and the exchange. *)
Class Pinger (P : Type) := {
  Exchange : Type;
  Ping : P -> Exchange -> Result * option Buffer }.

(** *** The HTTP pinger *)

Record HTTPPinger := mkHTTPPinger { HTTPPinger_Check : config.HTTPCheck }.

(** [NewHTTPPinger]. *)
Definition NewHTTPPinger (rt : config.Runtime) (httpConfig : config.Pinger)
  : result HTTPPinger :=
  match config.json_Unmarshal_HTTPCheck rt (config.Check httpConfig) with
  | inl err => Err ("http pinger: illegal check: " +:+ err)
  | inr httpCheck =>
    match config.HTTPCheck_Validate rt httpCheck with
    | Some err => Err ("http pinger: invalid check: " +:+ err)
    | None => Ok (mkHTTPPinger httpCheck)
    end
  end.

Record Response := mkResponse {
  Response_StatusCode : Z;
  Body : Buffer }.

(** What happens during one HTTP ping: the error of [http.NewRequest]
    (or [nil]), and what [client.Do] returns. [ioutil.ReadAll]'s error is
    dropped by the source, [Body] is what it read. *)
Record HTTPExchange := mkHTTPExchange {
  http_NewRequest : option string;
  client_Do : string + Response }.

(** [HTTPPinger.Ping]. *)
Definition HTTPPinger_Ping (httpPinger : HTTPPinger) (x : HTTPExchange)
  : Result * option Buffer :=
  match http_NewRequest x with
  | Some err => (mkResult StatusNOK (Some ("ping failed: " +:+ err)), None)
  | None =>
    match client_Do x with
    | inl err => (mkResult StatusNOK (Some ("ping failed: " +:+ err)), None)
    | inr response =>
      let expectedCode :=
        config.StatusCode (config.HTTPCheck_Expect (HTTPPinger_Check httpPinger)) in
      if negb (expectedCode =? Response_StatusCode response)
      then (mkResult StatusNOK
              (Some ("expected status code (" +:+ pretty expectedCode
                     +:+ ") differs from actual ("
                     +:+ pretty (Response_StatusCode response) +:+ ")")),
            None)
      else (mkResult StatusOK None, Some (Body response))
    end
  end.

#[global] Instance HTTPPinger_Pinger : Pinger HTTPPinger :=
  {| Exchange := HTTPExchange; Ping := HTTPPinger_Ping |}.

(** *** The SSH client and the SSH pinger *)

Record SSHClientConfig := mkSSHClientConfig {
  Username : string;
  Password : string;
  KeyPath : string;
  AgentForwarding : bool;
  SSHClientConfig_Host : string;
  SSHClientConfig_Port : Z;
  Timeout : Z }.

Record SSHClient := mkSSHClient { Config : SSHClientConfig }.

Record CommandResult := mkCommandResult {
  ExitStatus : Z;
  CommandResult_Output : option Buffer }.

(** [NewSSHClientConfig]. *)
Definition NewSSHClientConfig (sshCheck : config.SSHCheck) : SSHClientConfig :=
  {| Username := config.SSHAuth_Username (config.Auth sshCheck);
     Password := default ""%string (config.SSHAuth_Password (config.Auth sshCheck));
     KeyPath := default ""%string (config.Key (config.Auth sshCheck));
     AgentForwarding := config.Agent (config.Auth sshCheck);
     SSHClientConfig_Host := config.Host sshCheck;
     SSHClientConfig_Port := config.Port sshCheck;
     Timeout := 0 |}.

(** [NewSSHClient]. *)
Definition NewSSHClient (rt : config.Runtime) (clientConfig : SSHClientConfig)
  : result SSHClient :=
  if String.eqb (Username clientConfig) ""
  then Err "no Username given"
  else if String.eqb (Password clientConfig) ""
          && String.eqb (KeyPath clientConfig) ""
          && negb (AgentForwarding clientConfig)
  then Err "no auth mechanism specified (must use one or more of Password, KeyPath and AgentForwarding"
  else if negb (config.ValidHostOrIpAddr rt (SSHClientConfig_Host clientConfig))
  then Err ("invalid host/IP address: '" +:+ SSHClientConfig_Host clientConfig +:+ "'")
  else if negb (config.ValidPort (SSHClientConfig_Port clientConfig))
  then Err ("invalid port: " +:+ pretty (SSHClientConfig_Port clientConfig))
  else Ok (mkSSHClient clientConfig).

(** The error of [session.Run]: an [*ssh.ExitError] or any other error. *)
Inductive SessionError :=
| ExitError (status : Z)
| OtherError (msg : string).

(** What happens during one SSH ping: the error of [client.connect()] (or
    [nil]), the error of [session.Run] (or [nil]) and what the remote
    command wrote to its standard output and error. *)
Record SSHExchange := mkSSHExchange {
  connect : option string;
  session_Run : option SessionError;
  written : Buffer }.

(** [SSHClient.Run]. *)
Definition SSHClient_Run (client : SSHClient) (command : string) (x : SSHExchange)
  : result CommandResult :=
  match connect x with
  | Some err => Err ("failed to connect: " +:+ err)
  | None =>
    let result := mkCommandResult 0 (Some (written x)) in
    let result :=
      match session_Run x with
      | Some (ExitError status) =>
          mkCommandResult status (CommandResult_Output result)
      | Some (OtherError _) =>
          mkCommandResult (-1) (CommandResult_Output result)
      | None => result
      end in
    Ok result
  end.

Record SSHPinger := mkSSHPinger {
  Client : SSHClient;
  SSHPinger_Command : string;
  ExpectedExitCode : Z }.

(** [loadCommand]. *)
Definition loadCommand (rt : config.Runtime) (sshCheck : config.SSHCheck)
  : result string :=
  if negb (String.eqb (config.Command sshCheck) "")
  then Ok (config.Command sshCheck)
  else if negb (String.eqb (config.CommandFile sshCheck) "")
  then match config.ioutil_ReadFile rt (config.CommandFile sshCheck) with
       | inl err => Err err
       | inr bytes => Ok bytes
       end
  else Err "neither Command nor CommandFile specified".

(** [NewSSHPinger]. *)
Definition NewSSHPinger (rt : config.Runtime) (pingerConfig : config.Pinger)
  : result SSHPinger :=
  match config.json_Unmarshal_SSHCheck rt (config.Check pingerConfig) with
  | inl err => Err ("ssh pinger: illegal check: " +:+ err)
  | inr sshCheck =>
    match config.SSHCheck_Validate rt sshCheck with
    | Some err => Err ("ssh pinger: invalid check: " +:+ err)
    | None =>
      match loadCommand rt sshCheck with
      | Err err => Err ("ssh pinger: illegal command: " +:+ err)
      | Ok command =>
        let sshClientConfig := NewSSHClientConfig sshCheck in
        match NewSSHClient rt sshClientConfig with
        | Err err => Err ("ssh pinger: failed to set up ssh client: " +:+ err)
        | Ok sshClient =>
            Ok {| Client := sshClient;
                  SSHPinger_Command := command;
                  ExpectedExitCode :=
                    config.ExitCode (config.SSHCheck_Expect sshCheck) |}
        end
      end
    end
  end.

(** [SSHPinger.Ping]. *)
Definition SSHPinger_Ping (sshPinger : SSHPinger) (x : SSHExchange)
  : Result * option Buffer :=
  match SSHClient_Run (Client sshPinger) (SSHPinger_Command sshPinger) x with
  | Err err => (mkResult StatusNOK (Some ("ping failed: " +:+ err)), None)
  | Ok response =>
    if negb (ExpectedExitCode sshPinger =? ExitStatus response)
    then (mkResult StatusNOK
            (Some ("expected exit code (" +:+ pretty (ExpectedExitCode sshPinger)
                   +:+ ") differs from actual ("
                   +:+ pretty (ExitStatus response) +:+ ")")),
          CommandResult_Output response)
    else (mkResult StatusOK None, CommandResult_Output response)
  end.

#[global] Instance SSHPinger_Pinger : Pinger SSHPinger :=
  {| Exchange := SSHExchange; Ping := SSHPinger_Ping |}.

End ping.

(** ** Package [engine] *)

Module engine.
Import ping.

(** [PingerTaskStatus]. *)
Record PingerTaskStatus := mkPingerTaskStatus {
  LatestResult : Result;
  Consecutive : Z;
  LatestOK : option Z;
  LatestNOK : option Z }.

(** [StatusUpdate]. *)
Record StatusUpdate := mkStatusUpdate {
  StatusUpdate_Name : string;
  StatusUpdate_Status : PingerTaskStatus }.

(** [PingerTask], without its wait group; its status channel is the
    [EvSend] events of the world. *)
Record PingerTask (P : Type) := mkPingerTask {
  Name : string;
  Type_ : string;
  Pinger : P;
  Schedule : config.Schedule;
  Status : PingerTaskStatus;
  Output : option Buffer }.
Arguments mkPingerTask {P}.
Arguments Name {P}.
Arguments Type_ {P}.
Arguments Pinger {P}.
Arguments Schedule {P}.
Arguments Status {P}.
Arguments Output {P}.

(** *** The world a task runs in *)

(** What a task does to the outside, in the order it does it. *)
Inductive Event :=
| EvPing (r : Result)
| EvSleep (d : Z)
| EvSend (u : StatusUpdate).

(** [net n] is the exchange of the [n]-th invocation of [Ping] (from 0),
    [clock n] the [n]-th reading of [time.Now()]; [pings] and [reads]
    count the invocations and readings made so far. *)
Record World (E : Type) := mkWorld {
  net : nat -> E;
  clock : nat -> Z;
  pings : nat;
  reads : nat;
  trace : list Event }.
Arguments mkWorld {E}.
Arguments net {E}.
Arguments clock {E}.
Arguments pings {E}.
Arguments reads {E}.
Arguments trace {E}.

Definition M (E A : Type) : Type := World E -> A * World E.

Definition ret {E A} (a : A) : M E A := fun w => (a, w).

Definition bind {E A B} (m : M E A) (k : A -> M E B) : M E B :=
  fun w => let (a, w') := m w in k a w'.

Declare Scope go_scope.
Delimit Scope go_scope with go.
Notation "x <- m ;; k" := (bind m (fun x => k))
  (at level 100, m at next level, right associativity) : go_scope.
Notation "m ;; k" := (bind m (fun _ => k))
  (at level 100, right associativity) : go_scope.
Local Open Scope go_scope.

Definition log_event {E} (e : Event) : M E unit :=
  fun w => (tt, mkWorld (net w) (clock w) (pings w) (reads w) (trace w ++ [e])).

(** [time.Sleep(d)]. *)
Definition time_Sleep {E} (d : Z) : M E unit := log_event (EvSleep d).

(** [time.Now().UTC()]. *)
Definition time_Now {E} : M E Z :=
  fun w => (clock w (reads w),
            mkWorld (net w) (clock w) (pings w) (S (reads w)) (trace w)).

(** [statusChan <- u]. *)
Definition send {E} (u : StatusUpdate) : M E unit := log_event (EvSend u).

(** [pinger.Ping()] through the interface. *)
Definition Pinger_Ping `{ping.Pinger P} (pinger : P)
  : M Exchange (Result * option Buffer) :=
  fun w =>
    let r := Ping pinger (net w (pings w)) in
    (r, mkWorld (net w) (clock w) (S (pings w)) (reads w)
          (trace w ++ [EvPing (fst r)])).

(** *** [PingerTask] methods *)

Section PingerTask_methods.
Context `{ping.Pinger P}.

(** The [for] loop of [ping]: [attempt] and [attemptDelay] are the loop
    variables, [result] and [output] the named results. One unit of
    [fuel] is spent on each evaluation of the loop condition; [None]
    means the fuel ran out before the loop was left. *)
Fixpoint ping_loop (fuel : nat) (task : PingerTask P) (retries : config.Retries)
    (attempt attemptDelay : Z) (result : Result) (output : option Buffer)
  : M Exchange (option (Result * option Buffer)) :=
  match fuel with
  | O => ret None
  | S fuel' =>
    let maxAttempts := config.Attempts retries in
    if attempt <=? maxAttempts then
      r <- Pinger_Ping (Pinger task) ;;
      let result := fst r in
      let output := snd r in
      if Status_eqb (Result_Status result) StatusOK then
        ret (Some (result, output))
      else
        let attemptDelay :=
          if config.ExponentialBackoff retries
          then wrap64 (attemptDelay * 2)
          else attemptDelay in
        (if attempt <? maxAttempts then time_Sleep attemptDelay else ret tt) ;;
        ping_loop fuel' task retries (wrap64 (attempt + 1)) attemptDelay
          result output
    else ret (Some (result, output))
  end.

(** [PingerTask.ping]. [task.Schedule.Retries] is a pointer: the call
    panics when it is nil. The loop condition is evaluated at most
    [maxAttempts + 1] times unless the attempt counter wraps around. *)
Definition PingerTask_ping (task : PingerTask P) (w : World Exchange)
  : run (option (Result * option Buffer) * World Exchange) :=
  match config.Schedule_Retries (Schedule task) with
  | None => Panic
  | Some retries =>
    let attemptDelay := config.Delay retries in
    let maxAttempts := config.Attempts retries in
    Return (ping_loop (S (Z.to_nat maxAttempts)) task retries 1 attemptDelay
              Result_zero None w)
  end.

(** [PingerTask.updateStatus]; the updated task is returned. *)
Definition PingerTask_updateStatus (task : PingerTask P)
    (result : Result) (output : option Buffer)
  : M Exchange (PingerTask P) :=
  let consecutive :=
    if Status_eqb (Result_Status result)
                  (Result_Status (LatestResult (Status task)))
    then wrap64 (Consecutive (Status task) + 1)
    else 1 in
  now <- time_Now ;;
  let latestOK :=
    match Result_Status result with
    | StatusOK => Some now
    | _ => LatestOK (Status task)
    end in
  let latestNOK :=
    match Result_Status result with
    | StatusNOK => Some now
    | _ => LatestNOK (Status task)
    end in
  let task :=
    mkPingerTask (Name task) (Type_ task) (Pinger task) (Schedule task)
      (mkPingerTaskStatus result consecutive latestOK latestNOK) output in
  send (mkStatusUpdate (Name task) (Status task)) ;;
  ret task.

(** The status [Start] installs before it enters its loop. *)
Definition Start_status : PingerTaskStatus :=
  {| LatestResult := mkResult StatusUnknown (Some "no ping performed yet"%string);
     Consecutive := 1;
     LatestOK := None;
     LatestNOK := None |}.

(** [cycles] iterations of the endless loop of [Start]. [None]: a call
    of [ping] did not return; [Panic]: [ping] panicked. *)
Fixpoint Start_loop (cycles : nat) (delay : Z) (task : PingerTask P)
    (w : World Exchange) : run (option (PingerTask P) * World Exchange) :=
  match cycles with
  | O => Return (Some task, w)
  | S cycles' =>
    let (_, w) := time_Sleep delay w in
    match PingerTask_ping task w with
    | Panic => Panic
    | Return (None, w) => Return (None, w)
    | Return (Some (result, output), w) =>
      let (task, w) := PingerTask_updateStatus task result output w in
      Start_loop cycles' delay task w
    end
  end.

(** [PingerTask.Start], observed after [cycles] iterations of its loop.
    [task.Schedule.Interval] and [task.Schedule.Retries] are pointers
    that [Start] dereferences before the loop. *)
Definition PingerTask_Start (cycles : nat) (task : PingerTask P)
    (w : World Exchange) : run (option (PingerTask P) * World Exchange) :=
  let task :=
    mkPingerTask (Name task) (Type_ task) (Pinger task) (Schedule task)
      Start_status (Output task) in
  match config.Interval (Schedule task),
        config.Schedule_Retries (Schedule task) with
  | Some delay, Some _ => Start_loop cycles delay task w
  | _, _ => Panic
  end.

End PingerTask_methods.

(** *** The alerters ([package alerter]) *)

Record PingerStatus := mkPingerStatus {
  OK : bool;
  PingerStatus_Error : string;
  OutputURL : string }.

Record PingerUpdate := mkPingerUpdate {
  PingerUpdate_Name : string;
  PingerUpdate_Status : PingerStatus;
  PingerUpdate_Consecutive : Z;
  PingerUpdate_LatestOK : option Z;
  PingerUpdate_LatestNOK : option Z }.

Record EmailAlerter := mkEmailAlerter { EmailAlerter_Config : config.Email }.

(** [alerter.NewEmailAlerter]; its argument is a pointer. *)
Definition NewEmailAlerter (emailConfig : option config.Email)
  : result EmailAlerter :=
  match emailConfig with
  | None => Err "cannot create email alerter: config is nil"
  | Some c => Ok (mkEmailAlerter c)
  end.

(** *** The dispatcher *)

Record Dispatcher := mkDispatcher {
  alerters : list EmailAlerter;
  alertHistory : gmap string Z;
  reminderDelay : Z;
  advertisedBaseURL : string }.

(** [NewDispatcher]. Reading [alertsConfig.Email] dereferences
    [alertsConfig]. *)
Definition NewDispatcher (alertsConfig : option config.Alerter)
  : run (result Dispatcher) :=
  match alertsConfig with
  | None => Panic
  | Some alertsConfig =>
    let alerters : result (list EmailAlerter) :=
      match config.Alerter_Email alertsConfig with
      | Some email =>
        match NewEmailAlerter (Some email) with
        | Err err =>
            Err ("dispatcher: failed to initialize email alerter: " +:+ err)
        | Ok alerter => Ok [alerter]
        end
      | None => Ok []
      end in
    match alerters with
    | Err err => Return (Err err)
    | Ok alerters =>
      let baseURL :=
        "https://" +:+ config.AdvertisedIP alertsConfig +:+ ":"
        +:+ pretty (config.AdvertisedPort alertsConfig) in
      Return (Ok (mkDispatcher alerters ∅
                    (config.ReminderDelay alertsConfig) baseURL))
    end
  end.

(** [statusChanged]. *)
Definition statusChanged (status : PingerTaskStatus) : bool :=
  (Consecutive status =? 1)
  && negb (Status_eqb (Result_Status (LatestResult status)) StatusUnknown).

(** [Dispatcher.shouldPublish]; [now] is the clock reading that
    [time.Since] makes. *)
Definition Dispatcher_shouldPublish (dispatcher : Dispatcher) (now : Z)
    (update : StatusUpdate) : bool :=
  let pingerName := StatusUpdate_Name update in
  if statusChanged (StatusUpdate_Status update) then true
  else if Status_eqb (Result_Status (LatestResult (StatusUpdate_Status update)))
                     StatusNOK
  then
    match alertHistory dispatcher !! pingerName with
    | Some lastAlert =>
      let timeUntilReminder :=
        wrap64 (reminderDelay dispatcher - time.Since now lastAlert) in
      timeUntilReminder <=? 0
    | None => false
    end
  else false.

(** [outputURL]. *)
Definition outputURL (baseURL pingerName : string) : string :=
  baseURL +:+ "/pingers/" +:+ pingerName +:+ "/output".

(** [Dispatcher.dispatch]: the alerters are called in goroutines of their
    own; what remains is the entry in the alert history. [now] is the
    reading of [time.Now().UTC()]. *)
Definition Dispatcher_dispatch (dispatcher : Dispatcher) (now : Z)
    (update : PingerUpdate) : Dispatcher :=
  mkDispatcher (alerters dispatcher)
    (<[PingerUpdate_Name update := now]> (alertHistory dispatcher))
    (reminderDelay dispatcher) (advertisedBaseURL dispatcher).

(** One iteration of the loop of [Dispatcher.Start] on a received status
    update: the dispatcher afterwards and the update handed to the
    alerters, if any. [now] is read by [shouldPublish], [now'] by
    [dispatch]. *)
Definition Dispatcher_Start_step (dispatcher : Dispatcher) (now now' : Z)
    (statusUpdate : StatusUpdate) : Dispatcher * option PingerUpdate :=
  if negb (Dispatcher_shouldPublish dispatcher now statusUpdate)
  then (dispatcher, None)
  else
    let pingResult := LatestResult (StatusUpdate_Status statusUpdate) in
    let error := default ""%string (Error pingResult) in
    let status :=
      {| OK := Status_eqb (Result_Status pingResult) StatusOK;
         PingerStatus_Error := error;
         OutputURL := outputURL (advertisedBaseURL dispatcher)
                        (StatusUpdate_Name statusUpdate) |} in
    let update :=
      {| PingerUpdate_Name := StatusUpdate_Name statusUpdate;
         PingerUpdate_Status := status;
         PingerUpdate_Consecutive := Consecutive (StatusUpdate_Status statusUpdate);
         PingerUpdate_LatestOK := LatestOK (StatusUpdate_Status statusUpdate);
         PingerUpdate_LatestNOK := LatestNOK (StatusUpdate_Status statusUpdate) |} in
    (Dispatcher_dispatch dispatcher now' update, Some update).

(** *** The engine *)

(** The pingers [NewEngine] can build: the dynamic type of its
    [ping.Pinger] values. *)
Inductive AnyPinger :=
| SSH (p : SSHPinger)
| HTTP (p : HTTPPinger).

#[global] Instance AnyPinger_Pinger : ping.Pinger AnyPinger :=
  {| Exchange := (SSHExchange * HTTPExchange)%type;
     Ping := fun pinger x =>
               match pinger with
               | SSH p => SSHPinger_Ping p (fst x)
               | HTTP p => HTTPPinger_Ping p (snd x)
               end |}.

Definition defaultInterval : Z := 10 * time.Minute.
Definition defaultRetryDelay : Z := 3 * time.Second.
Definition standardDefaultSchedule : config.Schedule :=
  {| config.Interval := Some defaultInterval;
     config.Schedule_Retries :=
       Some {| config.Attempts := 3;
               config.Delay := defaultRetryDelay;
               config.ExponentialBackoff := false |} |}.

Record Engine := mkEngine {
  Pingers : gmap string (PingerTask AnyPinger);
  DefaultSchedule : config.Schedule }.

(** The [switch] of [NewEngine] on the type of a pinger. *)
Definition instantiate (rt : config.Runtime) (pingerConf : config.Pinger)
  : result AnyPinger :=
  if String.eqb (config.Type_ pingerConf) "ssh" then
    match NewSSHPinger rt pingerConf with
    | Ok p => Ok (SSH p)
    | Err err => Err err
    end
  else if String.eqb (config.Type_ pingerConf) "http" then
    match NewHTTPPinger rt pingerConf with
    | Ok p => Ok (HTTP p)
    | Err err => Err err
    end
  else Err ("unknown pinger type: " +:+ config.Type_ pingerConf).

(** The loop of [NewEngine] over [engineConf.Pingers]; [pingers] is
    [engine.Pingers] as filled so far. *)
Fixpoint NewEngine_loop (rt : config.Runtime) (defaultSchedule : config.Schedule)
    (pingerConfs : list config.Pinger)
    (pingers : gmap string (PingerTask AnyPinger))
  : result (gmap string (PingerTask AnyPinger)) :=
  match pingerConfs with
  | [] => Ok pingers
  | pingerConf :: rest =>
    match instantiate rt pingerConf with
    | Err err => Err ("failed to instantiate pinger: " +:+ err)
    | Ok pinger =>
      let pingerSchedule :=
        default defaultSchedule (config.Pinger_Schedule pingerConf) in
      let task :=
        {| Name := config.Name pingerConf;
           Type_ := config.Type_ pingerConf;
           Pinger := pinger;
           Schedule := pingerSchedule;
           Status := mkPingerTaskStatus Result_zero 0 None None;
           Output := None |} in
      NewEngine_loop rt defaultSchedule rest
        (<[config.Name pingerConf := task]> pingers)
    end
  end.

(** [NewEngine]. The dispatcher it builds is started in a goroutine and is
    not part of the engine value. *)
Definition NewEngine (rt : config.Runtime) (engineConf : config.Engine)
    (advertisedBaseURL : string) : run (result Engine) :=
  let defaultSchedule :=
    default standardDefaultSchedule (config.DefaultSchedule engineConf) in
  match NewEngine_loop rt defaultSchedule (config.Pingers engineConf) ∅ with
  | Err err => Return (Err err)
  | Ok pingers =>
    match NewDispatcher (config.Engine_Alerter engineConf) with
    | Panic => Panic
    | Return (Err err) =>
        Return (Err ("failed to instantiate alert dispatcher: " +:+ err))
    | Return (Ok dispatcher) =>
        Return (Ok (mkEngine pingers defaultSchedule))
    end
  end.

(** The loop of [Dispatcher.Start] over the status updates it receives, in
    the order of their arrival on the channel; each update comes with the
    clock readings made while it is handled, the one of [shouldPublish] and
    the one of [dispatch]. The result is the dispatcher afterwards and the
    updates handed to the alerters, in order. *)
Fixpoint Dispatcher_Start (dispatcher : Dispatcher)
    (received : list (Z * Z * StatusUpdate)) : Dispatcher * list PingerUpdate :=
  match received with
  | [] => (dispatcher, [])
  | (now, now', statusUpdate) :: rest =>
    let (dispatcher, sent) := Dispatcher_Start_step dispatcher now now' statusUpdate in
    let (dispatcher, dispatched) := Dispatcher_Start dispatcher rest in
    (dispatcher, from_option (fun u => [u]) [] sent ++ dispatched)
  end.

End engine.

(** ** Package [server] *)

Module server.
Import ping engine.

(** What a handler writes: the status code, the content type and the body,
    text or the bytes of a buffer. *)
Inductive Payload :=
| Text (s : string)
| Bytes (b : Buffer).

Record HTTPReply := mkHTTPReply {
  Code : Z;
  ContentType : string;
  Payload_ : Payload }.

Definition http_StatusNotFound : Z := 404.
Definition http_StatusInternalServerError : Z := 500.
Definition http_StatusOK : Z := 200.

(** [http.Error]: the message and a newline as plain text. *)
Definition http_Error (error : string) (code : Z) : HTTPReply :=
  mkHTTPReply code "text/plain; charset=utf-8" (Text (error +:+ String.String (Ascii.ascii_of_nat 10) "")).

(** [respondWithJSON]; [marshal] is [json.MarshalIndent] on the object. *)
Definition respondWithJSON {A} (marshal : A -> result string) (object : A)
  : HTTPReply :=
  match marshal object with
  | Err err =>
      http_Error ("Internal Server Error: failed to marshal response: " +:+ err)
        http_StatusInternalServerError
  | Ok response => mkHTTPReply http_StatusOK "application/json" (Text response)
  end.

(** [Server.pingerStatus] for the path variable [name]. *)
Definition Server_pingerStatus (marshal : PingerTaskStatus -> result string)
    (engine : Engine) (name : string) : HTTPReply :=
  match Pingers engine !! name with
  | None =>
      http_Error "Not Found: requested pinger does not exist" http_StatusNotFound
  | Some pinger => respondWithJSON marshal (Status pinger)
  end.

(** [Server.pingerOutput] for the path variable [name]. *)
Definition Server_pingerOutput (engine : Engine) (name : string) : HTTPReply :=
  match Pingers engine !! name with
  | None =>
      http_Error "Not Found: requested pinger does not exist" http_StatusNotFound
  | Some pinger =>
    match Output pinger with
    | None =>
        http_Error "Not Found: no output has been recorded (yet) for pinger"
          http_StatusNotFound
    | Some output => mkHTTPReply http_StatusOK "text/plain" (Bytes output)
    end
  end.

End server.

(** ** What is observed of a check cycle *)

Module observe.
Import ping engine.

(** The delay in force after one more failed attempt. *)
Definition next_delay (retries : config.Retries) (attemptDelay : Z) : Z :=
  if config.ExponentialBackoff retries
  then wrap64 (attemptDelay * 2)
  else attemptDelay.

(** The events of failed attempts that are each followed by a wait:
    [rs] are the results of the attempts, [attemptDelay] the delay in
    force before the first of them. *)
Fixpoint retry_trace (retries : config.Retries) (attemptDelay : Z)
    (rs : list Result) : list Event :=
  match rs with
  | [] => []
  | r :: rs' =>
      EvPing r :: EvSleep (next_delay retries attemptDelay)
      :: retry_trace retries (next_delay retries attemptDelay) rs'
  end.

(** What the [i]-th invocation of [Ping] after world [w] returns. *)
Definition ping_at `{ping.Pinger P} (pinger : P) (w : World Exchange)
    (i : nat) : Result * option Buffer :=
  Ping pinger (net w (pings w + i)%nat).

(** The results of the [k] invocations of [Ping] that follow world [w]. *)
Definition results `{ping.Pinger P} (pinger : P) (w : World Exchange)
    (k : nat) : list Result :=
  map (fun i => fst (ping_at pinger w i)) (seq 0 k).

(** World [w] after [k] more invocations of [Ping] and the events [evs]. *)
Definition advance {E} (w : World E) (k : nat) (evs : list Event) : World E :=
  mkWorld (net w) (clock w) (pings w + k)%nat (reads w) (trace w ++ evs).

(** The arguments of the calls of [time.Sleep], in order. *)
Definition sleeps (evs : list Event) : list Z :=
  omap (fun e => match e with EvSleep d => Some d | _ => None end) evs.

(** The results of the invocations of [Ping], in order. *)
Definition pinged (evs : list Event) : list Result :=
  omap (fun e => match e with EvPing r => Some r | _ => None end) evs.

(** The timestamps agree with the latest status: an OK status comes with a
    time of the last OK, a NOK status with a time of the last NOK. *)
Definition timestamps_agree (st : PingerTaskStatus) : Prop :=
  (Result_Status (LatestResult st) = StatusOK -> is_Some (LatestOK st)) /\
  (Result_Status (LatestResult st) = StatusNOK -> is_Some (LatestNOK st)).

(** The status updates sent on the status channel, in order. *)
Definition sent (evs : list Event) : list StatusUpdate :=
  omap (fun e => match e with EvSend u => Some u | _ => None end) evs.

(** The task that [NewEngine] stores for the definition [pingerConf] once
    its pinger is built: the status and the output are zero values until
    [Start] runs. *)
Definition task_of (defaultSchedule : config.Schedule)
    (pingerConf : config.Pinger) (pinger : AnyPinger) : PingerTask AnyPinger :=
  {| Name := config.Name pingerConf;
     Type_ := config.Type_ pingerConf;
     Pinger := pinger;
     Schedule := default defaultSchedule (config.Pinger_Schedule pingerConf);
     Status := mkPingerTaskStatus Result_zero 0 None None;
     Output := None |}.

End observe.

(** ** The specification's statements that the code does not follow *)

Module spec.
Import ping engine observe.

(** The wait before attempt [k >= 2] in the words of the specification:
    [retryDelay * 2^(k-2)]. *)
Definition backoff_wait (retryDelay : Z) (k : nat) : Z :=
  retryDelay * 2 ^ (Z.of_nat k - 2).

(** The specification on exponential backoff: when every attempt of a
    cycle fails, the wait before attempt [k], for [2 <= k <= attempts],
    is [backoff_wait retryDelay k]. The waits of the cycle are the sleeps
    of the events that the cycle adds to the trace. *)
Definition backoff_waits_as_specified `{ping.Pinger P}
    (task : PingerTask P) (w : World Exchange) : Prop :=
  forall retries,
    config.Schedule_Retries (Schedule task) = Some retries ->
    config.ExponentialBackoff retries = true ->
    (forall i, Result_Status (fst (ping_at (Pinger task) w i)) = StatusNOK) ->
    exists r w',
      PingerTask_ping task w = Return (Some r, w') /\
      forall k : nat,
        (2 <= k)%nat -> Z.of_nat k <= config.Attempts retries ->
        sleeps (drop (length (trace w)) (trace w')) !! (k - 2)%nat
        = Some (backoff_wait (config.Delay retries) k).

(** The specification on [attempts <= 0]: the cycle behaves as with
    [attempts = 1], one invocation of the checker whose outcome is the
    result. *)
Definition nonpositive_attempts_as_specified `{ping.Pinger P}
    (task : PingerTask P) (w : World Exchange) : Prop :=
  forall retries,
    config.Schedule_Retries (Schedule task) = Some retries ->
    config.Attempts retries <= 0 ->
    exists w',
      PingerTask_ping task w = Return (Some (ping_at (Pinger task) w 0), w') /\
      pings w' = S (pings w).

(** The reminder rule in the words of the specification: alert if no
    prior dispatch is recorded for the endpoint, or if the time since the
    recorded one is at least [reminderDelay]. *)
Definition reminder_rule (dispatcher : Dispatcher) (now : Z)
    (update : StatusUpdate) : bool :=
  match alertHistory dispatcher !! StatusUpdate_Name update with
  | None => true
  | Some lastAlert => reminderDelay dispatcher <=? now - lastAlert
  end.

(** The specification on reminders: for a NOK status whose consecutive
    count is not 1, the dispatcher alerts exactly when [reminder_rule]
    says so. *)
Definition reminder_as_specified (dispatcher : Dispatcher) (now : Z)
    (update : StatusUpdate) : Prop :=
  Result_Status (LatestResult (StatusUpdate_Status update)) = StatusNOK ->
  Consecutive (StatusUpdate_Status update) <> 1 ->
  Dispatcher_shouldPublish dispatcher now update
  = reminder_rule dispatcher now update.

End spec.

(** ** Sample inputs *)

Module sample.
Import ping engine.

(** The first pinger of the sample configuration of the repository. *)
Definition check : config.HTTPCheck :=
  {| config.URL := "https://www.google.com";
     config.VerifyCert := false;
     config.BasicAuth := None;
     config.HTTPCheck_Expect := config.mkHTTPExpectation 200;
     config.HTTPCheck_Timeout := None |}.

Definition pinger : HTTPPinger := mkHTTPPinger check.

(** An exchange in which the server answers with status [code]. *)
Definition responds (code : Z) : HTTPExchange :=
  {| http_NewRequest := None;
     client_Do := inr (mkResponse code []) |}.

Definition task (retries : config.Retries) : PingerTask HTTPPinger :=
  {| Name := "google.com";
     Type_ := "http";
     Pinger := pinger;
     Schedule := {| config.Interval := Some (10 * time.Minute);
                    config.Schedule_Retries := Some retries |};
     Status := Start_status;
     Output := None |}.

(** A world in which nothing has happened yet; the clock advances by one
    second per reading. *)
Definition world (net : nat -> HTTPExchange) : World HTTPExchange :=
  mkWorld net (fun n => Z.of_nat n * time.Second) 0 0 [].

(** A server that answers 500 to every request. *)
Definition always_down : nat -> HTTPExchange := fun _ => responds 500.

(** A server that answers 500 once and 200 from then on. *)
Definition down_once : nat -> HTTPExchange :=
  fun n => match n with O => responds 500 | S _ => responds 200 end.

(** A server that answers 200 to every request. *)
Definition always_up : nat -> HTTPExchange := fun _ => responds 200.

(** A dispatcher without alerters, with a reminder delay of ten seconds
    and the given alert history. *)
Definition dispatcher (history : gmap string Z) : Dispatcher :=
  {| alerters := [];
     alertHistory := history;
     reminderDelay := 10 * time.Second;
     advertisedBaseURL := "https://127.0.0.1:8443" |}.

(** The status update of the sample task with the given latest status and
    consecutive count. *)
Definition event (status : ping.Status) (consecutive : Z) : StatusUpdate :=
  {| StatusUpdate_Name := "google.com";
     StatusUpdate_Status :=
       {| LatestResult :=
            mkResult status
              (match status with
               | StatusOK => None
               | _ => Some "ping failed: connection refused"%string
               end);
          Consecutive := consecutive;
          LatestOK := None;
          LatestNOK := None |} |}.

(** The dispatcher after it has handled, in order, the status updates
    [events], each paired with the time at which it is handled; with it
    the decisions taken, one per update. *)
Fixpoint handle (d : Dispatcher) (events : list (Z * StatusUpdate))
  : Dispatcher * list bool :=
  match events with
  | [] => (d, [])
  | (now, u) :: rest =>
      let (d', sent) := Dispatcher_Start_step d now now u in
      let (d'', decisions) := handle d' rest in
      (d'', bool_decide (sent <> None) :: decisions)
  end.

(** A runtime whose JSON decoder knows one HTTP check, whose validators
    accept every name and URL, and whose file system is empty. *)
Definition runtime : config.Runtime :=
  {| config.json_Unmarshal_HTTPCheck :=
       fun raw => if String.eqb raw "google" then inr check
                  else inl "invalid character"%string;
     config.json_Unmarshal_SSHCheck := fun _ => inl "invalid character"%string;
     config.url_Parse := fun _ => None;
     config.strings_TrimSpace := fun s => s;
     config.ipv4AddrRegexp := fun _ => false;
     config.hostnameRegexp := fun _ => true;
     config.loginNameRegexp := fun _ => true;
     config.os_Stat := fun _ => Some "no such file or directory"%string;
     config.ioutil_ReadFile := fun _ => inl "no such file or directory"%string |}.

Definition alerter : config.Alerter :=
  {| config.AdvertisedIP := "127.0.0.1";
     config.AdvertisedPort := 8443;
     config.ReminderDelay := 10 * time.Second;
     config.Alerter_Email := None |}.

Definition google : config.Pinger :=
  {| config.Name := "google.com";
     config.Type_ := "http";
     config.Check := "google";
     config.Pinger_Schedule := None |}.

(** A definition of a type that the engine does not know. *)
Definition router : config.Pinger :=
  {| config.Name := "router";
     config.Type_ := "icmp";
     config.Check := "router";
     config.Pinger_Schedule := None |}.

Definition engine_config (pingers : list config.Pinger) : config.Engine :=
  {| config.DefaultSchedule := None;
     config.Pingers := pingers;
     config.Engine_Alerter := Some alerter |}.

(** The fourth pinger of the sample configuration: an SSH check with a
    password and a command. *)
Definition ssh_check : config.SSHCheck :=
  {| config.Host := "localhost";
     config.Port := 22;
     config.Auth := {| config.SSHAuth_Username := "foo";
                       config.SSHAuth_Password := Some "bar"%string;
                       config.Key := None;
                       config.Agent := false |};
     config.Command := "service docker status | grep running";
     config.CommandFile := "";
     config.SSHCheck_Expect := config.mkSSHExpectation 0;
     config.SSHCheck_Timeout := None |}.

(** The same check with an empty password as its only credential. *)
Definition ssh_check_empty_password : config.SSHCheck :=
  {| config.Host := "localhost";
     config.Port := 22;
     config.Auth := {| config.SSHAuth_Username := "foo";
                       config.SSHAuth_Password := Some ""%string;
                       config.Key := None;
                       config.Agent := false |};
     config.Command := "service docker status | grep running";
     config.CommandFile := "";
     config.SSHCheck_Expect := config.mkSSHExpectation 0;
     config.SSHCheck_Timeout := None |}.

(** The sample runtime with a JSON decoder that knows the two SSH checks. *)
Definition runtime_ssh : config.Runtime :=
  {| config.json_Unmarshal_HTTPCheck := config.json_Unmarshal_HTTPCheck runtime;
     config.json_Unmarshal_SSHCheck :=
       fun raw => if String.eqb raw "docker" then inr ssh_check
                  else if String.eqb raw "docker-empty-password"
                  then inr ssh_check_empty_password
                  else inl "invalid character"%string;
     config.url_Parse := config.url_Parse runtime;
     config.strings_TrimSpace := config.strings_TrimSpace runtime;
     config.ipv4AddrRegexp := config.ipv4AddrRegexp runtime;
     config.hostnameRegexp := config.hostnameRegexp runtime;
     config.loginNameRegexp := config.loginNameRegexp runtime;
     config.os_Stat := config.os_Stat runtime;
     config.ioutil_ReadFile := config.ioutil_ReadFile runtime |}.

Definition docker : config.Pinger :=
  {| config.Name := "localhost-docker-running";
     config.Type_ := "ssh";
     config.Check := "docker";
     config.Pinger_Schedule := None |}.

Definition docker_empty_password : config.Pinger :=
  {| config.Name := "localhost-docker-running";
     config.Type_ := "ssh";
     config.Check := "docker-empty-password";
     config.Pinger_Schedule := None |}.

(** Every name that is not empty is a pinger name; every address parses. *)
Definition syntax : config.Syntax :=
  {| config.validPingerName := fun name => negb (String.eqb name "");
     config.mail_ParseAddress := fun _ => None |}.

(** The sample configuration without an alerter section. *)
Definition engine_config_without_alerter (pingers : list config.Pinger)
  : config.Engine :=
  {| config.DefaultSchedule := None;
     config.Pingers := pingers;
     config.Engine_Alerter := None |}.

(** A second definition under the name of [google], with a schedule of its
    own. *)
Definition google_again : config.Pinger :=
  {| config.Name := "google.com";
     config.Type_ := "http";
     config.Check := "google";
     config.Pinger_Schedule :=
       Some {| config.Interval := Some time.Minute;
               config.Schedule_Retries :=
                 Some (config.mkRetries 1 time.Second false) |} |}.

End sample.

(** * Properties *)

Import GoInt ping engine observe.
Local Open Scope go_scope.

(** ** 64-bit arithmetic *)

(** Unfolds the 64-bit constants to numerals, for [lia]. *)
Ltac int64_unfold :=
  unfold in_int64, min_int64, max_int64 in *;
  change (2 ^ 64) with 18446744073709551616 in *;
  change (2 ^ 63) with 9223372036854775808 in *.

Section GoInt_facts.

Lemma wrap64_id z : in_int64 z -> wrap64 z = z.
Proof.
  unfold wrap64. int64_unfold. intros Hz.
  rewrite Z.mod_small; lia.
Qed.

Lemma wrap64_range z : in_int64 (wrap64 z).
Proof.
  unfold wrap64. int64_unfold.
  pose proof (Z.mod_pos_bound (z + 9223372036854775808) 18446744073709551616).
  lia.
Qed.

Lemma wrap64_mul_2 z : wrap64 (wrap64 z * 2) = wrap64 (z * 2).
Proof.
  unfold wrap64. int64_unfold.
  f_equal.
  set (q := (z + 9223372036854775808) / 18446744073709551616).
  replace ((z + 9223372036854775808) mod 18446744073709551616
           - 9223372036854775808)
    with (z + (- q) * 18446744073709551616).
  2:{ pose proof (Z.div_mod (z + 9223372036854775808) 18446744073709551616).
      subst q. lia. }
  replace ((z + - q * 18446744073709551616) * 2 + 9223372036854775808)
    with (z * 2 + 9223372036854775808 + (- q * 2) * 18446744073709551616)
    by lia.
  apply Z_mod_plus_full.
Qed.

Lemma sat64_id z : in_int64 z -> sat64 z = z.
Proof.
  unfold sat64. intros Hz.
  destruct (Z.ltb_spec z min_int64); [unfold in_int64 in Hz; lia |].
  destruct (Z.ltb_spec max_int64 z); [unfold in_int64 in Hz; lia | reflexivity].
Qed.

Lemma sat64_range z : in_int64 (sat64 z).
Proof.
  unfold sat64.
  destruct (Z.ltb_spec z min_int64); [int64_unfold; lia |].
  destruct (Z.ltb_spec max_int64 z); int64_unfold; lia.
Qed.

End GoInt_facts.

(** ** The retry loop, one step at a time *)

Section ping_loop_facts.
Context `{ping.Pinger P}.
Variable task : PingerTask P.
Variable retries : config.Retries.

Lemma advance_0 (w : World Exchange) : advance w 0 [] = w.
Proof.
  destruct w as [nt cl pg rd tr]. unfold advance; simpl.
  rewrite Nat.add_0_r, app_nil_r. reflexivity.
Qed.

Lemma advance_advance (w : World Exchange) j k e1 e2 :
  advance (advance w j e1) k e2 = advance w (j + k) (e1 ++ e2).
Proof.
  unfold advance; simpl. rewrite Nat.add_assoc, app_assoc. reflexivity.
Qed.

Lemma ping_at_advance (w : World Exchange) j evs i :
  ping_at (Pinger task) (advance w j evs) i = ping_at (Pinger task) w (j + i).
Proof. unfold ping_at, advance; simpl. rewrite Nat.add_assoc. reflexivity. Qed.

Lemma results_S (w : World Exchange) j :
  results (Pinger task) w (S j)
  = fst (ping_at (Pinger task) w 0)
    :: results (Pinger task) (advance w 1 [EvPing (fst (ping_at (Pinger task) w 0))]) j.
Proof.
  unfold results. simpl. f_equal.
  rewrite <- seq_shift, map_map.
  apply map_ext. intros i. rewrite ping_at_advance. reflexivity.
Qed.

Lemma ping_loop_S fuel a dl res out :
  ping_loop (S fuel) task retries a dl res out
  = let maxAttempts := config.Attempts retries in
    if a <=? maxAttempts then
      r <- Pinger_Ping (Pinger task) ;;
      let result := fst r in
      let output := snd r in
      if Status_eqb (Result_Status result) StatusOK then
        ret (Some (result, output))
      else
        let attemptDelay := next_delay retries dl in
        (if a <? maxAttempts then time_Sleep attemptDelay else ret tt) ;;
        ping_loop fuel task retries (wrap64 (a + 1)) attemptDelay
          result output
    else ret (Some (res, out)).
Proof. reflexivity. Qed.

(** The loop is left at once when the attempt counter exceeds the
    configured number of attempts. *)
Lemma ping_loop_exit fuel a dl res out (w : World Exchange) :
  config.Attempts retries < a ->
  ping_loop (S fuel) task retries a dl res out w = (Some (res, out), w).
Proof.
  intros Ha. simpl.
  destruct (Z.leb_spec a (config.Attempts retries)); [lia | reflexivity].
Qed.

(** An attempt that succeeds ends the loop. *)
Lemma ping_loop_ok fuel a dl res out (w : World Exchange) :
  a <= config.Attempts retries ->
  Result_Status (fst (ping_at (Pinger task) w 0)) = StatusOK ->
  ping_loop (S fuel) task retries a dl res out w
  = (Some (ping_at (Pinger task) w 0),
     advance w 1 [EvPing (fst (ping_at (Pinger task) w 0))]).
Proof.
  intros Ha Hok. simpl.
  destruct (Z.leb_spec a (config.Attempts retries)); [| lia].
  unfold bind, Pinger_Ping, ping_at in *. rewrite Nat.add_0_r in Hok.
  simpl. rewrite Hok. unfold Status_eqb. simpl. unfold ret, advance. simpl.
  rewrite Nat.add_0_r, Nat.add_1_r.
  destruct (Ping (Pinger task) (net w (pings w))); reflexivity.
Qed.

(** A failed attempt that is not the last one is followed by a wait. *)
Lemma ping_loop_fail fuel a dl res out (w : World Exchange) :
  min_int64 <= a -> a < config.Attempts retries ->
  config.Attempts retries <= max_int64 ->
  Result_Status (fst (ping_at (Pinger task) w 0)) <> StatusOK ->
  ping_loop (S fuel) task retries a dl res out w
  = ping_loop fuel task retries (a + 1) (next_delay retries dl)
      (fst (ping_at (Pinger task) w 0)) (snd (ping_at (Pinger task) w 0))
      (advance w 1 [EvPing (fst (ping_at (Pinger task) w 0));
                    EvSleep (next_delay retries dl)]).
Proof.
  intros Hlo Ha Hmax Hnok. simpl.
  destruct (Z.leb_spec a (config.Attempts retries)); [| lia].
  unfold bind, Pinger_Ping, ping_at in *. rewrite Nat.add_0_r in *.
  simpl.
  unfold Status_eqb. rewrite bool_decide_eq_false_2 by exact Hnok.
  destruct (Z.ltb_spec a (config.Attempts retries)); [| lia].
  unfold time_Sleep, log_event, advance, next_delay. simpl.
  rewrite wrap64_id by (int64_unfold; lia).
  rewrite Nat.add_1_r, <- app_assoc. reflexivity.
Qed.

(** The last attempt, when it fails, is followed by no wait. *)
Lemma ping_loop_fail_last fuel dl res out (w : World Exchange) :
  min_int64 <= config.Attempts retries < max_int64 ->
  Result_Status (fst (ping_at (Pinger task) w 0)) <> StatusOK ->
  ping_loop (S (S fuel)) task retries (config.Attempts retries) dl res out w
  = (Some (ping_at (Pinger task) w 0),
     advance w 1 [EvPing (fst (ping_at (Pinger task) w 0))]).
Proof.
  intros Hn Hnok.
  rewrite ping_loop_S. cbv zeta.
  rewrite Z.leb_refl, Z.ltb_irrefl.
  unfold bind at 1. unfold Pinger_Ping at 1. unfold ping_at in *.
  rewrite Nat.add_0_r in *. cbv beta iota zeta. simpl fst. simpl snd.
  unfold Status_eqb. rewrite bool_decide_eq_false_2 by exact Hnok.
  unfold bind at 1. unfold ret at 1.
  rewrite wrap64_id by (int64_unfold; lia).
  rewrite ping_loop_exit by lia.
  unfold advance. simpl. rewrite Nat.add_1_r.
  destruct (Ping (Pinger task) (net w (pings w))); reflexivity.
Qed.

End ping_loop_facts.

(** ** The retry loop over several failed attempts *)

Section ping_loop_retries.
Context `{ping.Pinger P}.
Variable task : PingerTask P.
Variable retries : config.Retries.

(** [j] failed attempts, none of them the last one: the loop goes on from
    attempt [a + j] with the delay stepped [j] times, after the events of
    [retry_trace]. *)
Lemma ping_loop_retries (j : nat) : forall fuel a dl res out (w : World Exchange),
  min_int64 <= a -> a + Z.of_nat j <= config.Attempts retries ->
  config.Attempts retries <= max_int64 ->
  (forall i, (i < j)%nat ->
     Result_Status (fst (ping_at (Pinger task) w i)) <> StatusOK) ->
  exists res' out',
    ping_loop (j + fuel) task retries a dl res out w
    = ping_loop fuel task retries (a + Z.of_nat j)
        (Nat.iter j (next_delay retries) dl) res' out'
        (advance w j (retry_trace retries dl (results (Pinger task) w j))).
Proof.
  induction j as [| j IH]; intros fuel a dl res out w Hlo Ha Hmax Hfail.
  - exists res, out. simpl. rewrite advance_0, Z.add_0_r. reflexivity.
  - change (S j + fuel)%nat with (S (j + fuel)).
    rewrite ping_loop_fail; [| lia | lia | lia | apply Hfail; lia].
    set (r0 := ping_at (Pinger task) w 0).
    set (w1 := advance w 1 [EvPing (fst r0); EvSleep (next_delay retries dl)]).
    destruct (IH fuel (a + 1) (next_delay retries dl) (fst r0) (snd r0) w1)
      as (res' & out' & Heq); [lia | lia | lia | |].
    { intros i Hi. subst w1. rewrite ping_at_advance. apply Hfail. lia. }
    exists res', out'. rewrite Heq.
    f_equal; [lia | symmetry; apply Nat.iter_succ_r |].
    subst w1. rewrite advance_advance. f_equal.
    rewrite results_S. cbn [retry_trace app]. fold r0.
    do 3 f_equal.
Qed.

Lemma retry_trace_length dl rs :
  length (retry_trace retries dl rs) = (2 * length rs)%nat.
Proof.
  revert dl. induction rs as [| r rs IH]; intros dl; simpl; [reflexivity |].
  rewrite IH. lia.
Qed.

(** In [retry_trace] the attempts sit at the even positions and the waits
    at the odd ones. *)
Lemma retry_trace_lookup_ping rs : forall dl i r,
  rs !! i = Some r ->
  retry_trace retries dl rs !! (2 * i)%nat = Some (EvPing r).
Proof.
  induction rs as [| r0 rs IH]; intros dl i r Hi; [discriminate |].
  destruct i as [| i]; simpl in *.
  - congruence.
  - replace (i + S (i + 0))%nat with (S (2 * i)) by lia. simpl.
    apply IH, Hi.
Qed.

Lemma retry_trace_lookup_sleep rs : forall dl i,
  (i < length rs)%nat ->
  retry_trace retries dl rs !! (2 * i + 1)%nat
  = Some (EvSleep (Nat.iter (S i) (next_delay retries) dl)).
Proof.
  induction rs as [| r0 rs IH]; intros dl i Hi; simpl in Hi; [lia |].
  destruct i as [| i].
  - reflexivity.
  - replace (2 * S i + 1)%nat with (S (S (2 * i + 1))) by lia.
    cbn [retry_trace lookup list_lookup].
    rewrite IH by lia. rewrite <- Nat.iter_succ_r. reflexivity.
Qed.

Lemma sleeps_retry_trace rs : forall dl,
  sleeps (retry_trace retries dl rs)
  = map (fun i => Nat.iter (S i) (next_delay retries) dl) (seq 0 (length rs)).
Proof.
  induction rs as [| r0 rs IH]; intros dl; [reflexivity |].
  cbn [retry_trace length seq map]. unfold sleeps in *. cbn [omap list_omap].
  rewrite IH. f_equal. rewrite <- seq_shift, map_map.
  apply map_ext. intros i. rewrite <- Nat.iter_succ_r. reflexivity.
Qed.

Lemma pinged_retry_trace rs : forall dl,
  pinged (retry_trace retries dl rs) = rs.
Proof.
  induction rs as [| r0 rs IH]; intros dl; [reflexivity |].
  cbn [retry_trace]. unfold pinged in *. cbn [omap list_omap].
  rewrite IH. reflexivity.
Qed.

(** With exponential backoff, [k >= 1] steps of the delay give
    [d * 2^k], wrapped to 64 bits. *)
Lemma next_delay_iter_backoff (k : nat) d :
  config.ExponentialBackoff retries = true ->
  Nat.iter (S k) (next_delay retries) d = wrap64 (d * 2 ^ Z.of_nat (S k)).
Proof.
  intros Hb. induction k as [| k IH].
  - simpl. unfold next_delay. rewrite Hb. reflexivity.
  - rewrite Nat.iter_succ, IH. unfold next_delay. rewrite Hb.
    rewrite wrap64_mul_2. f_equal.
    rewrite (Nat2Z.inj_succ (S k)), Z.pow_succ_r by lia. lia.
Qed.

Lemma next_delay_iter_constant (k : nat) d :
  config.ExponentialBackoff retries = false ->
  Nat.iter k (next_delay retries) d = d.
Proof.
  intros Hb. induction k as [| k IH]; [reflexivity |].
  rewrite Nat.iter_succ, IH. unfold next_delay. rewrite Hb. reflexivity.
Qed.

End ping_loop_retries.

(** ** The check cycle: [PingerTask.ping] *)

Section ping_cycle.
Context `{ping.Pinger P}.
Variable task : PingerTask P.
Variable retries : config.Retries.
Hypothesis Hretries : config.Schedule_Retries (Schedule task) = Some retries.

(** The cycle when attempt [j + 1] is the first to succeed. *)
Lemma ping_first_ok (w : World Exchange) (j : nat) :
  Z.of_nat j < config.Attempts retries <= max_int64 ->
  (forall i, (i < j)%nat ->
     Result_Status (fst (ping_at (Pinger task) w i)) <> StatusOK) ->
  Result_Status (fst (ping_at (Pinger task) w j)) = StatusOK ->
  PingerTask_ping task w
  = Return (Some (ping_at (Pinger task) w j),
            advance w (S j)
              (retry_trace retries (config.Delay retries)
                 (results (Pinger task) w j)
               ++ [EvPing (fst (ping_at (Pinger task) w j))])).
Proof.
  intros Hn Hfail Hok. unfold PingerTask_ping. rewrite Hretries. f_equal.
  replace (S (Z.to_nat (config.Attempts retries)))
    with (j + S (Z.to_nat (config.Attempts retries) - j))%nat by lia.
  destruct (ping_loop_retries task retries j
              (S (Z.to_nat (config.Attempts retries) - j)) 1
              (config.Delay retries) Result_zero None w)
    as (res' & out' & Heq); [int64_unfold; lia | lia | lia | exact Hfail |].
  rewrite Heq. rewrite ping_loop_ok.
  - rewrite ping_at_advance, Nat.add_0_r, advance_advance.
    replace (j + 1)%nat with (S j) by lia. reflexivity.
  - lia.
  - rewrite ping_at_advance, Nat.add_0_r. exact Hok.
Qed.

(** The cycle when all of the [m >= 1] configured attempts fail. *)
Lemma ping_all_fail (w : World Exchange) (m : nat) :
  config.Attempts retries = Z.of_nat (S m) ->
  config.Attempts retries < max_int64 ->
  (forall i, (i <= m)%nat ->
     Result_Status (fst (ping_at (Pinger task) w i)) <> StatusOK) ->
  PingerTask_ping task w
  = Return (Some (ping_at (Pinger task) w m),
            advance w (S m)
              (retry_trace retries (config.Delay retries)
                 (results (Pinger task) w m)
               ++ [EvPing (fst (ping_at (Pinger task) w m))])).
Proof.
  intros Hn Hmax Hfail. unfold PingerTask_ping. rewrite Hretries. f_equal.
  replace (S (Z.to_nat (config.Attempts retries))) with (m + 2)%nat by lia.
  destruct (ping_loop_retries task retries m 2 1
              (config.Delay retries) Result_zero None w)
    as (res' & out' & Heq);
    [int64_unfold; lia | lia | lia | intros i Hi; apply Hfail; lia |].
  rewrite Heq.
  replace (1 + Z.of_nat m) with (config.Attempts retries) by lia.
  rewrite ping_loop_fail_last.
  - rewrite ping_at_advance, Nat.add_0_r, advance_advance.
    replace (m + 1)%nat with (S m) by lia. reflexivity.
  - int64_unfold; lia.
  - rewrite ping_at_advance, Nat.add_0_r. apply Hfail. lia.
Qed.

(** The cycle when no attempt is configured. *)
Lemma ping_no_attempt (w : World Exchange) :
  config.Attempts retries <= 0 ->
  PingerTask_ping task w = Return (Some (Result_zero, None), w).
Proof.
  intros Hn. unfold PingerTask_ping. rewrite Hretries. f_equal.
  apply ping_loop_exit. lia.
Qed.

End ping_cycle.

Section trace_facts.
Context `{ping.Pinger P}.

Lemma results_length (pinger : P) (w : World Exchange) k :
  length (results pinger w k) = k.
Proof. unfold results. rewrite length_map, length_seq. reflexivity. Qed.

Lemma results_lookup (pinger : P) (w : World Exchange) k i :
  (i < k)%nat -> results pinger w k !! i = Some (fst (ping_at pinger w i)).
Proof.
  intros Hi. unfold results. rewrite list_lookup_fmap.
  rewrite lookup_seq_lt by exact Hi. reflexivity.
Qed.

Lemma results_snoc (pinger : P) (w : World Exchange) k :
  results pinger w (S k) = results pinger w k ++ [fst (ping_at pinger w k)].
Proof. unfold results. rewrite seq_S, map_app. reflexivity. Qed.

Lemma sleeps_app evs evs' : sleeps (evs ++ evs') = sleeps evs ++ sleeps evs'.
Proof. unfold sleeps. apply omap_app. Qed.

Lemma pinged_app evs evs' : pinged (evs ++ evs') = pinged evs ++ pinged evs'.
Proof. unfold pinged. apply omap_app. Qed.

End trace_facts.

(** C7. With [attempts >= 1], the cycle stops at the first attempt whose
    outcome is OK: when attempt [j + 1] is the first successful one, [ping]
    returns the outcome of that attempt, the checker has been invoked
    exactly [j + 1] times (once per attempt up to and including it), [j]
    waits were made (one after each failed attempt) and the successful
    attempt is the last event of the cycle, so that neither an attempt nor a
    wait follows it. *)
Theorem ping_stops_at_first_ok `{ping.Pinger P}
    (task : PingerTask P) (retries : config.Retries)
    (w : World Exchange) (j : nat) :
  config.Schedule_Retries (Schedule task) = Some retries ->
  1 <= config.Attempts retries <= max_int64 ->
  Z.of_nat j < config.Attempts retries ->
  (forall i, (i < j)%nat ->
     Result_Status (fst (ping_at (Pinger task) w i)) <> StatusOK) ->
  Result_Status (fst (ping_at (Pinger task) w j)) = StatusOK ->
  exists evs,
    PingerTask_ping task w
    = Return (Some (ping_at (Pinger task) w j), advance w (S j) evs) /\
    pinged evs = results (Pinger task) w (S j) /\
    length (pinged evs) = S j /\
    length (sleeps evs) = j /\
    last evs = Some (EvPing (fst (ping_at (Pinger task) w j))).
Proof.
  intros Hretries Hn Hj Hfail Hok.
  eexists. split; [apply (ping_first_ok task retries Hretries); [lia | exact Hfail | exact Hok] |].
  assert (Hp : pinged (retry_trace retries (config.Delay retries)
                         (results (Pinger task) w j)
                       ++ [EvPing (fst (ping_at (Pinger task) w j))])
               = results (Pinger task) w (S j)).
  { rewrite pinged_app, pinged_retry_trace, results_snoc. reflexivity. }
  repeat split.
  - exact Hp.
  - rewrite Hp. apply results_length.
  - rewrite sleeps_app, sleeps_retry_trace, length_app, length_map, length_seq.
    rewrite results_length. simpl. lia.
  - apply last_snoc.
Qed.

(** C7, the instance of the specification: three attempts configured and a
    server that fails once and then succeeds give exactly two invocations of
    the checker and the result OK. *)
Lemma ping_stops_at_first_ok_witness :
  exists evs,
    PingerTask_ping (sample.task (config.mkRetries 3 time.Second false))
      (sample.world sample.down_once)
    = Return (Some (mkResult StatusOK None, Some []),
              advance (sample.world sample.down_once) 2 evs) /\
    pinged evs
    = results sample.pinger (sample.world sample.down_once) 2 /\
    length (pinged evs) = 2%nat /\
    length (sleeps evs) = 1%nat /\
    last evs = Some (EvPing (mkResult StatusOK None)).
Proof.
  apply (ping_stops_at_first_ok (H := HTTPPinger_Pinger)
           (sample.task (config.mkRetries 3 time.Second false))
           (config.mkRetries 3 time.Second false)
           (sample.world sample.down_once) 1).
  - reflexivity.
  - vm_compute. split; discriminate.
  - reflexivity.
  - intros i Hi. assert (i = 0%nat) as -> by lia. vm_compute. discriminate.
  - reflexivity.
Defined.

(** C1, as amended. With exponential backoff, a retry delay [d] and
    [attempts = n >= 1], when every attempt returns NOK the cycle makes
    exactly [n] attempts and returns NOK; the delay is doubled before it is
    used, so the wait made directly before attempt [k], for [2 <= k <= n],
    is [d * 2^(k-1)] (in 64-bit arithmetic; exactly that product when it
    fits in 64 bits). The events of the cycle alternate: attempt [k] is at
    position [2k - 2] and the wait before it at position [2k - 3]; the last
    event is the last attempt: no wait follows it. *)
Theorem ping_backoff_waits `{ping.Pinger P}
    (task : PingerTask P) (retries : config.Retries) (w : World Exchange) :
  config.Schedule_Retries (Schedule task) = Some retries ->
  config.ExponentialBackoff retries = true ->
  1 <= config.Attempts retries < max_int64 ->
  (forall i, Z.of_nat i < config.Attempts retries ->
     Result_Status (fst (ping_at (Pinger task) w i)) = StatusNOK) ->
  exists r w' evs,
    PingerTask_ping task w = Return (Some r, w') /\
    Result_Status (fst r) = StatusNOK /\
    trace w' = trace w ++ evs /\
    length (pinged evs) = Z.to_nat (config.Attempts retries) /\
    length (sleeps evs) = (Z.to_nat (config.Attempts retries) - 1)%nat /\
    (forall k : nat,
       (2 <= k)%nat -> Z.of_nat k <= config.Attempts retries ->
       evs !! (2 * k - 3)%nat
       = Some (EvSleep (wrap64 (config.Delay retries * 2 ^ (Z.of_nat k - 1)))) /\
       evs !! (2 * k - 2)%nat
       = Some (EvPing (fst (ping_at (Pinger task) w (k - 1)))) /\
       sleeps evs !! (k - 2)%nat
       = Some (wrap64 (config.Delay retries * 2 ^ (Z.of_nat k - 1))) /\
       (in_int64 (config.Delay retries * 2 ^ (Z.of_nat k - 1)) ->
        sleeps evs !! (k - 2)%nat
        = Some (config.Delay retries * 2 ^ (Z.of_nat k - 1)))) /\
    last evs = Some (EvPing (fst r)).
Proof.
  intros Hretries Hb Hn Hnok.
  set (m := (Z.to_nat (config.Attempts retries) - 1)%nat).
  assert (Hm : config.Attempts retries = Z.of_nat (S m)) by lia.
  assert (Hfail : forall i, (i <= m)%nat ->
            Result_Status (fst (ping_at (Pinger task) w i)) <> StatusOK).
  { intros i Hi. rewrite Hnok by lia. discriminate. }
  pose proof (ping_all_fail task retries Hretries w m Hm (proj2 Hn) Hfail) as Hping.
  set (d := config.Delay retries) in *.
  set (rs := results (Pinger task) w m) in *.
  exists (ping_at (Pinger task) w m). eexists. eexists.
  split; [exact Hping |].
  split; [apply Hnok; lia |].
  split; [reflexivity |].
  assert (Hsl : forall i, (i < m)%nat ->
            sleeps (retry_trace retries d rs ++ [EvPing (fst (ping_at (Pinger task) w m))]) !! i
            = Some (wrap64 (d * 2 ^ Z.of_nat (S i)))).
  { intros i Hi. rewrite sleeps_app, sleeps_retry_trace. simpl. rewrite app_nil_r.
    unfold rs. rewrite results_length, list_lookup_fmap, lookup_seq_lt by exact Hi.
    simpl. rewrite <- (next_delay_iter_backoff retries i d Hb). reflexivity. }
  split.
  { rewrite pinged_app, pinged_retry_trace, length_app. unfold rs.
    rewrite results_length. simpl. lia. }
  split.
  { rewrite sleeps_app, sleeps_retry_trace, length_app, length_map, length_seq.
    unfold rs. rewrite results_length. simpl. lia. }
  split; [| apply last_snoc].
  intros k Hk2 Hkn.
  assert (Hi : (k - 2 < m)%nat) by lia.
  replace (Z.of_nat k - 1) with (Z.of_nat (S (k - 2))) by lia.
  split; [| split; [| split]].
  - rewrite lookup_app_l by (rewrite retry_trace_length; unfold rs; rewrite results_length; lia).
    replace (2 * k - 3)%nat with (2 * (k - 2) + 1)%nat by lia.
    rewrite retry_trace_lookup_sleep by (unfold rs; rewrite results_length; lia).
    rewrite (next_delay_iter_backoff retries (k - 2) d Hb). reflexivity.
  - replace (2 * k - 2)%nat with (2 * (k - 1))%nat by lia.
    destruct (decide (k - 1 < m)%nat) as [Hlt | Hge].
    + rewrite lookup_app_l by (rewrite retry_trace_length; unfold rs; rewrite results_length; lia).
      apply retry_trace_lookup_ping. unfold rs. apply results_lookup. exact Hlt.
    + assert (k - 1 = m)%nat as -> by lia.
      rewrite lookup_app_r by (rewrite retry_trace_length; unfold rs; rewrite results_length; lia).
      rewrite retry_trace_length. unfold rs. rewrite results_length.
      replace (2 * m - 2 * m)%nat with 0%nat by lia. reflexivity.
  - apply Hsl. exact Hi.
  - intros Hin. rewrite Hsl by exact Hi. rewrite wrap64_id by exact Hin. reflexivity.
Qed.

(** C1, the instance of the specification: three attempts, a retry delay
    of one second, exponential backoff and a server that always fails. The
    waits are two and then four seconds, and the cycle ends with the third
    attempt. *)
Lemma ping_backoff_waits_witness :
  exists r w' evs,
    PingerTask_ping (sample.task (config.mkRetries 3 time.Second true))
      (sample.world sample.always_down) = Return (Some r, w') /\
    trace w' = trace (sample.world sample.always_down) ++ evs /\
    sleeps evs !! 0%nat = Some (2 * time.Second) /\
    sleeps evs !! 1%nat = Some (4 * time.Second) /\
    length (sleeps evs) = 2%nat /\
    last evs = Some (EvPing (fst r)).
Proof.
  destruct (ping_backoff_waits (H := HTTPPinger_Pinger)
              (sample.task (config.mkRetries 3 time.Second true))
              (config.mkRetries 3 time.Second true)
              (sample.world sample.always_down))
    as (r & w' & evs & Hping & _ & Htrace & _ & Hlen & Hwaits & Hlast).
  - reflexivity.
  - reflexivity.
  - vm_compute. split; [discriminate | reflexivity].
  - intros i _. reflexivity.
  - exists r, w', evs.
    destruct (Hwaits 2%nat) as (_ & _ & _ & H2); [lia | vm_compute; discriminate |].
    destruct (Hwaits 3%nat) as (_ & _ & _ & H3); [lia | vm_compute; discriminate |].
    repeat split; try assumption.
    + apply H2. vm_compute. split; discriminate.
    + apply H3. vm_compute. split; discriminate.
Defined.

(** C1 as the specification states it fails on the instance above: the
    first wait is two seconds, not one. *)
Lemma backoff_waits_as_specified_counterexample :
  ~ spec.backoff_waits_as_specified
      (sample.task (config.mkRetries 3 time.Second true))
      (sample.world sample.always_down).
Proof.
  intros Hspec.
  destruct (Hspec (config.mkRetries 3 time.Second true))
    as (r & w' & Hping & Hwaits).
  - reflexivity.
  - reflexivity.
  - intros i. reflexivity.
  - vm_compute in Hping. injection Hping as _ Hw'. subst w'.
    specialize (Hwaits 2%nat). vm_compute in Hwaits.
    specialize (Hwaits ltac:(lia) ltac:(discriminate)). discriminate.
Qed.

(** C2, as amended. With [attempts <= 0] the loop body is never entered:
    the checker is not invoked, no wait is made (the world is unchanged),
    and the cycle returns the zero result: status Unknown, no error, no
    output. *)
Theorem ping_nonpositive_attempts `{ping.Pinger P}
    (task : PingerTask P) (retries : config.Retries) (w : World Exchange) :
  config.Schedule_Retries (Schedule task) = Some retries ->
  config.Attempts retries <= 0 ->
  PingerTask_ping task w
  = Return (Some (mkResult StatusUnknown None, None), w).
Proof.
  intros Hretries Hn. exact (ping_no_attempt task retries Hretries w Hn).
Qed.

Lemma ping_nonpositive_attempts_witness :
  PingerTask_ping (sample.task (config.mkRetries 0 (3 * time.Second) false))
    (sample.world sample.always_up)
  = Return (Some (mkResult StatusUnknown None, None),
            sample.world sample.always_up).
Proof.
  apply (ping_nonpositive_attempts (H := HTTPPinger_Pinger)
           (sample.task (config.mkRetries 0 (3 * time.Second) false))
           (config.mkRetries 0 (3 * time.Second) false)).
  - reflexivity.
  - simpl. lia.
Defined.

(** C2 as the specification states it fails for [attempts = 0] and a server
    that is up: the checker is not invoked and the result is not the outcome
    of an invocation. *)
Lemma nonpositive_attempts_as_specified_counterexample :
  ~ spec.nonpositive_attempts_as_specified
      (sample.task (config.mkRetries 0 (3 * time.Second) false))
      (sample.world sample.always_up).
Proof.
  intros Hspec.
  destruct (Hspec (config.mkRetries 0 (3 * time.Second) false))
    as (w' & Hping & Hpings).
  - reflexivity.
  - simpl. lia.
  - vm_compute in Hping. discriminate.
Qed.

(** [Retries.Validate] accepts exactly the non-negative numbers of
    attempts: zero attempts pass validation. *)
Lemma Retries_Validate_accepts retry :
  config.Retries_Validate retry = None <-> 0 <= config.Attempts retry.
Proof.
  unfold config.Retries_Validate.
  destruct (Z.ltb_spec (config.Attempts retry) 0); split; intros; try lia;
    try discriminate; reflexivity.
Qed.

(** ** The status of a task: [PingerTask.updateStatus] and [PingerTask.Start] *)

Section status_facts.
Context `{ping.Pinger P}.

(** What [updateStatus] computes, field by field. *)
Lemma updateStatus_Status (task : PingerTask P) result output (w : World Exchange) :
  Status (fst (PingerTask_updateStatus task result output w))
  = {| LatestResult := result;
       Consecutive :=
         if Status_eqb (Result_Status result)
                       (Result_Status (LatestResult (Status task)))
         then wrap64 (Consecutive (Status task) + 1)
         else 1;
       LatestOK :=
         match Result_Status result with
         | StatusOK => Some (clock w (reads w))
         | _ => LatestOK (Status task)
         end;
       LatestNOK :=
         match Result_Status result with
         | StatusNOK => Some (clock w (reads w))
         | _ => LatestNOK (Status task)
         end |}.
Proof. reflexivity. Qed.

(** Every completed cycle sends the new status on the status channel. *)
Lemma updateStatus_sends (task : PingerTask P) result output (w : World Exchange) :
  trace (snd (PingerTask_updateStatus task result output w))
  = trace w
    ++ [EvSend (mkStatusUpdate (Name task)
                  (Status (fst (PingerTask_updateStatus task result output w))))].
Proof. reflexivity. Qed.

Lemma updateStatus_consecutive_bounds (task : PingerTask P) result output
    (w : World Exchange) k :
  1 <= Consecutive (Status task) <= k -> k < max_int64 ->
  1 <= Consecutive (Status (fst (PingerTask_updateStatus task result output w)))
    <= k + 1.
Proof.
  intros Hc Hk. rewrite updateStatus_Status. simpl.
  destruct (Status_eqb _ _); [| lia].
  rewrite wrap64_id by (int64_unfold; lia). lia.
Qed.

(** In a run of [Start] the counter stays between 1 and the number of
    completed cycles plus one: it cannot wrap around in fewer than
    [2^63 - 2] cycles. *)
Lemma Start_loop_consecutive_bounds (cycles : nat) :
  forall delay (task task' : PingerTask P) (w w' : World Exchange) k,
    1 <= Consecutive (Status task) <= k ->
    k + Z.of_nat cycles < max_int64 + 1 ->
    Start_loop cycles delay task w = Return (Some task', w') ->
    1 <= Consecutive (Status task') <= k + Z.of_nat cycles.
Proof.
  induction cycles as [| cycles IH]; intros delay task task' w w' k Hc Hk Hrun.
  - simpl in Hrun. injection Hrun as <- <-. lia.
  - cbn [Start_loop] in Hrun.
    destruct (time_Sleep delay w) as [[] w1].
    destruct (PingerTask_ping task w1) as [[[[result output] |] w2] |];
      try discriminate.
    destruct (PingerTask_updateStatus task result output w2) as [task1 w3] eqn:Hup.
    apply (IH delay task1 task' w3 w' (k + 1)) in Hrun; [lia | | lia].
    replace task1 with (fst (PingerTask_updateStatus task result output w2))
      by (rewrite Hup; reflexivity).
    apply updateStatus_consecutive_bounds; [exact Hc | lia].
Qed.

End status_facts.

(** C5. After [updateStatus] with cycle result [r], the consecutive count is
    1 if the status of [r] differs from the status of the previous latest
    result, and the previous count plus 1 if the two are equal. The count is
    a Go [int]: the previous count is assumed to be below the largest one,
    as it is in every run of fewer than [2^63 - 2] cycles
    ([Start_loop_consecutive_bounds]). *)
Theorem updateStatus_consecutive `{ping.Pinger P}
    (task : PingerTask P) (result : Result) (output : option Buffer)
    (w : World Exchange) :
  min_int64 <= Consecutive (Status task) < max_int64 ->
  let task' := fst (PingerTask_updateStatus task result output w) in
  (Result_Status result <> Result_Status (LatestResult (Status task)) ->
   Consecutive (Status task') = 1) /\
  (Result_Status result = Result_Status (LatestResult (Status task)) ->
   Consecutive (Status task') = Consecutive (Status task) + 1).
Proof.
  intros Hc task'. subst task'. rewrite updateStatus_Status. simpl.
  unfold Status_eqb. split; intros Hs.
  - rewrite bool_decide_eq_false_2 by exact Hs. reflexivity.
  - rewrite bool_decide_eq_true_2 by exact Hs.
    apply wrap64_id. int64_unfold. lia.
Qed.

(** C5 on the sample task: after [Start] the status is Unknown with count 1;
    a first result OK resets the count to 1, a result Unknown would make
    it 2. *)
Lemma updateStatus_consecutive_witness :
  Consecutive (Status (fst (PingerTask_updateStatus
     (sample.task (config.mkRetries 3 time.Second false))
     (mkResult StatusOK None) None (sample.world sample.always_up)))) = 1 /\
  Consecutive (Status (fst (PingerTask_updateStatus
     (sample.task (config.mkRetries 3 time.Second false))
     (mkResult StatusUnknown None) None (sample.world sample.always_up)))) = 1 + 1.
Proof.
  split.
  - apply (updateStatus_consecutive (H := HTTPPinger_Pinger)
             (sample.task (config.mkRetries 3 time.Second false))
             (mkResult StatusOK None) None (sample.world sample.always_up)).
    + vm_compute. split; [discriminate | reflexivity].
    + discriminate.
  - apply (updateStatus_consecutive (H := HTTPPinger_Pinger)
             (sample.task (config.mkRetries 3 time.Second false))
             (mkResult StatusUnknown None) None (sample.world sample.always_up)).
    + vm_compute. split; [discriminate | reflexivity].
    + reflexivity.
Defined.

(** C6. [updateStatus] with cycle result [r] read at time [now]: when [r] is
    OK, [LatestOK] becomes [now] and [LatestNOK] keeps its value; when [r]
    is NOK, [LatestNOK] becomes [now] and [LatestOK] keeps its value; when
    [r] is Unknown both keep their values. So [LatestOK] is written exactly
    when [r] is OK and [LatestNOK] exactly when [r] is NOK. *)
Theorem updateStatus_timestamps `{ping.Pinger P}
    (task : PingerTask P) (result : Result) (output : option Buffer)
    (w : World Exchange) :
  let now := clock w (reads w) in
  let task' := fst (PingerTask_updateStatus task result output w) in
  match Result_Status result with
  | StatusOK =>
      LatestOK (Status task') = Some now /\
      LatestNOK (Status task') = LatestNOK (Status task)
  | StatusNOK =>
      LatestNOK (Status task') = Some now /\
      LatestOK (Status task') = LatestOK (Status task)
  | StatusUnknown =>
      LatestOK (Status task') = LatestOK (Status task) /\
      LatestNOK (Status task') = LatestNOK (Status task)
  end.
Proof.
  intros now task'. subst now task'. rewrite updateStatus_Status. simpl.
  destruct (Result_Status result); split; reflexivity.
Qed.



(** Two cycles of the sample task against a server that is down, one
    attempt per cycle: the task sleeps its interval twice, the status is NOK
    for the second time in a row and the time of the last NOK is the second
    reading of the clock. *)
Example Start_two_cycles :
  match PingerTask_Start 2 (sample.task (config.mkRetries 1 time.Second false))
          (sample.world sample.always_down) with
  | Return (Some task', w') =>
      Status task'
      = {| LatestResult :=
             mkResult StatusNOK
               (Some "expected status code (200) differs from actual (500)"%string);
           Consecutive := 2;
           LatestOK := None;
           LatestNOK := Some (1 * time.Second) |} /\
      sleeps (trace w') = [10 * time.Minute; 10 * time.Minute] /\
      length (pinged (trace w')) = 2%nat
  | _ => False
  end.
Proof. vm_compute. repeat split. Qed.

(** ** The dispatcher *)

Section dispatcher_facts.
Variable dispatcher : Dispatcher.
Variable now : Z.
Variable update : StatusUpdate.

Lemma statusChanged_spec (status : PingerTaskStatus) :
  statusChanged status = true
  <-> Consecutive status = 1
      /\ Result_Status (LatestResult status) <> StatusUnknown.
Proof.
  unfold statusChanged, Status_eqb.
  rewrite andb_true_iff, Z.eqb_eq, negb_true_iff, bool_decide_eq_false.
  reflexivity.
Qed.

(** A state transition is always published. *)
Lemma shouldPublish_transition :
  statusChanged (StatusUpdate_Status update) = true ->
  Dispatcher_shouldPublish dispatcher now update = true.
Proof. intros Hc. unfold Dispatcher_shouldPublish. rewrite Hc. reflexivity. Qed.

(** Without a transition, a status other than NOK is never published. *)
Lemma shouldPublish_not_NOK :
  statusChanged (StatusUpdate_Status update) = false ->
  Result_Status (LatestResult (StatusUpdate_Status update)) <> StatusNOK ->
  Dispatcher_shouldPublish dispatcher now update = false.
Proof.
  intros Hc Hs. unfold Dispatcher_shouldPublish, Status_eqb. rewrite Hc.
  rewrite bool_decide_eq_false_2 by exact Hs. reflexivity.
Qed.

(** Without a transition, a NOK status is published when the reminder is
    due with respect to the recorded last alert, and not at all when no
    alert is recorded. *)
Lemma shouldPublish_NOK :
  statusChanged (StatusUpdate_Status update) = false ->
  Result_Status (LatestResult (StatusUpdate_Status update)) = StatusNOK ->
  Dispatcher_shouldPublish dispatcher now update
  = match alertHistory dispatcher !! StatusUpdate_Name update with
    | Some lastAlert =>
        wrap64 (reminderDelay dispatcher - time.Since now lastAlert) <=? 0
    | None => false
    end.
Proof.
  intros Hc Hs. unfold Dispatcher_shouldPublish, Status_eqb. rewrite Hc.
  rewrite bool_decide_eq_true_2 by exact Hs. reflexivity.
Qed.

(** For a reminder delay that is not negative and a last alert that is not
    in the future, the 64-bit test of the source is the test
    [reminderDelay <= now - lastAlert]. *)
Lemma timeUntilReminder_due lastAlert :
  0 <= reminderDelay dispatcher <= max_int64 ->
  lastAlert <= now ->
  (wrap64 (reminderDelay dispatcher - time.Since now lastAlert) <=? 0)
  = (reminderDelay dispatcher <=? now - lastAlert).
Proof.
  intros Hrd Hlast. unfold time.Since, sat64.
  destruct (Z.ltb_spec (now - lastAlert) min_int64); [int64_unfold; lia |].
  destruct (Z.ltb_spec max_int64 (now - lastAlert)).
  - rewrite wrap64_id by (int64_unfold; lia).
    destruct (Z.leb_spec (reminderDelay dispatcher - max_int64) 0); [| lia].
    destruct (Z.leb_spec (reminderDelay dispatcher) (now - lastAlert)); [reflexivity | lia].
  - rewrite wrap64_id by (int64_unfold; lia).
    destruct (Z.leb_spec (reminderDelay dispatcher - (now - lastAlert)) 0);
      destruct (Z.leb_spec (reminderDelay dispatcher) (now - lastAlert));
      try reflexivity; lia.
Qed.

End dispatcher_facts.

(** C3, as amended. For a status update whose latest status is NOK and
    whose consecutive count is not 1, a reminder delay that is not negative
    and a recorded last alert that is not in the future: the dispatcher
    alerts if an alert is recorded for the endpoint and the time since it is
    at least the reminder delay; it suppresses the update otherwise, in
    particular when no alert is recorded. *)
Theorem shouldPublish_reminder (dispatcher : Dispatcher) (now : Z)
    (update : StatusUpdate) :
  Result_Status (LatestResult (StatusUpdate_Status update)) = StatusNOK ->
  Consecutive (StatusUpdate_Status update) <> 1 ->
  0 <= reminderDelay dispatcher <= max_int64 ->
  (forall lastAlert,
     alertHistory dispatcher !! StatusUpdate_Name update = Some lastAlert ->
     lastAlert <= now) ->
  Dispatcher_shouldPublish dispatcher now update
  = match alertHistory dispatcher !! StatusUpdate_Name update with
    | Some lastAlert => reminderDelay dispatcher <=? now - lastAlert
    | None => false
    end.
Proof.
  intros Hnok Hc Hrd Hpast.
  rewrite shouldPublish_NOK; [| | exact Hnok].
  - destruct (alertHistory dispatcher !! StatusUpdate_Name update) as [lastAlert |];
      [| reflexivity].
    apply timeUntilReminder_due; [exact Hrd | apply Hpast; reflexivity].
  - apply not_true_is_false. rewrite statusChanged_spec. tauto.
Qed.

(** C3 on the sample endpoint: a third NOK in a row, eleven seconds after
    the recorded alert, is published; with no alert recorded it is not. *)
Lemma shouldPublish_reminder_witness :
  Dispatcher_shouldPublish
    (sample.dispatcher {[ "google.com"%string := 100 * time.Second ]})
    (111 * time.Second) (sample.event StatusNOK 3) = true /\
  Dispatcher_shouldPublish (sample.dispatcher ∅)
    (111 * time.Second) (sample.event StatusNOK 3) = false.
Proof.
  split.
  - rewrite (shouldPublish_reminder
               (sample.dispatcher {[ "google.com"%string := 100 * time.Second ]})
               (111 * time.Second) (sample.event StatusNOK 3)).
    + reflexivity.
    + reflexivity.
    + discriminate.
    + vm_compute. split; discriminate.
    + intros lastAlert Hl. vm_compute in Hl. injection Hl as <-.
      vm_compute. discriminate.
  - rewrite (shouldPublish_reminder (sample.dispatcher ∅)
               (111 * time.Second) (sample.event StatusNOK 3)).
    + reflexivity.
    + reflexivity.
    + discriminate.
    + vm_compute. split; discriminate.
    + intros lastAlert Hl. vm_compute in Hl. discriminate.
Defined.

(** C3 as the specification states it fails for a second NOK in a row when
    no alert is recorded: the specification alerts, the dispatcher does
    not. *)
Lemma reminder_as_specified_counterexample :
  ~ spec.reminder_as_specified (sample.dispatcher ∅) (111 * time.Second)
      (sample.event StatusNOK 2).
Proof.
  intros Hspec.
  specialize (Hspec eq_refl ltac:(discriminate)).
  vm_compute in Hspec. discriminate.
Qed.

(** C4. A status update whose consecutive count is 1 and whose latest
    status is not Unknown is published, whatever the alert history. Every
    update that is published falls under the transition rule or under the
    reminder rule for NOK; so an update under neither is suppressed: one
    that is no transition and not NOK, and in particular every OK with a
    consecutive count of 2 or more. The same holds when the reminder rule
    is read as the specification words it ([spec.reminder_rule]), for a
    reminder delay that is not negative and a recorded alert that is not in
    the future. *)
Theorem shouldPublish_transition_or_suppress (dispatcher : Dispatcher)
    (now : Z) (update : StatusUpdate) :
  let status := StatusUpdate_Status update in
  (Consecutive status = 1 ->
   Result_Status (LatestResult status) <> StatusUnknown ->
   Dispatcher_shouldPublish dispatcher now update = true) /\
  (Dispatcher_shouldPublish dispatcher now update = true ->
   (Consecutive status = 1 /\
    Result_Status (LatestResult status) <> StatusUnknown) \/
   (Result_Status (LatestResult status) = StatusNOK /\
    exists lastAlert,
      alertHistory dispatcher !! StatusUpdate_Name update = Some lastAlert /\
      wrap64 (reminderDelay dispatcher - time.Since now lastAlert) <= 0)) /\
  (~ (Consecutive status = 1 /\
      Result_Status (LatestResult status) <> StatusUnknown) ->
   Result_Status (LatestResult status) <> StatusNOK ->
   Dispatcher_shouldPublish dispatcher now update = false) /\
  (Result_Status (LatestResult status) = StatusOK ->
   2 <= Consecutive status ->
   Dispatcher_shouldPublish dispatcher now update = false) /\
  (0 <= reminderDelay dispatcher <= max_int64 ->
   (forall lastAlert,
      alertHistory dispatcher !! StatusUpdate_Name update = Some lastAlert ->
      lastAlert <= now) ->
   ~ (Consecutive status = 1 /\
      Result_Status (LatestResult status) <> StatusUnknown) ->
   ~ (Result_Status (LatestResult status) = StatusNOK /\
      spec.reminder_rule dispatcher now update = true) ->
   Dispatcher_shouldPublish dispatcher now update = false).
Proof.
  intros status. subst status.
  split; [| split; [| split; [| split]]].
  - intros Hc Hs. apply shouldPublish_transition, statusChanged_spec. tauto.
  - intros Hpub.
    destruct (statusChanged (StatusUpdate_Status update)) eqn:Hch.
    + left. apply statusChanged_spec. exact Hch.
    + right.
      destruct (decide (Result_Status (LatestResult (StatusUpdate_Status update))
                        = StatusNOK)) as [Hnok | Hnok].
      * split; [exact Hnok |].
        rewrite shouldPublish_NOK in Hpub by assumption.
        destruct (alertHistory dispatcher !! StatusUpdate_Name update)
          as [lastAlert |]; [| discriminate].
        exists lastAlert. split; [reflexivity |].
        apply Z.leb_le. exact Hpub.
      * rewrite shouldPublish_not_NOK in Hpub by assumption. discriminate.
  - intros Hnt Hs. apply shouldPublish_not_NOK; [| exact Hs].
    apply not_true_is_false. rewrite statusChanged_spec. exact Hnt.
  - intros Hok Hc. apply shouldPublish_not_NOK.
    + apply not_true_is_false. rewrite statusChanged_spec. lia.
    + rewrite Hok. discriminate.
  - intros Hrd Hpast Hnt Hnr.
    assert (Hch : statusChanged (StatusUpdate_Status update) = false).
    { apply not_true_is_false. rewrite statusChanged_spec. exact Hnt. }
    destruct (decide (Result_Status (LatestResult (StatusUpdate_Status update))
                      = StatusNOK)) as [Hnok | Hnok];
      [| apply shouldPublish_not_NOK; assumption].
    rewrite shouldPublish_NOK by assumption.
    unfold spec.reminder_rule in Hnr.
    destruct (alertHistory dispatcher !! StatusUpdate_Name update)
      as [lastAlert |] eqn:Hhist; [| reflexivity].
    rewrite timeUntilReminder_due; [| exact Hrd | apply Hpast; reflexivity].
    apply not_true_is_false. intros Hdue. apply Hnr. split; assumption.
Qed.

(** C4 on the sample endpoint: a first OK is published although an alert
    was recorded in the same instant, and a second OK in a row is not
    published. *)
Lemma shouldPublish_transition_or_suppress_witness :
  Dispatcher_shouldPublish
    (sample.dispatcher {[ "google.com"%string := 111 * time.Second ]})
    (111 * time.Second) (sample.event StatusOK 1) = true /\
  Dispatcher_shouldPublish
    (sample.dispatcher {[ "google.com"%string := 100 * time.Second ]})
    (111 * time.Second) (sample.event StatusOK 2) = false.
Proof.
  split.
  - destruct (shouldPublish_transition_or_suppress
                (sample.dispatcher {[ "google.com"%string := 111 * time.Second ]})
                (111 * time.Second) (sample.event StatusOK 1))
      as (Htransition & _).
    apply Htransition.
    + reflexivity.
    + discriminate.
  - destruct (shouldPublish_transition_or_suppress
                (sample.dispatcher {[ "google.com"%string := 100 * time.Second ]})
                (111 * time.Second) (sample.event StatusOK 2))
      as (_ & _ & _ & Hrepeated & _).
    apply Hrepeated.
    + reflexivity.
    + vm_compute. discriminate.
Defined.

(** The suppression sequence of the specification, with a reminder delay of
    ten seconds: OK (count 1) at 0s is published, OK (2) at 5s is not,
    NOK (1) at 20s is, NOK (2) at 21s is not, NOK (3) at 31s is. *)
Example suppression_sequence :
  snd (sample.handle (sample.dispatcher ∅)
         [(0, sample.event StatusOK 1);
          (5 * time.Second, sample.event StatusOK 2);
          (20 * time.Second, sample.event StatusNOK 1);
          (21 * time.Second, sample.event StatusNOK 2);
          (31 * time.Second, sample.event StatusNOK 3)])
  = [true; false; true; false; true].
Proof. vm_compute. reflexivity. Qed.

(** ** The results of the pingers *)

(** C10. Every result of [HTTPPinger.Ping] and of [SSHPinger.Ping] has
    status OK or NOK, never Unknown, and its error is [nil] if and only if
    its status is OK. *)
Theorem Ping_result_status_and_error
    (httpPinger : HTTPPinger) (x : HTTPExchange)
    (sshPinger : SSHPinger) (y : SSHExchange) :
  let http := fst (HTTPPinger_Ping httpPinger x) in
  let ssh := fst (SSHPinger_Ping sshPinger y) in
  ((Result_Status http = StatusOK \/ Result_Status http = StatusNOK) /\
   Result_Status http <> StatusUnknown /\
   (Error http = None <-> Result_Status http = StatusOK)) /\
  ((Result_Status ssh = StatusOK \/ Result_Status ssh = StatusNOK) /\
   Result_Status ssh <> StatusUnknown /\
   (Error ssh = None <-> Result_Status ssh = StatusOK)).
Proof.
  intros http ssh. subst http ssh. split.
  - unfold HTTPPinger_Ping.
    destruct (http_NewRequest x) as [err |]; simpl.
    { repeat split; try (right; reflexivity); discriminate. }
    destruct (client_Do x) as [err | response]; simpl.
    { repeat split; try (right; reflexivity); discriminate. }
    destruct (negb _); simpl;
      repeat split; try (right; reflexivity); try (left; reflexivity);
      discriminate.
  - unfold SSHPinger_Ping, SSHClient_Run.
    destruct (connect y) as [err |]; simpl.
    { repeat split; try (right; reflexivity); discriminate. }
    destruct (session_Run y) as [[status | msg] |]; simpl;
      destruct (negb _); simpl;
      repeat split; try (right; reflexivity); try (left; reflexivity);
      discriminate.
Qed.

(** ** The construction of the engine *)

Section NewEngine_facts.
Variable rt : config.Runtime.
Variable defaultSchedule : config.Schedule.


(** The loop succeeds when every pinger can be built. *)
Lemma NewEngine_loop_Ok pingerConfs : forall pingers,
  Forall (fun pingerConf => exists pinger, instantiate rt pingerConf = Ok pinger)
    pingerConfs ->
  exists pingers', NewEngine_loop rt defaultSchedule pingerConfs pingers = Ok pingers'.
Proof.
  induction pingerConfs as [| pc rest IH]; intros pingers Hall.
  - eexists. reflexivity.
  - cbn [NewEngine_loop]. inversion Hall as [| ? ? [pinger Hpc] Hrest]; subst.
    rewrite Hpc. apply IH. exact Hrest.
Qed.

(** What the loop has stored when it succeeds. *)
Lemma NewEngine_loop_inv pingerConfs : forall pingers pingers',
  NewEngine_loop rt defaultSchedule pingerConfs pingers = Ok pingers' ->
  dom pingers' = dom pingers ∪ list_to_set (config.Name <$> pingerConfs) /\
  (forall name, name ∉ config.Name <$> pingerConfs ->
     pingers' !! name = pingers !! name) /\
  (NoDup (config.Name <$> pingerConfs) ->
   forall pingerConf, pingerConf ∈ pingerConfs ->
     exists pinger,
       instantiate rt pingerConf = Ok pinger /\
       pingers' !! config.Name pingerConf
       = Some (task_of defaultSchedule pingerConf pinger)) /\
  (NoDup (config.Name <$> pingerConfs) ->
   (forall pingerConf, pingerConf ∈ pingerConfs ->
      pingers !! config.Name pingerConf = None) ->
   size pingers' = (size pingers + length pingerConfs)%nat).
Proof.
  induction pingerConfs as [| pc rest IH]; intros pingers pingers' Hloop.
  - simpl in Hloop. injection Hloop as <-.
    repeat split.
    + simpl. rewrite (right_id_L ∅ (∪)). reflexivity.
    + intros _ pingerConf Hin. inversion Hin.
    + intros _ _. simpl. lia.
  - cbn [NewEngine_loop] in Hloop.
    destruct (instantiate rt pc) as [pinger | err] eqn:Hpc; [| discriminate].
    apply IH in Hloop as (Hdom & Hframe & Htasks & Hsize).
    fold (task_of defaultSchedule pc pinger) in *.
    split; [| split; [| split]].
    + rewrite Hdom, dom_insert_L, fmap_cons, list_to_set_cons.
      rewrite (comm_L (∪) {[config.Name pc]} (dom pingers)).
      rewrite (assoc_L (∪)). reflexivity.
    + intros name Hname. rewrite fmap_cons in Hname.
      apply not_elem_of_cons in Hname as [Hne Hname].
      rewrite Hframe by exact Hname.
      apply lookup_insert_ne. congruence.
    + intros Hnd pingerConf Hin. rewrite fmap_cons in Hnd.
      apply NoDup_cons in Hnd as [Hfresh Hnd].
      apply elem_of_cons in Hin as [-> | Hin].
      * exists pinger. split; [exact Hpc |].
        rewrite Hframe by exact Hfresh. apply lookup_insert_eq.
      * apply Htasks; assumption.
    + intros Hnd Hnone. rewrite fmap_cons in Hnd.
      apply NoDup_cons in Hnd as [Hfresh Hnd].
      rewrite Hsize.
      * rewrite map_size_insert_None by (apply Hnone; left). simpl. lia.
      * exact Hnd.
      * intros pingerConf Hin. rewrite lookup_insert_ne.
        -- apply Hnone. right. exact Hin.
        -- intros Heq. apply Hfresh. rewrite Heq.
           apply list_elem_of_fmap_2. exact Hin.
Qed.

(** The three ways in which a pinger fails to be built. *)
Lemma instantiate_unknown_type pingerConf :
  config.Type_ pingerConf <> "ssh"%string ->
  config.Type_ pingerConf <> "http"%string ->
  instantiate rt pingerConf
  = Err ("unknown pinger type: " +:+ config.Type_ pingerConf).
Proof.
  intros Hssh Hhttp. unfold instantiate.
  destruct (String.eqb_spec (config.Type_ pingerConf) "ssh"); [contradiction |].
  destruct (String.eqb_spec (config.Type_ pingerConf) "http"); [contradiction |].
  reflexivity.
Qed.

Lemma instantiate_invalid_check pingerConf :
  (config.Type_ pingerConf = "http"%string /\
   forall check, config.json_Unmarshal_HTTPCheck rt (config.Check pingerConf) = inr check ->
                 config.HTTPCheck_Validate rt check <> None) \/
  (config.Type_ pingerConf = "ssh"%string /\
   forall check, config.json_Unmarshal_SSHCheck rt (config.Check pingerConf) = inr check ->
                 config.SSHCheck_Validate rt check <> None) ->
  exists err, instantiate rt pingerConf = Err err.
Proof.
  unfold instantiate, NewHTTPPinger, NewSSHPinger.
  intros [[Ht Hv] | [Ht Hv]]; rewrite Ht; simpl.
  - destruct (config.json_Unmarshal_HTTPCheck rt _) as [err | check]; [eauto |].
    specialize (Hv check eq_refl).
    destruct (config.HTTPCheck_Validate rt check); [eauto | contradiction].
  - destruct (config.json_Unmarshal_SSHCheck rt _) as [err | check]; [eauto |].
    specialize (Hv check eq_refl).
    destruct (config.SSHCheck_Validate rt check); [eauto | contradiction].
Qed.

Lemma instantiate_unreadable_command_file pingerConf check err :
  config.Type_ pingerConf = "ssh"%string ->
  config.json_Unmarshal_SSHCheck rt (config.Check pingerConf) = inr check ->
  config.Command check = ""%string ->
  config.CommandFile check <> ""%string ->
  config.ioutil_ReadFile rt (config.CommandFile check) = inl err ->
  exists err', instantiate rt pingerConf = Err err'.
Proof.
  intros Ht Hjson Hcmd Hfile Hread.
  unfold instantiate, NewSSHPinger. rewrite Ht, Hjson. simpl.
  destruct (config.SSHCheck_Validate rt check); [eauto |].
  unfold loadCommand. rewrite Hcmd. simpl.
  destruct (String.eqb_spec (config.CommandFile check) ""); [contradiction |].
  simpl. rewrite Hread. eauto.
Qed.

End NewEngine_facts.



(** Without an alerter in the configuration [NewEngine] panics once the
    pingers are built: [NewDispatcher] dereferences the nil pointer. *)
Lemma NewEngine_without_alerter (rt : config.Runtime)
    (engineConf : config.Engine) (advertisedBaseURL : string) :
  Forall (fun pingerConf => exists pinger, instantiate rt pingerConf = Ok pinger)
    (config.Pingers engineConf) ->
  config.Engine_Alerter engineConf = None ->
  NewEngine rt engineConf advertisedBaseURL = Panic.
Proof.
  intros Hall Hnone.
  destruct (NewEngine_loop_Ok rt
              (default standardDefaultSchedule (config.DefaultSchedule engineConf))
              (config.Pingers engineConf) ∅ Hall) as [pingers Hloop].
  unfold NewEngine. rewrite Hloop, Hnone. reflexivity.
Qed.

(** * Further properties of the code *)

(** ** The check cycle for an arbitrary checker *)

Section ping_cycle_shape.
Context `{ping.Pinger P}.
Variable task : PingerTask P.
Variable retries : config.Retries.
Hypothesis Hretries : config.Schedule_Retries (Schedule task) = Some retries.

(** Among the next [n] invocations either there is a first one that
    succeeds or none succeeds. *)
Lemma first_ok_or_none (w : World Exchange) (n : nat) :
  (exists j, (j < n)%nat /\
     (forall i, (i < j)%nat ->
        Result_Status (fst (ping_at (Pinger task) w i)) <> StatusOK) /\
     Result_Status (fst (ping_at (Pinger task) w j)) = StatusOK) \/
  (forall i, (i < n)%nat ->
     Result_Status (fst (ping_at (Pinger task) w i)) <> StatusOK).
Proof.
  induction n as [| n IH].
  - right. intros i Hi. lia.
  - destruct IH as [(j & Hj & Hfail & Hok) | Hnone].
    + left. exists j. repeat split; [lia | exact Hfail | exact Hok].
    + destruct (decide (Result_Status (fst (ping_at (Pinger task) w n)) = StatusOK))
        as [Hok | Hnok].
      * left. exists n. repeat split; [lia | exact Hnone | exact Hok].
      * right. intros i Hi. destruct (decide (i = n)) as [-> | Hne];
          [exact Hnok | apply Hnone; lia].
Qed.

(** The shape of every cycle: [k] attempts, the first [k - 1] of them failed
    and each followed by a wait, the last one either successful or the last
    one allowed. *)
Lemma ping_shape (w : World Exchange) :
  1 <= config.Attempts retries < max_int64 ->
  exists k : nat,
    Z.of_nat (S k) <= config.Attempts retries /\
    PingerTask_ping task w
    = Return (Some (ping_at (Pinger task) w k),
              advance w (S k)
                (retry_trace retries (config.Delay retries)
                   (results (Pinger task) w k)
                 ++ [EvPing (fst (ping_at (Pinger task) w k))])) /\
    (forall i, (i < k)%nat ->
       Result_Status (fst (ping_at (Pinger task) w i)) <> StatusOK) /\
    (Result_Status (fst (ping_at (Pinger task) w k)) = StatusOK \/
     Z.of_nat (S k) = config.Attempts retries).
Proof.
  intros Hn.
  destruct (first_ok_or_none w (Z.to_nat (config.Attempts retries)))
    as [(j & Hj & Hfail & Hok) | Hnone].
  - exists j. split; [lia |]. split; [| split; [exact Hfail | left; exact Hok]].
    apply (ping_first_ok task retries Hretries); [int64_unfold; lia | exact Hfail | exact Hok].
  - exists (Z.to_nat (config.Attempts retries) - 1)%nat.
    split; [lia |]. split; [| split; [| right; lia]].
    + apply (ping_all_fail task retries Hretries); [lia | lia |].
      intros i Hi. apply Hnone. lia.
    + intros i Hi. apply Hnone. lia.
Qed.

Lemma sent_app evs evs' : sent (evs ++ evs') = sent evs ++ sent evs'.
Proof. unfold sent. apply omap_app. Qed.

Lemma sent_retry_trace rs : forall dl, sent (retry_trace retries dl rs) = [].
Proof.
  induction rs as [| r rs IH]; intros dl; [reflexivity |].
  cbn [retry_trace]. unfold sent in *. cbn [omap list_omap]. apply IH.
Qed.

Lemma sleeps_retry_trace_constant rs dl :
  config.ExponentialBackoff retries = false ->
  sleeps (retry_trace retries dl rs) = replicate (length rs) dl.
Proof.
  intros Hb. revert dl. induction rs as [| r rs IH]; intros dl; [reflexivity |].
  cbn [retry_trace length replicate]. unfold sleeps in *. cbn [omap list_omap].
  unfold next_delay at 1. rewrite Hb. f_equal.
  unfold next_delay at 1. rewrite Hb. apply IH.
Qed.

End ping_cycle_shape.

(** X1. For every checker and every schedule with [1 <= attempts], a check
    cycle returns: it makes [k] invocations of the checker with
    [1 <= k <= attempts], all but the last of them without success, and
    its result is the outcome of the last invocation made, which either is
    OK or is attempt number [attempts]. It waits [k - 1] times, ends with an
    attempt, sends no status update and leaves the clock unread. *)
Theorem ping_returns_last_attempt `{ping.Pinger P}
    (task : PingerTask P) (retries : config.Retries) (w : World Exchange) :
  config.Schedule_Retries (Schedule task) = Some retries ->
  1 <= config.Attempts retries < max_int64 ->
  exists (k : nat) evs,
    Z.of_nat (S k) <= config.Attempts retries /\
    PingerTask_ping task w
    = Return (Some (ping_at (Pinger task) w k), advance w (S k) evs) /\
    pinged evs = results (Pinger task) w (S k) /\
    length (sleeps evs) = k /\
    sent evs = [] /\
    last evs = Some (EvPing (fst (ping_at (Pinger task) w k))) /\
    (forall i, (i < k)%nat ->
       Result_Status (fst (ping_at (Pinger task) w i)) <> StatusOK) /\
    (Result_Status (fst (ping_at (Pinger task) w k)) = StatusOK \/
     Z.of_nat (S k) = config.Attempts retries).
Proof.
  intros Hretries Hn.
  destruct (ping_shape task retries Hretries w Hn) as (k & Hk & Hping & Hfail & Hlast).
  exists k. eexists. split; [exact Hk |]. split; [exact Hping |].
  split; [| split; [| split; [| split; [| split]]]].
  - rewrite pinged_app, pinged_retry_trace, results_snoc. reflexivity.
  - rewrite sleeps_app, sleeps_retry_trace, length_app, length_map, length_seq.
    rewrite results_length. simpl. lia.
  - rewrite sent_app, sent_retry_trace. reflexivity.
  - apply last_snoc.
  - exact Hfail.
  - exact Hlast.
Qed.

Lemma ping_returns_last_attempt_witness :
  exists (k : nat) evs,
    Z.of_nat (S k) <= 3 /\
    PingerTask_ping (sample.task (config.mkRetries 3 time.Second true))
      (sample.world sample.down_once)
    = Return (Some (ping_at sample.pinger (sample.world sample.down_once) k),
              advance (sample.world sample.down_once) (S k) evs) /\
    length (sleeps evs) = k /\
    sent evs = [].
Proof.
  destruct (ping_returns_last_attempt (H := HTTPPinger_Pinger)
              (sample.task (config.mkRetries 3 time.Second true))
              (config.mkRetries 3 time.Second true)
              (sample.world sample.down_once) eq_refl)
    as (k & evs & Hk & Hping & _ & Hsl & Hsent & _).
  - vm_compute. split; [discriminate | reflexivity].
  - exists k, evs. repeat split; assumption.
Defined.

(** X2. Without exponential backoff every wait of a check cycle is the
    configured retry delay, whatever the checker does: a cycle of [k]
    attempts waits [k - 1] times for exactly [retryDelay]. *)
Theorem ping_constant_waits `{ping.Pinger P}
    (task : PingerTask P) (retries : config.Retries) (w : World Exchange) :
  config.Schedule_Retries (Schedule task) = Some retries ->
  config.ExponentialBackoff retries = false ->
  1 <= config.Attempts retries < max_int64 ->
  exists (k : nat) r w',
    PingerTask_ping task w = Return (Some r, w') /\
    pings w' = (pings w + S k)%nat /\
    sleeps (drop (length (trace w)) (trace w'))
    = replicate k (config.Delay retries).
Proof.
  intros Hretries Hb Hn.
  destruct (ping_shape task retries Hretries w Hn) as (k & Hk & Hping & _).
  exists k. eexists. eexists. split; [exact Hping |].
  split; [reflexivity |].
  unfold advance. cbn [trace]. rewrite drop_app_length.
  rewrite sleeps_app, (sleeps_retry_trace_constant retries _ _ Hb).
  rewrite results_length. simpl. apply app_nil_r.
Qed.

Lemma ping_constant_waits_witness :
  exists (k : nat) r w',
    PingerTask_ping (sample.task (config.mkRetries 3 (3 * time.Second) false))
      (sample.world sample.always_down) = Return (Some r, w') /\
    pings w' = (0 + S k)%nat /\
    sleeps (drop 0 (trace w')) = replicate k (3 * time.Second).
Proof.
  apply (ping_constant_waits (H := HTTPPinger_Pinger)
           (sample.task (config.mkRetries 3 (3 * time.Second) false))
           (config.mkRetries 3 (3 * time.Second) false)
           (sample.world sample.always_down)).
  - reflexivity.
  - reflexivity.
  - vm_compute. split; [discriminate | reflexivity].
Defined.

(** ** Runs of [PingerTask.Start] *)

Section Start_facts.
Context `{ping.Pinger P}.

(** Whatever its outcome, the retry loop only adds attempts and waits to
    the trace: it sends nothing and does not read the clock. *)
Lemma ping_loop_frame (task : PingerTask P) retries fuel :
  forall a dl res out (w : World Exchange) r w',
    ping_loop fuel task retries a dl res out w = (r, w') ->
    exists k evs, w' = advance w k evs /\ sent evs = [].
Proof.
  induction fuel as [| fuel IH]; intros a dl res out w r w' Hloop.
  - simpl in Hloop. injection Hloop as _ <-. exists 0%nat, [].
    rewrite advance_0. split; reflexivity.
  - rewrite ping_loop_S in Hloop. cbv zeta in Hloop.
    destruct (a <=? config.Attempts retries).
    2:{ injection Hloop as _ <-. exists 0%nat, []. rewrite advance_0. split; reflexivity. }
    unfold bind at 1 in Hloop. unfold Pinger_Ping at 1 in Hloop.
    cbv beta iota zeta in Hloop.
    set (r0 := Ping (Pinger task) (net w (pings w))) in *.
    set (w1 := mkWorld (net w) (clock w) (S (pings w)) (reads w)
                 (trace w ++ [EvPing (fst r0)])) in *.
    assert (Hw1 : w1 = advance w 1 [EvPing (fst r0)]).
    { unfold w1, advance. rewrite Nat.add_1_r. reflexivity. }
    destruct (Status_eqb (Result_Status (fst r0)) StatusOK).
    { injection Hloop as _ <-. exists 1%nat, [EvPing (fst r0)].
      split; [exact Hw1 | reflexivity]. }
    unfold bind at 1 in Hloop.
    destruct (a <? config.Attempts retries).
    + unfold time_Sleep, log_event in Hloop. cbv beta iota zeta in Hloop.
      cbn [net clock pings reads trace] in Hloop.
      apply IH in Hloop as (k & evs & -> & Hsent).
      exists (1 + k)%nat, ([EvPing (fst r0); EvSleep (next_delay retries dl)] ++ evs).
      split.
      * unfold w1, advance. cbn [net clock pings reads trace].
        f_equal; [lia | rewrite <- !app_assoc; reflexivity].
      * rewrite sent_app, Hsent. reflexivity.
    + unfold ret at 1 in Hloop. cbv beta iota zeta in Hloop.
      apply IH in Hloop as (k & evs & -> & Hsent).
      exists (1 + k)%nat, ([EvPing (fst r0)] ++ evs).
      split.
      * rewrite Hw1, advance_advance. reflexivity.
      * rewrite sent_app, Hsent. reflexivity.
Qed.

Lemma ping_frame (task : PingerTask P) (w : World Exchange) r w' :
  PingerTask_ping task w = Return (r, w') ->
  exists k evs, w' = advance w k evs /\ sent evs = [].
Proof.
  unfold PingerTask_ping.
  destruct (config.Schedule_Retries (Schedule task)) as [retries |]; [| discriminate].
  intros Hping. injection Hping as Hloop.
  exact (ping_loop_frame task retries (S (Z.to_nat (config.Attempts retries)))
           1 (config.Delay retries) Result_zero None w r w' Hloop).
Qed.

(** What [updateStatus] does to the world and to the rest of the task. *)
Lemma updateStatus_world (task : PingerTask P) result output (w : World Exchange) :
  snd (PingerTask_updateStatus task result output w)
  = mkWorld (net w) (clock w) (pings w) (S (reads w))
      (trace w
       ++ [EvSend (mkStatusUpdate (Name task)
                     (Status (fst (PingerTask_updateStatus task result output w))))]).
Proof. reflexivity. Qed.

Lemma updateStatus_identity (task : PingerTask P) result output (w : World Exchange) :
  let task' := fst (PingerTask_updateStatus task result output w) in
  Name task' = Name task /\ Type_ task' = Type_ task /\
  Pinger task' = Pinger task /\ Schedule task' = Schedule task /\
  Output task' = output.
Proof. repeat split. Qed.

(** One iteration of the loop of [Start]. *)
Lemma Start_loop_S cycles delay (task : PingerTask P) (w : World Exchange) :
  Start_loop (S cycles) delay task w
  = match PingerTask_ping task (snd (time_Sleep delay w)) with
    | Panic => Panic
    | Return (None, w2) => Return (None, w2)
    | Return (Some (result, output), w2) =>
        Start_loop cycles delay
          (fst (PingerTask_updateStatus task result output w2))
          (snd (PingerTask_updateStatus task result output w2))
    end.
Proof.
  cbn [Start_loop]. destruct (time_Sleep delay w) as [[] w1]. cbn [snd].
  destruct (PingerTask_ping task w1) as [[[[result output] |] w2] |]; reflexivity.
Qed.

Lemma updateStatus_timestamps_agree (task : PingerTask P) result output
    (w : World Exchange) :
  timestamps_agree (Status (fst (PingerTask_updateStatus task result output w))).
Proof.
  rewrite updateStatus_Status. unfold timestamps_agree. simpl.
  destruct (Result_Status result); split; intros Hs; try discriminate; eauto.
Qed.

Lemma Start_loop_invariant (cycles : nat) :
  forall delay (task task' : PingerTask P) (w w' : World Exchange),
    timestamps_agree (Status task) ->
    Start_loop cycles delay task w = Return (Some task', w') ->
    timestamps_agree (Status task') /\
    Name task' = Name task /\ Type_ task' = Type_ task /\
    Pinger task' = Pinger task /\ Schedule task' = Schedule task.
Proof.
  induction cycles as [| cycles IH]; intros delay task task' w w' Hagree Hrun.
  - simpl in Hrun. injection Hrun as <- <-. repeat split; apply Hagree.
  - rewrite Start_loop_S in Hrun.
    destruct (PingerTask_ping task _) as [[[[result output] |] w2] |];
      try discriminate.
    apply IH in Hrun; [| apply updateStatus_timestamps_agree].
    exact Hrun.
Qed.

(** The status updates of a run: one per cycle, under the name of the task,
    the last of them carrying the status the task ends with; the clock is
    read once per cycle. *)
Lemma Start_loop_sends (cycles : nat) :
  forall delay (task task' : PingerTask P) (w w' : World Exchange),
    Start_loop cycles delay task w = Return (Some task', w') ->
    exists evs,
      trace w' = trace w ++ evs /\
      net w' = net w /\ clock w' = clock w /\
      reads w' = (reads w + cycles)%nat /\
      length (sent evs) = cycles /\
      Forall (fun u => StatusUpdate_Name u = Name task) (sent evs) /\
      (cycles <> 0%nat ->
       last (sent evs) = Some (mkStatusUpdate (Name task) (Status task'))).
Proof.
  induction cycles as [| cycles IH]; intros delay task task' w w' Hrun.
  - simpl in Hrun. injection Hrun as <- <-. exists [].
    rewrite app_nil_r, Nat.add_0_r. repeat split; [constructor | congruence].
  - rewrite Start_loop_S in Hrun.
    destruct (PingerTask_ping task _) as [[[[result output] |] w2] |] eqn:Hping;
      try discriminate.
    apply ping_frame in Hping as (k & evs1 & -> & Hsent1).
    pose proof Hrun as Hrun0.
    apply IH in Hrun as (evs2 & Htrace & Hnet & Hclock & Hreads & Hlen & Hall & Hlast).
    rewrite updateStatus_world in Htrace, Hnet, Hclock, Hreads.
    cbn [trace net clock reads advance time_Sleep log_event snd] in Htrace, Hnet, Hclock, Hreads.
    set (u := mkStatusUpdate (Name task)
                (Status (fst (PingerTask_updateStatus task result output
                   (advance (snd (time_Sleep delay w)) k evs1))))) in *.
    exists ([EvSleep delay] ++ evs1 ++ [EvSend u] ++ evs2).
    split; [rewrite Htrace, <- !app_assoc; reflexivity |].
    split; [exact Hnet |]. split; [exact Hclock |]. split; [lia |].
    rewrite !sent_app, Hsent1. cbn [sent omap list_omap app].
    fold (sent evs2).
    split; [simpl; lia |].
    split.
    + constructor; [reflexivity |]. exact Hall.
    + intros _. destruct cycles as [| cycles].
      * simpl in Hrun0. injection Hrun0 as <- _.
        destruct (sent evs2); [reflexivity | discriminate].
      * specialize (Hlast ltac:(discriminate)).
        destruct (sent evs2) as [| u2 us]; [discriminate |].
        exact Hlast.
Qed.

End Start_facts.

(** X3. Whatever the checker answers, a run of [Start] keeps the status of
    the task consistent: after any number of completed cycles (fewer than
    [2^63 - 1]) the consecutive count is at least 1 and at most the number
    of cycles plus one, a latest status OK comes with a time of the last OK
    and a latest status NOK with a time of the last NOK; the name, type,
    pinger and schedule of the task are never changed. *)
Theorem Start_keeps_status_consistent `{ping.Pinger P}
    (cycles : nat) (task task' : PingerTask P) (w w' : World Exchange) :
  PingerTask_Start cycles task w = Return (Some task', w') ->
  Z.of_nat cycles < max_int64 ->
  1 <= Consecutive (Status task') <= Z.of_nat cycles + 1 /\
  timestamps_agree (Status task') /\
  Name task' = Name task /\ Type_ task' = Type_ task /\
  Pinger task' = Pinger task /\ Schedule task' = Schedule task.
Proof.
  unfold PingerTask_Start. cbn [Schedule].
  destruct (config.Interval (Schedule task)) as [delay |]; [| discriminate].
  destruct (config.Schedule_Retries (Schedule task)) as [retries |]; [| discriminate].
  intros Hrun Hcycles. split.
  - eapply Start_loop_consecutive_bounds with (k := 1) in Hrun;
      [lia | cbn [Status Start_status Consecutive]; lia | lia].
  - apply Start_loop_invariant in Hrun; [exact Hrun |].
    split; discriminate.
Qed.

Lemma Start_keeps_status_consistent_witness :
  exists task' w',
    PingerTask_Start (H := HTTPPinger_Pinger) 2 (sample.task (config.mkRetries 1 time.Second false))
      (sample.world sample.down_once) = Return (Some task', w') /\
    1 <= Consecutive (Status task') <= 2 + 1 /\
    timestamps_agree (Status task').
Proof.
  destruct (PingerTask_Start (H := HTTPPinger_Pinger) 2 (sample.task (config.mkRetries 1 time.Second false))
              (sample.world sample.down_once))
    as [[[task' |] w'] |] eqn:Hrun; try (vm_compute in Hrun; discriminate).
  exists task', w'. split; [reflexivity |].
  destruct (Start_keeps_status_consistent (H := HTTPPinger_Pinger) 2
              (sample.task (config.mkRetries 1 time.Second false)) task'
              (sample.world sample.down_once) w' Hrun)
    as (Hc & Hagree & _).
  - vm_compute. reflexivity.
  - split; assumption.
Defined.

(** X4. A run of [Start] sends exactly one status update per completed
    cycle, each under the name of the task, and the last one sent carries
    the status the task then has; the clock is read once per cycle and the
    network and the clock themselves are left as they were. *)
Theorem Start_sends_one_update_per_cycle `{ping.Pinger P}
    (cycles : nat) (task task' : PingerTask P) (w w' : World Exchange) :
  PingerTask_Start cycles task w = Return (Some task', w') ->
  exists evs,
    trace w' = trace w ++ evs /\
    reads w' = (reads w + cycles)%nat /\
    length (sent evs) = cycles /\
    Forall (fun u => StatusUpdate_Name u = Name task) (sent evs) /\
    (cycles <> 0%nat ->
     last (sent evs) = Some (mkStatusUpdate (Name task) (Status task'))).
Proof.
  unfold PingerTask_Start. cbn [Schedule].
  destruct (config.Interval (Schedule task)) as [delay |]; [| discriminate].
  destruct (config.Schedule_Retries (Schedule task)) as [retries |]; [| discriminate].
  intros Hrun.
  apply Start_loop_sends in Hrun as (evs & Htrace & _ & _ & Hreads & Hlen & Hall & Hlast).
  exists evs. repeat split; assumption.
Qed.

Lemma Start_sends_one_update_per_cycle_witness :
  exists task' w' evs,
    PingerTask_Start (H := HTTPPinger_Pinger) 2 (sample.task (config.mkRetries 1 time.Second false))
      (sample.world sample.down_once) = Return (Some task', w') /\
    trace w' = [] ++ evs /\
    length (sent evs) = 2%nat /\
    last (sent evs) = Some (mkStatusUpdate "google.com" (Status task')).
Proof.
  destruct (PingerTask_Start (H := HTTPPinger_Pinger) 2 (sample.task (config.mkRetries 1 time.Second false))
              (sample.world sample.down_once))
    as [[[task' |] w'] |] eqn:Hrun; try (vm_compute in Hrun; discriminate).
  destruct (Start_sends_one_update_per_cycle (H := HTTPPinger_Pinger) 2
              (sample.task (config.mkRetries 1 time.Second false)) task'
              (sample.world sample.down_once) w' Hrun)
    as (evs & Htrace & _ & Hlen & _ & Hlast).
  exists task', w', evs. repeat split; try assumption.
  apply Hlast. discriminate.
Defined.

(** ** From the task to the dispatcher *)

(** A status Unknown is never published: it is no transition and not NOK. *)
Lemma shouldPublish_Unknown (dispatcher : Dispatcher) (now : Z) (update : StatusUpdate) :
  Result_Status (LatestResult (StatusUpdate_Status update)) = StatusUnknown ->
  Dispatcher_shouldPublish dispatcher now update = false.
Proof.
  intros Hu. apply shouldPublish_not_NOK.
  - apply not_true_is_false. rewrite statusChanged_spec. intros [_ Hne]. contradiction.
  - rewrite Hu. discriminate.
Qed.

Section Start_without_attempts.
Context `{ping.Pinger P}.

Lemma Start_loop_without_attempts retries delay (cycles : nat) :
  forall (task : PingerTask P) (w : World Exchange),
    config.Schedule_Retries (Schedule task) = Some retries ->
    config.Attempts retries <= 0 ->
    Result_Status (LatestResult (Status task)) = StatusUnknown ->
    LatestOK (Status task) = None ->
    LatestNOK (Status task) = None ->
    exists task' evs,
      Start_loop cycles delay task w
      = Return (Some task',
                mkWorld (net w) (clock w) (pings w) (reads w + cycles)
                  (trace w ++ evs)) /\
      Result_Status (LatestResult (Status task')) = StatusUnknown /\
      LatestOK (Status task') = None /\
      LatestNOK (Status task') = None /\
      pinged evs = [] /\
      sleeps evs = replicate cycles delay /\
      length (sent evs) = cycles /\
      Forall (fun u => Result_Status (LatestResult (StatusUpdate_Status u))
                       = StatusUnknown) (sent evs).
Proof.
  induction cycles as [| cycles IH]; intros task w Hretries Hn Hu Hok Hnok.
  - exists task, []. simpl. rewrite Nat.add_0_r, app_nil_r.
    destruct w. repeat split; try assumption. constructor.
  - rewrite Start_loop_S.
    rewrite (ping_no_attempt task retries Hretries _ Hn).
    set (w1 := snd (time_Sleep delay w)).
    set (task1 := fst (PingerTask_updateStatus task Result_zero None w1)).
    destruct (IH task1 (snd (PingerTask_updateStatus task Result_zero None w1)))
      as (task' & evs & Hrun & Hu' & Hok' & Hnok' & Hp & Hsl & Hlen & Hall);
      try assumption; try reflexivity.
    exists task',
      ([EvSleep delay]
       ++ [EvSend (mkStatusUpdate (Name task) (Status task1))] ++ evs).
    rewrite Hrun. split.
    + rewrite updateStatus_world. subst w1. unfold time_Sleep, log_event.
      cbn [snd net clock pings reads trace].
      do 2 f_equal. f_equal; [lia | rewrite <- !app_assoc; reflexivity].
    + split; [exact Hu' |]. split; [exact Hok' |]. split; [exact Hnok' |].
      split; [exact Hp |].
      split; [rewrite !sleeps_app, Hsl; reflexivity |].
      split; [rewrite !sent_app; simpl; rewrite Hlen; reflexivity |].
      rewrite !sent_app. simpl. constructor; [reflexivity | exact Hall].
Qed.

End Start_without_attempts.

(** X5. An endpoint whose schedule has [attempts <= 0] (zero passes
    [Retries.Validate]) is never probed and never alerted on: a run of
    [Start] over any number of cycles returns without a single invocation
    of the checker, the status stays Unknown without timestamps, one status
    update is sent per cycle, and every one of these updates is suppressed
    by every dispatcher at every time. *)
Theorem Start_without_attempts_never_alerts `{ping.Pinger P}
    (cycles : nat) (task : PingerTask P) (w : World Exchange)
    (delay : Z) (retries : config.Retries) :
  config.Interval (Schedule task) = Some delay ->
  config.Schedule_Retries (Schedule task) = Some retries ->
  config.Attempts retries <= 0 ->
  exists task' w' evs,
    PingerTask_Start cycles task w = Return (Some task', w') /\
    trace w' = trace w ++ evs /\
    pings w' = pings w /\
    pinged evs = [] /\
    length (sent evs) = cycles /\
    Result_Status (LatestResult (Status task')) = StatusUnknown /\
    LatestOK (Status task') = None /\
    LatestNOK (Status task') = None /\
    forall u, u ∈ sent evs ->
      forall dispatcher now, Dispatcher_shouldPublish dispatcher now u = false.
Proof.
  intros Hdelay Hretries Hn.
  unfold PingerTask_Start. cbn [Schedule]. rewrite Hdelay, Hretries.
  destruct (Start_loop_without_attempts retries delay cycles
              (mkPingerTask (Name task) (Type_ task) (Pinger task) (Schedule task)
                 Start_status (Output task)) w)
    as (task' & evs & Hrun & Hu & Hok & Hnok & Hp & _ & Hlen & Hall);
    try assumption; try reflexivity.
  exists task'. eexists. exists evs.
  split; [exact Hrun |]. repeat split; try assumption.
  intros u Hin dispatcher now. apply shouldPublish_Unknown.
  rewrite Forall_forall in Hall. apply Hall. exact Hin.
Qed.

Lemma Start_without_attempts_never_alerts_witness :
  exists task' w' evs,
    PingerTask_Start (H := HTTPPinger_Pinger) 3
      (sample.task (config.mkRetries 0 time.Second false))
      (sample.world sample.always_down) = Return (Some task', w') /\
    pings w' = 0%nat /\
    length (sent evs) = 3%nat /\
    Result_Status (LatestResult (Status task')) = StatusUnknown.
Proof.
  destruct (Start_without_attempts_never_alerts (H := HTTPPinger_Pinger) 3
              (sample.task (config.mkRetries 0 time.Second false))
              (sample.world sample.always_down)
              (10 * time.Minute) (config.mkRetries 0 time.Second false)
              eq_refl eq_refl)
    as (task' & w' & evs & Hrun & _ & Hpings & _ & Hlen & Hu & _).
  - simpl. lia.
  - exists task', w', evs. repeat split; assumption.
Defined.

(** X6. What the dispatcher does with the update that [updateStatus] sends
    for a cycle result [r]: if the status of [r] is OK or NOK and differs
    from the previous latest status, the update is published by every
    dispatcher, whatever its alert history; if the status of [r] is Unknown,
    or is OK as before (the previous count being between 1 and the largest
    int minus one), the update is suppressed by every dispatcher. *)
Theorem updateStatus_update_published `{ping.Pinger P}
    (task : PingerTask P) (result : Result) (output : option Buffer)
    (w : World Exchange) :
  exists u,
    trace (snd (PingerTask_updateStatus task result output w))
    = trace w ++ [EvSend u] /\
    StatusUpdate_Name u = Name task /\
    (Result_Status result <> Result_Status (LatestResult (Status task)) ->
     Result_Status result <> StatusUnknown ->
     forall dispatcher now, Dispatcher_shouldPublish dispatcher now u = true) /\
    (Result_Status result = StatusUnknown ->
     forall dispatcher now, Dispatcher_shouldPublish dispatcher now u = false) /\
    (Result_Status result = StatusOK ->
     Result_Status (LatestResult (Status task)) = StatusOK ->
     1 <= Consecutive (Status task) < max_int64 ->
     forall dispatcher now, Dispatcher_shouldPublish dispatcher now u = false).
Proof.
  eexists. split; [apply updateStatus_sends |]. split; [reflexivity |].
  split; [| split].
  - intros Hdiff Hknown dispatcher now.
    apply shouldPublish_transition, statusChanged_spec.
    cbn [StatusUpdate_Status]. rewrite updateStatus_Status. simpl.
    unfold Status_eqb. rewrite bool_decide_eq_false_2 by exact Hdiff.
    split; [reflexivity | exact Hknown].
  - intros Hu dispatcher now. apply shouldPublish_Unknown. exact Hu.
  - intros Hok Hprev Hc dispatcher now. apply shouldPublish_not_NOK.
    + apply not_true_is_false. rewrite statusChanged_spec.
      cbn [StatusUpdate_Status]. rewrite updateStatus_Status. simpl.
      unfold Status_eqb. rewrite bool_decide_eq_true_2 by congruence.
      rewrite wrap64_id by (int64_unfold; lia). lia.
    + cbn [StatusUpdate_Status]. rewrite updateStatus_Status. simpl.
      rewrite Hok. discriminate.
Qed.

(** X6 on the sample task: its first result OK is published by a
    dispatcher that recorded an alert in the same instant. *)
Lemma updateStatus_update_published_witness :
  exists u,
    trace (snd (PingerTask_updateStatus (H := HTTPPinger_Pinger)
                  (sample.task (config.mkRetries 3 time.Second false))
                  (mkResult StatusOK None) (Some [])
                  (sample.world sample.always_up)))
    = [] ++ [EvSend u] /\
    Dispatcher_shouldPublish
      (sample.dispatcher {[ "google.com"%string := 0 ]}) 0 u = true.
Proof.
  destruct (updateStatus_update_published (H := HTTPPinger_Pinger)
              (sample.task (config.mkRetries 3 time.Second false))
              (mkResult StatusOK None) (Some [])
              (sample.world sample.always_up))
    as (u & Htrace & _ & Hchange & _).
  exists u. split; [exact Htrace |].
  apply Hchange; discriminate.
Defined.

(** ** The dispatcher over time *)

Section dispatcher_step_facts.
Variable dispatcher : Dispatcher.
Variables now now' : Z.
Variable statusUpdate : StatusUpdate.

(** A suppressed update changes nothing. *)
Lemma Start_step_suppressed :
  Dispatcher_shouldPublish dispatcher now statusUpdate = false ->
  Dispatcher_Start_step dispatcher now now' statusUpdate = (dispatcher, None).
Proof. intros Hs. unfold Dispatcher_Start_step. rewrite Hs. reflexivity. Qed.

(** A published update is handed to the alerters and its time of dispatch
    is recorded under its name; nothing else of the dispatcher changes. *)
Lemma Start_step_published :
  Dispatcher_shouldPublish dispatcher now statusUpdate = true ->
  exists update,
    Dispatcher_Start_step dispatcher now now' statusUpdate
    = (mkDispatcher (alerters dispatcher)
         (<[StatusUpdate_Name statusUpdate := now']> (alertHistory dispatcher))
         (reminderDelay dispatcher) (advertisedBaseURL dispatcher),
       Some update) /\
    PingerUpdate_Name update = StatusUpdate_Name statusUpdate.
Proof.
  intros Hp. unfold Dispatcher_Start_step. rewrite Hp. simpl.
  eexists. split; reflexivity.
Qed.

End dispatcher_step_facts.



(** X8. Endpoints do not interfere in the dispatcher: handling an update
    for one endpoint, published or not, leaves the decision for every update
    of an endpoint with another name as it was. *)
Theorem Start_step_other_endpoint (dispatcher : Dispatcher) (now now' later : Z)
    (handled other : StatusUpdate) :
  StatusUpdate_Name other <> StatusUpdate_Name handled ->
  Dispatcher_shouldPublish
    (fst (Dispatcher_Start_step dispatcher now now' handled)) later other
  = Dispatcher_shouldPublish dispatcher later other.
Proof.
  intros Hname.
  destruct (Dispatcher_shouldPublish dispatcher now handled) eqn:Hp.
  - destruct (Start_step_published dispatcher now now' handled Hp)
      as (update & -> & _). cbn [fst].
    unfold Dispatcher_shouldPublish. cbn [alertHistory reminderDelay].
    rewrite lookup_insert_ne by congruence. reflexivity.
  - rewrite Start_step_suppressed by exact Hp. reflexivity.
Qed.

Lemma Start_step_other_endpoint_witness :
  Dispatcher_shouldPublish
    (fst (Dispatcher_Start_step (sample.dispatcher ∅)
            (20 * time.Second) (20 * time.Second) (sample.event StatusNOK 1)))
    (40 * time.Second)
    (mkStatusUpdate "router" (StatusUpdate_Status (sample.event StatusNOK 2)))
  = Dispatcher_shouldPublish (sample.dispatcher ∅) (40 * time.Second)
      (mkStatusUpdate "router" (StatusUpdate_Status (sample.event StatusNOK 2))).
Proof.
  apply (Start_step_other_endpoint (sample.dispatcher ∅)
           (20 * time.Second) (20 * time.Second) (40 * time.Second)
           (sample.event StatusNOK 1)
           (mkStatusUpdate "router" (StatusUpdate_Status (sample.event StatusNOK 2)))).
  discriminate.
Defined.

(** X9. Over any sequence of received updates the loop of the dispatcher
    keeps its alerters, reminder delay and base URL; it dispatches at most
    one update per received update, each under the name of a received
    update; and its alert history afterwards has an entry for exactly the
    names it had an entry for before and the names of the updates it
    dispatched: entries are added, never removed. *)
Theorem Dispatcher_Start_history (received : list (Z * Z * StatusUpdate)) :
  forall dispatcher dispatcher' dispatched,
    Dispatcher_Start dispatcher received = (dispatcher', dispatched) ->
    alerters dispatcher' = alerters dispatcher /\
    reminderDelay dispatcher' = reminderDelay dispatcher /\
    advertisedBaseURL dispatcher' = advertisedBaseURL dispatcher /\
    (length dispatched <= length received)%nat /\
    (forall update, update ∈ dispatched ->
       PingerUpdate_Name update ∈ (StatusUpdate_Name ∘ snd) <$> received) /\
    dom (alertHistory dispatcher')
    = dom (alertHistory dispatcher)
      ∪ list_to_set (PingerUpdate_Name <$> dispatched).
Proof.
  induction received as [| [[now now'] statusUpdate] rest IH];
    intros dispatcher dispatcher' dispatched Hrun.
  - simpl in Hrun. injection Hrun as <- <-.
    split; [reflexivity |]. split; [reflexivity |]. split; [reflexivity |].
    split; [simpl; lia |]. split; [intros update Hin; inversion Hin |].
    simpl. rewrite (right_id_L ∅ (∪)). reflexivity.
  - cbn [Dispatcher_Start] in Hrun.
    destruct (Dispatcher_shouldPublish dispatcher now statusUpdate) eqn:Hp.
    + destruct (Start_step_published dispatcher now now' statusUpdate Hp)
        as (update & Hstep & Hname).
      rewrite Hstep in Hrun.
      destruct (Dispatcher_Start _ rest) as [d2 dispatched2] eqn:Hrest.
      injection Hrun as <- <-.
      apply IH in Hrest as (Ha & Hr & Hb & Hlen & Hnames & Hdom).
      cbn [alerters reminderDelay advertisedBaseURL alertHistory] in *.
      split; [exact Ha |]. split; [exact Hr |]. split; [exact Hb |].
      split; [simpl; lia |]. split.
      * intros u Hin. simpl in Hin. rewrite fmap_cons.
        apply elem_of_cons in Hin as [-> | Hin].
        -- rewrite Hname. apply elem_of_cons. left. reflexivity.
        -- apply elem_of_cons. right. apply Hnames. exact Hin.
      * rewrite Hdom, dom_insert_L. cbn [from_option app].
        rewrite fmap_cons, list_to_set_cons, Hname.
        rewrite (comm_L (∪) {[StatusUpdate_Name statusUpdate]}
                   (dom (alertHistory dispatcher))).
        rewrite (assoc_L (∪)). reflexivity.
    + rewrite Start_step_suppressed in Hrun by exact Hp.
      destruct (Dispatcher_Start dispatcher rest) as [d2 dispatched2] eqn:Hrest.
      injection Hrun as <- <-.
      apply IH in Hrest as (Ha & Hr & Hb & Hlen & Hnames & Hdom).
      split; [exact Ha |]. split; [exact Hr |]. split; [exact Hb |].
      split; [simpl; lia |]. split; [| exact Hdom].
      intros u Hin. simpl in Hin. rewrite fmap_cons.
      apply elem_of_cons. right. apply Hnames. exact Hin.
Qed.

Lemma Dispatcher_Start_history_witness :
  exists dispatcher' dispatched,
    Dispatcher_Start (sample.dispatcher ∅)
      [(0, 0, sample.event StatusOK 1);
       (5 * time.Second, 5 * time.Second, sample.event StatusOK 2)]
    = (dispatcher', dispatched) /\
    (length dispatched <= 2)%nat /\
    dom (alertHistory dispatcher')
    = dom (∅ : gmap string Z) ∪ list_to_set (PingerUpdate_Name <$> dispatched).
Proof.
  destruct (Dispatcher_Start (sample.dispatcher ∅)
              [(0, 0, sample.event StatusOK 1);
               (5 * time.Second, 5 * time.Second, sample.event StatusOK 2)])
    as [dispatcher' dispatched] eqn:Hrun.
  exists dispatcher', dispatched. split; [reflexivity |].
  destruct (Dispatcher_Start_history _ _ _ _ Hrun) as (_ & _ & _ & Hlen & _ & Hdom).
  split; [exact Hlen | exact Hdom].
Defined.

(** X10. [NewDispatcher] never fails for a configuration that is present:
    it returns a dispatcher with an empty alert history, the configured
    reminder delay and one alerter when an email section is configured, none
    otherwise. Such a fresh dispatcher publishes exactly the state
    transitions: with no alert recorded no reminder is ever due. *)
Theorem NewDispatcher_fresh (alertsConfig : config.Alerter) :
  exists dispatcher,
    NewDispatcher (Some alertsConfig) = Return (Ok dispatcher) /\
    alertHistory dispatcher = ∅ /\
    reminderDelay dispatcher = config.ReminderDelay alertsConfig /\
    length (alerters dispatcher)
    = match config.Alerter_Email alertsConfig with
      | Some _ => 1%nat
      | None => 0%nat
      end /\
    forall now update,
      Dispatcher_shouldPublish dispatcher now update
      = statusChanged (StatusUpdate_Status update).
Proof.
  unfold NewDispatcher.
  destruct (config.Alerter_Email alertsConfig) as [email |]; simpl;
    eexists; (split; [reflexivity |]); repeat split;
    intros now update; unfold Dispatcher_shouldPublish;
    cbn [alertHistory]; rewrite lookup_empty;
    destruct (statusChanged _); [reflexivity | | reflexivity |];
    destruct (Status_eqb _ _); reflexivity.
Qed.

(** ** The pingers: when a ping is OK and what it returns *)

(** X11. An HTTP ping is OK exactly when the request could be built, the
    server answered and the status code of the answer is the expected one.
    The body of the answer is returned as output exactly when the ping is
    OK: a failed HTTP ping never carries output, even when the server sent
    a body with an unexpected status code. *)
Theorem HTTPPinger_Ping_OK_iff (httpPinger : HTTPPinger) (x : HTTPExchange) :
  let expected :=
    config.StatusCode (config.HTTPCheck_Expect (HTTPPinger_Check httpPinger)) in
  (Result_Status (fst (HTTPPinger_Ping httpPinger x)) = StatusOK <->
   http_NewRequest x = None /\
   exists response,
     client_Do x = inr response /\ Response_StatusCode response = expected) /\
  (forall response,
     http_NewRequest x = None -> client_Do x = inr response ->
     Response_StatusCode response = expected ->
     HTTPPinger_Ping httpPinger x = (mkResult StatusOK None, Some (Body response))) /\
  (Result_Status (fst (HTTPPinger_Ping httpPinger x)) <> StatusOK <->
   snd (HTTPPinger_Ping httpPinger x) = None).
Proof.
  intros expected. subst expected. unfold HTTPPinger_Ping.
  destruct (http_NewRequest x) as [err |]; simpl.
  { split; [| split]; [split | | split]; try discriminate; try tauto.
    intros [Hn _]. discriminate. }
  destruct (client_Do x) as [err | response]; simpl.
  { split; [| split]; [split | | split]; try discriminate; try tauto.
    intros (_ & response & Hr & _). discriminate. }
  destruct (Z.eqb_spec
              (config.StatusCode (config.HTTPCheck_Expect (HTTPPinger_Check httpPinger)))
              (Response_StatusCode response)) as [Heq | Hne]; simpl.
  - split; [| split]; [split | | split]; try discriminate; try tauto.
    + intros _. split; [reflexivity |]. exists response. split; [reflexivity | congruence].
    + intros r _ Hr _. injection Hr as <-. reflexivity.
  - split; [| split]; [split | | split]; try discriminate; try tauto.
    + intros (_ & r & Hr & Hcode). injection Hr as <-. congruence.
    + intros r _ Hr Hcode. injection Hr as <-. congruence.
Qed.

(** X12. An SSH ping is OK exactly when the connection is made and the
    exit status of the command is the expected one, the exit status being 0
    when the command ran without error, the status of the exit error when it
    exited with one, and -1 for any other error. Unlike the HTTP pinger, the
    SSH pinger returns what the command wrote whenever the connection was
    made, also for a failed ping; it returns no output exactly when the
    connection failed. *)
Theorem SSHPinger_Ping_OK_iff (sshPinger : SSHPinger) (y : SSHExchange) :
  let exitStatus :=
    match session_Run y with
    | None => 0
    | Some (ExitError status) => status
    | Some (OtherError _) => -1
    end in
  (Result_Status (fst (SSHPinger_Ping sshPinger y)) = StatusOK <->
   connect y = None /\ exitStatus = ExpectedExitCode sshPinger) /\
  (connect y = None -> snd (SSHPinger_Ping sshPinger y) = Some (written y)) /\
  (snd (SSHPinger_Ping sshPinger y) = None <-> connect y <> None).
Proof.
  intros exitStatus. subst exitStatus. unfold SSHPinger_Ping, SSHClient_Run.
  destruct (connect y) as [err |]; simpl.
  { split; [| split]; [split | | split]; try discriminate; try tauto.
    intros [Hc _]. discriminate. }
  destruct (session_Run y) as [[status | msg] |]; simpl.
  - destruct (Z.eqb_spec (ExpectedExitCode sshPinger) status); simpl;
      (split; [| split]; [split | | split]); try discriminate; try tauto;
      intuition congruence.
  - destruct (Z.eqb_spec (ExpectedExitCode sshPinger) (-1)); simpl;
      (split; [| split]; [split | | split]); try discriminate; try tauto;
      intuition congruence.
  - destruct (Z.eqb_spec (ExpectedExitCode sshPinger) 0); simpl;
      (split; [| split]; [split | | split]); try discriminate; try tauto;
      intuition congruence.
Qed.

(** ** The construction of the pingers *)

Section pinger_construction.
Variable rt : config.Runtime.

(** What a check that passes [SSHCheck.Validate] satisfies. *)
Lemma SSHCheck_Validate_None (check : config.SSHCheck) :
  config.SSHCheck_Validate rt check = None ->
  config.ValidHostOrIpAddr rt (config.Host check) = true /\
  config.ValidPort (config.Port check) = true /\
  config.SSHAuth_Validate rt (config.Auth check) = None /\
  config.SSHExpectation_Validate (config.SSHCheck_Expect check) = None /\
  ((config.Command check <> ""%string /\ config.CommandFile check = ""%string) \/
   (config.Command check = ""%string /\ config.CommandFile check <> ""%string /\
    config.os_Stat rt (config.CommandFile check) = None)).
Proof.
  unfold config.SSHCheck_Validate.
  destruct (config.ValidHostOrIpAddr rt (config.Host check)); [| discriminate].
  destruct (config.ValidPort (config.Port check)); [| discriminate].
  destruct (config.SSHAuth_Validate rt (config.Auth check)); [discriminate |].
  destruct (config.SSHExpectation_Validate (config.SSHCheck_Expect check));
    [discriminate |].
  simpl.
  destruct (String.eqb_spec (config.Command check) "") as [Hc | Hc];
    destruct (String.eqb_spec (config.CommandFile check) "") as [Hf | Hf];
    simpl; try discriminate.
  - destruct (config.os_Stat rt (config.CommandFile check)); [discriminate |].
    intros _. repeat split. right. repeat split; assumption.
  - intros _. repeat split. left. split; assumption.
Qed.

Lemma SSHExpectation_Validate_None (expect : config.SSHExpectation) :
  config.SSHExpectation_Validate expect = None <-> 0 <= config.ExitCode expect <= 255.
Proof.
  unfold config.SSHExpectation_Validate.
  destruct (Z.ltb_spec (config.ExitCode expect) 0);
    destruct (Z.ltb_spec 255 (config.ExitCode expect)); simpl;
    split; intros; try discriminate; try lia; reflexivity.
Qed.

Lemma ValidPort_spec (port : Z) :
  config.ValidPort port = true <-> 1 <= port <= 65534.
Proof.
  unfold config.ValidPort. rewrite andb_true_iff, !Z.ltb_lt. lia.
Qed.

End pinger_construction.

(** X13. For a check that has passed [SSHCheck.Validate], [loadCommand]
    returns the command when one is given and otherwise the content of the
    command file; it fails only when the command file cannot be read (its
    existence was checked, its readability was not), and never for want of
    both a command and a command file. *)
Theorem loadCommand_after_Validate (rt : config.Runtime) (check : config.SSHCheck) :
  config.SSHCheck_Validate rt check = None ->
  (config.Command check <> ""%string /\
   loadCommand rt check = Ok (config.Command check)) \/
  (config.Command check = ""%string /\
   config.os_Stat rt (config.CommandFile check) = None /\
   loadCommand rt check
   = match config.ioutil_ReadFile rt (config.CommandFile check) with
     | inl err => Err err
     | inr bytes => Ok bytes
     end).
Proof.
  intros Hv.
  destruct (SSHCheck_Validate_None rt check Hv)
    as (_ & _ & _ & _ & [[Hc Hf] | (Hc & Hf & Hstat)]).
  - left. split; [exact Hc |]. unfold loadCommand.
    destruct (String.eqb_spec (config.Command check) ""); [contradiction | reflexivity].
  - right. split; [exact Hc |]. split; [exact Hstat |]. unfold loadCommand.
    rewrite Hc. simpl.
    destruct (String.eqb_spec (config.CommandFile check) ""); [contradiction | reflexivity].
Qed.

Lemma loadCommand_after_Validate_witness :
  (config.Command sample.ssh_check <> ""%string /\
   loadCommand sample.runtime_ssh sample.ssh_check
   = Ok (config.Command sample.ssh_check)) \/
  (config.Command sample.ssh_check = ""%string /\
   config.os_Stat sample.runtime_ssh (config.CommandFile sample.ssh_check) = None /\
   loadCommand sample.runtime_ssh sample.ssh_check
   = match config.ioutil_ReadFile sample.runtime_ssh
             (config.CommandFile sample.ssh_check) with
     | inl err => Err err
     | inr bytes => Ok bytes
     end).
Proof.
  apply (loadCommand_after_Validate sample.runtime_ssh sample.ssh_check).
  reflexivity.
Defined.

(** X14. [NewSSHPinger] succeeds exactly when the check decodes, passes
    [SSHCheck.Validate], its command loads, its user name is not empty and
    one of its credentials is usable: a password or key path that is not
    empty, or agent forwarding. The host and port tests of [NewSSHClient]
    repeat those of the validation and cannot fail after it, but a check
    whose only credential is an empty password or key path passes the
    validation and is rejected by [NewSSHClient]. The pinger then runs the
    loaded command and expects the configured exit code. *)
Theorem NewSSHPinger_Ok_iff (rt : config.Runtime) (pingerConfig : config.Pinger)
    (pinger : SSHPinger) :
  NewSSHPinger rt pingerConfig = Ok pinger <->
  exists check command,
    config.json_Unmarshal_SSHCheck rt (config.Check pingerConfig) = inr check /\
    config.SSHCheck_Validate rt check = None /\
    loadCommand rt check = Ok command /\
    config.SSHAuth_Username (config.Auth check) <> ""%string /\
    (default ""%string (config.SSHAuth_Password (config.Auth check)) <> ""%string \/
     default ""%string (config.Key (config.Auth check)) <> ""%string \/
     config.Agent (config.Auth check) = true) /\
    pinger = {| Client := mkSSHClient (NewSSHClientConfig check);
                SSHPinger_Command := command;
                ExpectedExitCode := config.ExitCode (config.SSHCheck_Expect check) |}.
Proof.
  unfold NewSSHPinger. split.
  - destruct (config.json_Unmarshal_SSHCheck rt (config.Check pingerConfig))
      as [err | check]; [discriminate |].
    destruct (config.SSHCheck_Validate rt check) eqn:Hv; [discriminate |].
    destruct (loadCommand rt check) as [command | err] eqn:Hload; [| discriminate].
    unfold NewSSHClient, NewSSHClientConfig.
    cbn [Username Password KeyPath AgentForwarding SSHClientConfig_Host SSHClientConfig_Port].
    destruct (String.eqb_spec (config.SSHAuth_Username (config.Auth check)) "");
      [discriminate |].
    destruct (String.eqb_spec (default ""%string (config.SSHAuth_Password (config.Auth check))) "")
      as [Hp | Hp];
      destruct (String.eqb_spec (default ""%string (config.Key (config.Auth check))) "")
        as [Hk | Hk];
      destruct (config.Agent (config.Auth check)) eqn:Ha; simpl; try discriminate;
      destruct (config.ValidHostOrIpAddr rt (config.Host check)); simpl; try discriminate;
      destruct (config.ValidPort (config.Port check)); simpl; try discriminate;
      intros Hok; injection Hok as <-; exists check, command;
      repeat split; auto;
      unfold NewSSHClientConfig; rewrite Ha; reflexivity.
  - intros (check & command & -> & Hv & -> & Hu & Hcred & ->).
    rewrite Hv.
    destruct (SSHCheck_Validate_None rt check Hv) as (Hhost & Hport & _).
    unfold NewSSHClient, NewSSHClientConfig.
    cbn [Username Password KeyPath AgentForwarding SSHClientConfig_Host SSHClientConfig_Port].
    destruct (String.eqb_spec (config.SSHAuth_Username (config.Auth check)) "");
      [contradiction |].
    rewrite Hhost, Hport. simpl.
    destruct (String.eqb_spec (default ""%string (config.SSHAuth_Password (config.Auth check))) "")
      as [Hp | Hp];
      destruct (String.eqb_spec (default ""%string (config.Key (config.Auth check))) "")
        as [Hk | Hk];
      destruct (config.Agent (config.Auth check)) eqn:Ha; simpl; try reflexivity.
    destruct Hcred as [Hc | [Hc | Hc]]; [contradiction | contradiction | discriminate].
Qed.

(** X14 on the sample configuration: the SSH check with password ["bar"]
    gives a pinger; the same check with an empty password passes
    [SSHCheck.Validate] and gives none. *)
Lemma NewSSHPinger_Ok_iff_witness :
  (exists pinger, NewSSHPinger sample.runtime_ssh sample.docker = Ok pinger) /\
  config.SSHCheck_Validate sample.runtime_ssh sample.ssh_check_empty_password = None /\
  (forall pinger,
     NewSSHPinger sample.runtime_ssh sample.docker_empty_password <> Ok pinger).
Proof.
  split; [| split].
  - eexists.
    apply (NewSSHPinger_Ok_iff sample.runtime_ssh sample.docker).
    exists sample.ssh_check, (config.Command sample.ssh_check).
    split; [reflexivity |]. split; [reflexivity |]. split; [reflexivity |].
    split; [discriminate |]. split; [left; discriminate | reflexivity].
  - reflexivity.
  - intros pinger Hok.
    apply (NewSSHPinger_Ok_iff sample.runtime_ssh sample.docker_empty_password) in Hok
      as (check & command & Hjson & _ & _ & _ & Hcred & _).
    vm_compute in Hjson. injection Hjson as <-.
    destruct Hcred as [Hc | [Hc | Hc]];
      [apply Hc; reflexivity | apply Hc; reflexivity | discriminate].
Defined.

(** X15. A pinger built by [NewSSHPinger] expects an exit code between 0
    and 255 and connects to a port between 1 and 65534. Hence it never
    reports OK when the command could not be run to an exit status (any
    error of [session.Run] other than an exit error counts as status -1),
    nor when the connection failed. *)
Theorem NewSSHPinger_run_error_is_NOK (rt : config.Runtime)
    (pingerConfig : config.Pinger) (pinger : SSHPinger) :
  NewSSHPinger rt pingerConfig = Ok pinger ->
  0 <= ExpectedExitCode pinger <= 255 /\
  1 <= SSHClientConfig_Port (Config (Client pinger)) <= 65534 /\
  (forall y msg,
     session_Run y = Some (OtherError msg) ->
     Result_Status (fst (SSHPinger_Ping pinger y)) = StatusNOK) /\
  (forall y err,
     connect y = Some err ->
     Result_Status (fst (SSHPinger_Ping pinger y)) = StatusNOK).
Proof.
  intros Hok.
  assert (Hinv : exists check,
            config.SSHCheck_Validate rt check = None /\
            ExpectedExitCode pinger = config.ExitCode (config.SSHCheck_Expect check) /\
            SSHClientConfig_Port (Config (Client pinger)) = config.Port check).
  { unfold NewSSHPinger in Hok.
    destruct (config.json_Unmarshal_SSHCheck rt (config.Check pingerConfig))
      as [err | check]; [discriminate |].
    destruct (config.SSHCheck_Validate rt check) eqn:Hv; [discriminate |].
    destruct (loadCommand rt check) as [command | err]; [| discriminate].
    destruct (NewSSHClient rt (NewSSHClientConfig check)) as [client | err] eqn:Hc;
      [| discriminate].
    injection Hok as <-. exists check. split; [exact Hv |]. split; [reflexivity |].
    unfold NewSSHClient in Hc.
    repeat match type of Hc with
           | (if ?b then _ else _) = _ => destruct b; [discriminate |]
           end.
    injection Hc as <-. reflexivity. }
  destruct Hinv as (check & Hv & Hexit & Hport).
  destruct (SSHCheck_Validate_None rt check Hv) as (_ & Hvp & _ & Hve & _).
  apply SSHExpectation_Validate_None in Hve. apply ValidPort_spec in Hvp.
  split; [lia |]. split; [lia |]. split.
  - intros y msg Hrun. unfold SSHPinger_Ping, SSHClient_Run.
    destruct (connect y); [reflexivity |]. rewrite Hrun. simpl.
    destruct (Z.eqb_spec (ExpectedExitCode pinger) (-1)); [lia | reflexivity].
  - intros y err Hconn. unfold SSHPinger_Ping, SSHClient_Run. rewrite Hconn.
    reflexivity.
Qed.

Lemma NewSSHPinger_run_error_is_NOK_witness :
  exists pinger,
    NewSSHPinger sample.runtime_ssh sample.docker = Ok pinger /\
    0 <= ExpectedExitCode pinger <= 255 /\
    Result_Status
      (fst (SSHPinger_Ping pinger
              (mkSSHExchange None (Some (OtherError "signal: killed")) [])))
    = StatusNOK.
Proof.
  destruct (NewSSHPinger sample.runtime_ssh sample.docker) as [pinger | err] eqn:Hnew;
    [| vm_compute in Hnew; discriminate].
  exists pinger. split; [reflexivity |].
  destruct (NewSSHPinger_run_error_is_NOK sample.runtime_ssh sample.docker pinger Hnew)
    as (Hexit & _ & Hrun & _).
  split; [exact Hexit |].
  apply (Hrun _ "signal: killed"%string). reflexivity.
Defined.

(** X16. [NewHTTPPinger] succeeds exactly when the check decodes and passes
    [HTTPCheck.Validate], and the pinger holds the decoded check; its
    expected status code then lies between 100 and 599, so it reports OK
    only for answers with a status code in that range. *)
Theorem NewHTTPPinger_Ok_iff (rt : config.Runtime) (httpConfig : config.Pinger)
    (pinger : HTTPPinger) :
  (NewHTTPPinger rt httpConfig = Ok pinger <->
   exists check,
     config.json_Unmarshal_HTTPCheck rt (config.Check httpConfig) = inr check /\
     config.HTTPCheck_Validate rt check = None /\
     pinger = mkHTTPPinger check) /\
  (NewHTTPPinger rt httpConfig = Ok pinger ->
   100 <= config.StatusCode (config.HTTPCheck_Expect (HTTPPinger_Check pinger)) <= 599 /\
   forall x response,
     Result_Status (fst (HTTPPinger_Ping pinger x)) = StatusOK ->
     client_Do x = inr response ->
     100 <= Response_StatusCode response <= 599).
Proof.
  assert (Hiff : NewHTTPPinger rt httpConfig = Ok pinger <->
            exists check,
              config.json_Unmarshal_HTTPCheck rt (config.Check httpConfig) = inr check /\
              config.HTTPCheck_Validate rt check = None /\
              pinger = mkHTTPPinger check).
  { unfold NewHTTPPinger. split.
    - destruct (config.json_Unmarshal_HTTPCheck rt (config.Check httpConfig))
        as [err | check]; [discriminate |].
      destruct (config.HTTPCheck_Validate rt check) eqn:Hv; [discriminate |].
      intros Hok. injection Hok as <-. exists check.
      split; [reflexivity |]. split; [exact Hv | reflexivity].
    - intros (check & -> & -> & ->). reflexivity. }
  split; [exact Hiff |].
  intros Hok. apply Hiff in Hok as (check & _ & Hv & ->). cbn [HTTPPinger_Check].
  assert (Hrange : 100 <= config.StatusCode (config.HTTPCheck_Expect check) <= 599).
  { unfold config.HTTPCheck_Validate in Hv.
    destruct (config.url_Parse rt (config.URL check)); [discriminate |].
    destruct (from_option _ _ _); [discriminate |].
    unfold config.HTTPExpectation_Validate, config.ValidHTTPStatusCode in Hv.
    destruct (Z.leb_spec 100 (config.StatusCode (config.HTTPCheck_Expect check)));
      destruct (Z.ltb_spec (config.StatusCode (config.HTTPCheck_Expect check)) 600);
      simpl in Hv; try discriminate. lia. }
  split; [exact Hrange |].
  intros x response Hstatus Hdo. unfold HTTPPinger_Ping in Hstatus.
  destruct (http_NewRequest x); [discriminate |]. rewrite Hdo in Hstatus.
  cbn [HTTPPinger_Check] in Hstatus.
  destruct (Z.eqb_spec (config.StatusCode (config.HTTPCheck_Expect check))
              (Response_StatusCode response)) as [Heq | Hne];
    [lia | discriminate].
Qed.

Lemma NewHTTPPinger_Ok_iff_witness :
  NewHTTPPinger sample.runtime sample.google = Ok sample.pinger /\
  100 <= config.StatusCode (config.HTTPCheck_Expect (HTTPPinger_Check sample.pinger))
      <= 599.
Proof.
  destruct (NewHTTPPinger_Ok_iff sample.runtime sample.google sample.pinger)
    as (Hiff & Hrange).
  assert (Hok : NewHTTPPinger sample.runtime sample.google = Ok sample.pinger).
  { apply Hiff. exists sample.check. repeat split. }
  split; [exact Hok |]. apply Hrange. exact Hok.
Defined.

(** ** Validation of the configuration *)

Section Validate_facts.
Variable rt : config.Runtime.
Variable sx : config.Syntax.

Lemma Schedule_Validate_None (schedule : config.Schedule) :
  config.Schedule_Validate schedule = None <->
  exists interval retries,
    config.Interval schedule = Some interval /\
    config.Schedule_Retries schedule = Some retries /\
    0 <= config.Attempts retries.
Proof.
  unfold config.Schedule_Validate.
  destruct (config.Interval schedule) as [interval |].
  2:{ split; [discriminate | intros (? & ? & ? & _); discriminate]. }
  destruct (config.Schedule_Retries schedule) as [retries |].
  2:{ split; [discriminate | intros (? & ? & _ & ? & _); discriminate]. }
  pose proof (Retries_Validate_accepts retries) as Hr.
  destruct (config.Retries_Validate retries).
  - split; [discriminate |]. intros (? & r & _ & Hs & Hn). injection Hs as <-.
    apply Hr in Hn. discriminate.
  - split; [| reflexivity]. intros _. exists interval, retries.
    repeat split. apply Hr. reflexivity.
Qed.

Lemma Engine_Validate_loop_None (pingers : list config.Pinger) :
  forall takenNames : gmap string bool,
    config.Engine_Validate_loop sx pingers takenNames = None <->
    Forall (fun pinger => config.Pinger_Validate sx pinger = None) pingers /\
    NoDup (config.Name <$> pingers) /\
    forall pinger, pinger ∈ pingers ->
      default false (takenNames !! config.Name pinger) = false.
Proof.
  induction pingers as [| pinger rest IH]; intros takenNames.
  - simpl. split; [| reflexivity]. intros _.
    repeat split; [constructor | constructor |].
    intros p Hin. inversion Hin.
  - cbn [config.Engine_Validate_loop]. rewrite fmap_cons, NoDup_cons, Forall_cons.
    destruct (default false (takenNames !! config.Name pinger)) eqn:Htaken.
    { split; [discriminate |]. intros (_ & _ & Hfree).
      rewrite Hfree in Htaken by (left). discriminate. }
    destruct (config.Pinger_Validate sx pinger) eqn:Hv.
    { split; [discriminate |]. intros ([Hp _] & _). discriminate. }
    rewrite IH. split.
    + intros (Hall & Hnd & Hfree). repeat split; try assumption.
      * intros Hin. apply list_elem_of_fmap in Hin as (p & Hname & Hin).
        specialize (Hfree p Hin). rewrite <- Hname, lookup_insert_eq in Hfree.
        discriminate.
      * intros p Hin. apply elem_of_cons in Hin as [-> | Hin]; [exact Htaken |].
        specialize (Hfree p Hin).
        destruct (decide (config.Name pinger = config.Name p)) as [Heq | Hne].
        -- rewrite Heq, lookup_insert_eq in Hfree. discriminate.
        -- rewrite lookup_insert_ne in Hfree by exact Hne. exact Hfree.
    + intros ([_ Hall] & [Hfresh Hnd] & Hfree). repeat split; try assumption.
      intros p Hin. rewrite lookup_insert_ne.
      * apply Hfree. right. exact Hin.
      * intros Heq. apply Hfresh. rewrite Heq. apply list_elem_of_fmap_2. exact Hin.
Qed.

(** [Engine.Validate] accepts when its three parts do. *)
Lemma Engine_Validate_None_parts (engine : config.Engine) :
  config.Engine_Validate rt sx engine = None <->
  from_option config.Schedule_Validate None (config.DefaultSchedule engine) = None /\
  config.Engine_Validate_loop sx (config.Pingers engine) ∅ = None /\
  from_option (config.Alerter_Validate rt sx) None (config.Engine_Alerter engine)
  = None.
Proof.
  unfold config.Engine_Validate.
  destruct (from_option config.Schedule_Validate None _);
    [split; [discriminate | intros (Ha & _); discriminate] |].
  destruct (config.Engine_Validate_loop sx (config.Pingers engine) ∅);
    [split; [discriminate | intros (_ & Ha & _); discriminate] |].
  destruct (from_option (config.Alerter_Validate rt sx) None _);
    [split; [discriminate | intros (_ & _ & Ha); discriminate] |].
  split; [intros _; split; [| split]; reflexivity | reflexivity].
Qed.

End Validate_facts.

(** X17. [Engine.Validate] accepts a configuration exactly when its default
    schedule, if given, has an interval, retries and a number of attempts
    that is not negative; the names of its pingers are pairwise different;
    every pinger passes [Pinger.Validate]; and its alerter section, if
    given, passes [Alerter.Validate]. A missing default schedule and a
    missing alerter section are both accepted. *)
Theorem Engine_Validate_None_iff (rt : config.Runtime) (sx : config.Syntax)
    (engine : config.Engine) :
  config.Engine_Validate rt sx engine = None <->
  (forall schedule,
     config.DefaultSchedule engine = Some schedule ->
     exists interval retries,
       config.Interval schedule = Some interval /\
       config.Schedule_Retries schedule = Some retries /\
       0 <= config.Attempts retries) /\
  NoDup (config.Name <$> config.Pingers engine) /\
  Forall (fun pinger => config.Pinger_Validate sx pinger = None)
    (config.Pingers engine) /\
  (forall alerter,
     config.Engine_Alerter engine = Some alerter ->
     config.Alerter_Validate rt sx alerter = None).
Proof.
  rewrite Engine_Validate_None_parts, Engine_Validate_loop_None.
  assert (Hsched :
    from_option config.Schedule_Validate None (config.DefaultSchedule engine) = None <->
    forall schedule,
      config.DefaultSchedule engine = Some schedule ->
      exists interval retries,
        config.Interval schedule = Some interval /\
        config.Schedule_Retries schedule = Some retries /\
        0 <= config.Attempts retries).
  { destruct (config.DefaultSchedule engine) as [schedule |]; simpl.
    - rewrite Schedule_Validate_None. split.
      + intros Hs s Heq. injection Heq as <-. exact Hs.
      + intros Hs. apply Hs. reflexivity.
    - split; [intros _ s Heq; discriminate | reflexivity]. }
  assert (Halert :
    from_option (config.Alerter_Validate rt sx) None (config.Engine_Alerter engine)
    = None <->
    forall alerter,
      config.Engine_Alerter engine = Some alerter ->
      config.Alerter_Validate rt sx alerter = None).
  { destruct (config.Engine_Alerter engine) as [alerter |]; simpl.
    - split.
      + intros Ha a Heq. injection Heq as <-. exact Ha.
      + intros Ha. apply Ha. reflexivity.
    - split; [intros _ a Heq; discriminate | reflexivity]. }
  rewrite Hsched, Halert.
  split.
  - intros (Hs & (Hall & Hnd & _) & Ha).
    split; [exact Hs |]. split; [exact Hnd |]. split; [exact Hall | exact Ha].
  - intros (Hs & Hnd & Hall & Ha).
    split; [exact Hs |]. split; [| exact Ha].
    split; [exact Hall |]. split; [exact Hnd |].
    intros pinger _. reflexivity.
Qed.

(** ** From the validated configuration to the engine *)

Section NewEngine_more.
Variable rt : config.Runtime.
Variable defaultSchedule : config.Schedule.

(** The error of the loop is the error of the first definition, in the
    order of the configuration, whose pinger cannot be built. *)
Lemma NewEngine_loop_first_failure before : forall pingerConf after err pingers,
  Forall (fun pc => exists pinger, instantiate rt pc = Ok pinger) before ->
  instantiate rt pingerConf = Err err ->
  NewEngine_loop rt defaultSchedule (before ++ pingerConf :: after) pingers
  = Err ("failed to instantiate pinger: " +:+ err).
Proof.
  induction before as [| pc before IH]; intros pingerConf after err pingers Hall Herr.
  - simpl. rewrite Herr. reflexivity.
  - apply Forall_cons in Hall as [[pinger Hpc] Hall].
    cbn [app NewEngine_loop]. rewrite Hpc. apply IH; assumption.
Qed.

(** Under a name the loop leaves the task of the last definition of that
    name. *)
Lemma NewEngine_loop_last before : forall pingerConf after pingers pingers',
  NewEngine_loop rt defaultSchedule (before ++ pingerConf :: after) pingers
  = Ok pingers' ->
  config.Name pingerConf ∉ config.Name <$> after ->
  exists pinger,
    instantiate rt pingerConf = Ok pinger /\
    pingers' !! config.Name pingerConf
    = Some (task_of defaultSchedule pingerConf pinger).
Proof.
  induction before as [| pc before IH]; intros pingerConf after pingers pingers' Hloop Hlast.
  - cbn [app NewEngine_loop] in Hloop.
    destruct (instantiate rt pingerConf) as [pinger | err]; [| discriminate].
    exists pinger. split; [reflexivity |].
    apply NewEngine_loop_inv in Hloop as (_ & Hframe & _).
    rewrite Hframe by exact Hlast. apply lookup_insert_eq.
  - cbn [app NewEngine_loop] in Hloop.
    destruct (instantiate rt pc) as [pinger | err]; [| discriminate].
    eapply IH; eassumption.
Qed.

(** Every task the loop adds is built by [task_of] from a definition of the
    configuration that bears its name. *)
Lemma NewEngine_loop_tasks pingerConfs : forall pingers pingers' name task,
  NewEngine_loop rt defaultSchedule pingerConfs pingers = Ok pingers' ->
  pingers' !! name = Some task ->
  pingers !! name = Some task \/
  exists pingerConf pinger,
    pingerConf ∈ pingerConfs /\ config.Name pingerConf = name /\
    instantiate rt pingerConf = Ok pinger /\
    task = task_of defaultSchedule pingerConf pinger.
Proof.
  induction pingerConfs as [| pc rest IH]; intros pingers pingers' name task Hloop Hlook.
  - simpl in Hloop. injection Hloop as <-. left. exact Hlook.
  - cbn [NewEngine_loop] in Hloop.
    destruct (instantiate rt pc) as [pinger | err] eqn:Hpc; [| discriminate].
    destruct (IH _ _ _ _ Hloop Hlook) as [Hacc | (pc' & p' & Hin & Hname & Hi & Ht)].
    + destruct (decide (config.Name pc = name)) as [Heq | Hne].
      * rewrite <- Heq, lookup_insert_eq in Hacc. injection Hacc as <-.
        right. exists pc, pinger. repeat split; [left | exact Heq | exact Hpc].
      * rewrite lookup_insert_ne in Hacc by exact Hne. left. exact Hacc.
    + right. exists pc', p'. repeat split; try assumption. right. exact Hin.
Qed.

End NewEngine_more.

Lemma remove_dups_length (l : list string) :
  (length (remove_dups l) <= length l)%nat.
Proof.
  induction l as [| x l IH]; simpl; [lia |].
  destruct (decide_rel elem_of x l); simpl; lia.
Qed.

Lemma remove_dups_length_NoDup (l : list string) :
  length (remove_dups l) = length l -> NoDup l.
Proof.
  induction l as [| x l IH]; simpl; [intros _; constructor |].
  pose proof (remove_dups_length l).
  destruct (decide_rel elem_of x l) as [Hin | Hnin]; simpl; intros Hlen; [lia |].
  apply NoDup_cons. split; [exact Hnin | apply IH; lia].
Qed.

(** X18. A configuration that [Engine.Validate] accepts, whose pingers can
    all be built and which has an alerter section, gives an engine with
    exactly one task per configured pinger, and every task of that engine
    can be started: its schedule has an interval and retries with a number
    of attempts that is not negative, so that neither [Start] nor [ping]
    panics on a nil pointer. *)
Theorem validated_engine_is_startable (rt : config.Runtime) (sx : config.Syntax)
    (engineConf : config.Engine) (advertisedBaseURL : string) :
  config.Engine_Validate rt sx engineConf = None ->
  Forall (fun pingerConf => exists pinger, instantiate rt pingerConf = Ok pinger)
    (config.Pingers engineConf) ->
  is_Some (config.Engine_Alerter engineConf) ->
  exists engine,
    NewEngine rt engineConf advertisedBaseURL = Return (Ok engine) /\
    size (Pingers engine) = length (config.Pingers engineConf) /\
    forall name task,
      Pingers engine !! name = Some task ->
      Name task = name /\
      (exists interval retries,
         config.Interval (Schedule task) = Some interval /\
         config.Schedule_Retries (Schedule task) = Some retries /\
         0 <= config.Attempts retries) /\
      (forall w, PingerTask_ping task w <> Panic) /\
      (forall w, exists task0, PingerTask_Start 0 task w = Return (Some task0, w)).
Proof.
  intros Hvalid Hall [alertsConfig Halerter].
  apply Engine_Validate_None_parts in Hvalid as (Hdefault & Hloopv & _).
  apply Engine_Validate_loop_None in Hloopv as (Hpingers & Hnd & _).
  set (ds := default standardDefaultSchedule (config.DefaultSchedule engineConf)).
  assert (Hds : exists interval retries,
            config.Interval ds = Some interval /\
            config.Schedule_Retries ds = Some retries /\
            0 <= config.Attempts retries).
  { unfold ds. destruct (config.DefaultSchedule engineConf) as [s |]; simpl.
    - apply Schedule_Validate_None. exact Hdefault.
    - eexists. eexists. repeat split. simpl. lia. }
  destruct (NewEngine_loop_Ok rt ds (config.Pingers engineConf) ∅ Hall)
    as [pingers Hloop].
  exists (mkEngine pingers ds).
  split.
  { unfold NewEngine, NewDispatcher. fold ds. rewrite Hloop, Halerter.
    destruct (config.Alerter_Email alertsConfig); reflexivity. }
  cbn [Pingers].
  pose proof (NewEngine_loop_inv rt ds _ _ _ Hloop) as (_ & _ & _ & Hsize).
  split.
  { rewrite Hsize; [rewrite map_size_empty; reflexivity | exact Hnd |].
    intros pc _. apply lookup_empty. }
  intros name task Hlook.
  destruct (NewEngine_loop_tasks rt ds _ _ _ _ _ Hloop Hlook)
    as [Hempty | (pc & pinger & Hin & Hname & _ & ->)].
  { rewrite lookup_empty in Hempty. discriminate. }
  assert (Hsched : exists interval retries,
            config.Interval (Schedule (task_of ds pc pinger)) = Some interval /\
            config.Schedule_Retries (Schedule (task_of ds pc pinger)) = Some retries /\
            0 <= config.Attempts retries).
  { cbn [task_of Schedule].
    destruct (config.Pinger_Schedule pc) as [s |] eqn:Hs; simpl; [| exact Hds].
    rewrite Forall_forall in Hpingers. specialize (Hpingers pc Hin).
    unfold config.Pinger_Validate in Hpingers. rewrite Hs in Hpingers.
    repeat match type of Hpingers with
           | (if ?b then _ else _) = _ => destruct b; [discriminate |]
           end.
    simpl in Hpingers. apply Schedule_Validate_None.
    destruct (config.Schedule_Validate s); [discriminate | reflexivity]. }
  destruct Hsched as (interval & retries & Hi & Hr & Hn).
  split; [exact Hname |].
  split; [exists interval, retries; repeat split; assumption |].
  split.
  - intros w. unfold PingerTask_ping. rewrite Hr. discriminate.
  - intros w. unfold PingerTask_Start. cbn [Schedule] in *. rewrite Hi, Hr.
    eexists. reflexivity.
Qed.

Lemma validated_engine_is_startable_witness :
  exists engine,
    NewEngine sample.runtime (sample.engine_config [sample.google])
      "https://127.0.0.1:8443" = Return (Ok engine) /\
    size (Pingers engine) = 1%nat.
Proof.
  destruct (validated_engine_is_startable sample.runtime sample.syntax
              (sample.engine_config [sample.google]) "https://127.0.0.1:8443")
    as (engine & Hnew & Hsize & _).
  - reflexivity.
  - apply Forall_cons. split; [| apply Forall_nil; exact I].
    eexists. reflexivity.
  - eexists. reflexivity.
  - exists engine. split; assumption.
Defined.

(** X19. A configuration without an alerter section cannot be used:
    [Engine.Validate] treats it like the same configuration with a valid
    alerter section, but once all its pingers are built [NewEngine] does not
    return for it, as [NewDispatcher] dereferences the missing section and
    panics. *)
Theorem NewEngine_panics_without_alerter (rt : config.Runtime) (sx : config.Syntax)
    (engineConf : config.Engine) (advertisedBaseURL : string) :
  config.Engine_Alerter engineConf = None ->
  (Forall (fun pingerConf => exists pinger, instantiate rt pingerConf = Ok pinger)
     (config.Pingers engineConf) ->
   NewEngine rt engineConf advertisedBaseURL = Panic) /\
  (forall alerter,
     config.Alerter_Validate rt sx alerter = None ->
     (config.Engine_Validate rt sx engineConf = None <->
      config.Engine_Validate rt sx
        (config.mkEngine (config.DefaultSchedule engineConf)
           (config.Pingers engineConf) (Some alerter)) = None)).
Proof.
  intros Hnone. split.
  - intros Hall.
    destruct (NewEngine_loop_Ok rt
                (default standardDefaultSchedule (config.DefaultSchedule engineConf))
                (config.Pingers engineConf) ∅ Hall) as [pingers Hloop].
    unfold NewEngine. rewrite Hloop, Hnone. reflexivity.
  - intros alerter Ha. rewrite !Engine_Validate_None_parts.
    cbn [config.DefaultSchedule config.Pingers config.Engine_Alerter].
    rewrite Hnone. cbn [from_option]. rewrite Ha. reflexivity.
Qed.

Lemma NewEngine_panics_without_alerter_witness :
  config.Engine_Validate sample.runtime sample.syntax
    (sample.engine_config_without_alerter [sample.google]) = None /\
  NewEngine sample.runtime (sample.engine_config_without_alerter [sample.google])
    "https://127.0.0.1:8443" = Panic.
Proof.
  destruct (NewEngine_panics_without_alerter sample.runtime sample.syntax
              (sample.engine_config_without_alerter [sample.google])
              "https://127.0.0.1:8443" eq_refl) as (Hpanic & Hvalid).
  split.
  - apply (Hvalid sample.alerter); reflexivity.
  - apply Hpanic. apply Forall_cons. split; [| apply Forall_nil; exact I].
    eexists. reflexivity.
Defined.

(** X20. When pingers cannot be built, [NewEngine] reports the first one
    in the order of the configuration: if every definition before
    [pingerConf] can be built and [pingerConf] fails with [err], the result
    is the error "failed to instantiate pinger: " followed by [err],
    whatever follows in the configuration and whether or not an alerter is
    configured. *)
Theorem NewEngine_first_failure (rt : config.Runtime) (engineConf : config.Engine)
    (advertisedBaseURL : string) (before after : list config.Pinger)
    (pingerConf : config.Pinger) (err : string) :
  config.Pingers engineConf = before ++ pingerConf :: after ->
  Forall (fun pc => exists pinger, instantiate rt pc = Ok pinger) before ->
  instantiate rt pingerConf = Err err ->
  NewEngine rt engineConf advertisedBaseURL
  = Return (Err ("failed to instantiate pinger: " +:+ err)).
Proof.
  intros Hpingers Hall Herr. unfold NewEngine. rewrite Hpingers.
  rewrite (NewEngine_loop_first_failure rt _ before pingerConf after err ∅ Hall Herr).
  reflexivity.
Qed.

Lemma NewEngine_first_failure_witness :
  NewEngine sample.runtime
    (sample.engine_config [sample.google; sample.router; sample.docker])
    "https://127.0.0.1:8443"
  = Return (Err ("failed to instantiate pinger: " +:+ "unknown pinger type: icmp")).
Proof.
  apply (NewEngine_first_failure sample.runtime
           (sample.engine_config [sample.google; sample.router; sample.docker])
           "https://127.0.0.1:8443" [sample.google] [sample.docker] sample.router).
  - reflexivity.
  - apply Forall_cons. split; [| apply Forall_nil; exact I].
    eexists. reflexivity.
  - reflexivity.
Defined.

(** X21. [NewEngine] does not reject repeated names: under each name a
    returned engine holds the task built from the last definition of that
    name, earlier definitions of the name being overwritten, and the number
    of its tasks is the number of different names, which is smaller than
    the number of definitions as soon as a name is repeated. *)
Theorem NewEngine_last_definition_wins (rt : config.Runtime)
    (engineConf : config.Engine) (advertisedBaseURL : string) (engine : Engine) :
  NewEngine rt engineConf advertisedBaseURL = Return (Ok engine) ->
  (forall before pingerConf after,
     config.Pingers engineConf = before ++ pingerConf :: after ->
     config.Name pingerConf ∉ config.Name <$> after ->
     exists pinger,
       instantiate rt pingerConf = Ok pinger /\
       Pingers engine !! config.Name pingerConf
       = Some (task_of (DefaultSchedule engine) pingerConf pinger)) /\
  size (Pingers engine)
  = length (remove_dups (config.Name <$> config.Pingers engineConf)) /\
  (~ NoDup (config.Name <$> config.Pingers engineConf) ->
   (size (Pingers engine) < length (config.Pingers engineConf))%nat).
Proof.
  intros Hnew. unfold NewEngine in Hnew.
  set (ds := default standardDefaultSchedule (config.DefaultSchedule engineConf)) in *.
  destruct (NewEngine_loop rt ds (config.Pingers engineConf) ∅)
    as [pingers | err] eqn:Hloop; [| discriminate].
  destruct (NewDispatcher (config.Engine_Alerter engineConf))
    as [[dispatcher | err] |]; try discriminate.
  injection Hnew as <-. cbn [Pingers DefaultSchedule].
  assert (Hsize : size pingers
                  = length (remove_dups (config.Name <$> config.Pingers engineConf))).
  { pose proof (NewEngine_loop_inv rt ds _ _ _ Hloop) as (Hdom & _).
    rewrite dom_empty_L, (left_id_L ∅ (∪)) in Hdom.
    rewrite <- size_dom, Hdom.
    rewrite <- (size_list_to_set (C := gset string) (remove_dups _))
      by apply NoDup_remove_dups.
    f_equal. apply set_eq. intros name.
    rewrite !elem_of_list_to_set, elem_of_remove_dups. reflexivity. }
  split; [| split; [exact Hsize |]].
  - intros before pingerConf after Hpingers Hlast.
    rewrite Hpingers in Hloop.
    exact (NewEngine_loop_last rt ds before pingerConf after ∅ pingers Hloop Hlast).
  - intros Hdup. rewrite Hsize.
    rewrite <- (length_fmap config.Name (config.Pingers engineConf)).
    pose proof (remove_dups_length (config.Name <$> config.Pingers engineConf)) as Hle.
    destruct (decide (length (remove_dups (config.Name <$> config.Pingers engineConf))
                      = length (config.Name <$> config.Pingers engineConf)))
      as [Heq | Hne]; [| lia].
    exfalso. apply Hdup, remove_dups_length_NoDup, Heq.
Qed.

Lemma NewEngine_last_definition_wins_witness :
  exists engine,
    NewEngine sample.runtime
      (sample.engine_config [sample.google; sample.google_again])
      "https://127.0.0.1:8443" = Return (Ok engine) /\
    (size (Pingers engine) < 2)%nat /\
    config.Interval
      (from_option Schedule (config.mkSchedule None None)
         (Pingers engine !! "google.com"%string))
    = Some time.Minute.
Proof.
  destruct (NewEngine sample.runtime
              (sample.engine_config [sample.google; sample.google_again])
              "https://127.0.0.1:8443") as [[engine | err] |] eqn:Hnew;
    try (vm_compute in Hnew; discriminate).
  exists engine. split; [reflexivity |].
  destruct (NewEngine_last_definition_wins sample.runtime
              (sample.engine_config [sample.google; sample.google_again])
              "https://127.0.0.1:8443" engine Hnew) as (Hlast & _ & Hless).
  split.
  - apply Hless. intros Hnd. apply NoDup_cons in Hnd as [Hfresh _].
    apply Hfresh. left.
  - destruct (Hlast [sample.google] sample.google_again [] eq_refl)
      as (pinger & _ & Hlook).
    + intros Hin. inversion Hin.
    + change (config.Name sample.google_again) with "google.com"%string in Hlook.
      rewrite Hlook. reflexivity.
Defined.

(** ** What the server answers *)

(** X22. Between [NewEngine] and the start of the tasks the server answers
    for every configured name with the zero status (latest status Unknown,
    consecutive count 0, no timestamps; the count 1 is only set by [Start])
    and with 404 for its output; for every other name both handlers answer
    404 "requested pinger does not exist". *)
Theorem Server_before_Start (rt : config.Runtime) (engineConf : config.Engine)
    (advertisedBaseURL : string) (engine : Engine)
    (marshal : PingerTaskStatus -> result string) (name : string) :
  NewEngine rt engineConf advertisedBaseURL = Return (Ok engine) ->
  (name ∈ config.Name <$> config.Pingers engineConf ->
   server.Server_pingerStatus marshal engine name
   = server.respondWithJSON marshal (mkPingerTaskStatus Result_zero 0 None None) /\
   server.Server_pingerOutput engine name
   = server.http_Error "Not Found: no output has been recorded (yet) for pinger" 404) /\
  (name ∉ config.Name <$> config.Pingers engineConf ->
   server.Server_pingerStatus marshal engine name
   = server.http_Error "Not Found: requested pinger does not exist" 404 /\
   server.Server_pingerOutput engine name
   = server.http_Error "Not Found: requested pinger does not exist" 404).
Proof.
  intros Hnew. unfold NewEngine in Hnew.
  set (ds := default standardDefaultSchedule (config.DefaultSchedule engineConf)) in *.
  destruct (NewEngine_loop rt ds (config.Pingers engineConf) ∅)
    as [pingers | err] eqn:Hloop; [| discriminate].
  destruct (NewDispatcher (config.Engine_Alerter engineConf))
    as [[dispatcher | err] |]; try discriminate.
  injection Hnew as <-.
  pose proof (NewEngine_loop_inv rt ds _ _ _ Hloop) as (Hdom & _).
  rewrite dom_empty_L, (left_id_L ∅ (∪)) in Hdom.
  unfold server.Server_pingerStatus, server.Server_pingerOutput. cbn [Pingers].
  split; intros Hname.
  - assert (Hsome : is_Some (pingers !! name)).
    { apply elem_of_dom. rewrite Hdom. apply elem_of_list_to_set. exact Hname. }
    destruct Hsome as [task Hlook]. rewrite Hlook.
    destruct (NewEngine_loop_tasks rt ds _ _ _ _ _ Hloop Hlook)
      as [Hempty | (pc & pinger & _ & _ & _ & ->)].
    { rewrite lookup_empty in Hempty. discriminate. }
    split; reflexivity.
  - assert (Hnone : pingers !! name = None).
    { apply not_elem_of_dom. rewrite Hdom. rewrite elem_of_list_to_set. exact Hname. }
    rewrite Hnone. split; reflexivity.
Qed.

Lemma Server_before_Start_witness :
  exists engine,
    NewEngine sample.runtime (sample.engine_config [sample.google])
      "https://127.0.0.1:8443" = Return (Ok engine) /\
    server.Server_pingerOutput engine "google.com"
    = server.http_Error "Not Found: no output has been recorded (yet) for pinger" 404 /\
    server.Server_pingerOutput engine "router"
    = server.http_Error "Not Found: requested pinger does not exist" 404.
Proof.
  destruct (NewEngine sample.runtime (sample.engine_config [sample.google])
              "https://127.0.0.1:8443") as [[engine | err] |] eqn:Hnew;
    try (vm_compute in Hnew; discriminate).
  exists engine. split; [reflexivity |]. split.
  - destruct (Server_before_Start sample.runtime (sample.engine_config [sample.google])
                "https://127.0.0.1:8443" engine (fun _ => Ok ""%string)
                "google.com" Hnew) as (Hin & _).
    apply Hin. apply elem_of_cons. left. reflexivity.
  - destruct (Server_before_Start sample.runtime (sample.engine_config [sample.google])
                "https://127.0.0.1:8443" engine (fun _ => Ok ""%string)
                "router" Hnew) as (_ & Hout).
    apply Hout. intros Hin. apply elem_of_cons in Hin as [Heq | Hin];
      [discriminate | inversion Hin].
Defined.

(** X23. The output the server hands out for an endpoint is the output of
    its latest cycle only: once a task of the engine has updated its status
    with the outcome of a ping, [pingerOutput] answers with the bytes that
    ping returned, and with 404 when it returned none, whatever output was
    recorded before. For an HTTP pinger that is 404 after every failed
    ping; for an SSH pinger it is what the command wrote whenever the
    connection was made, also after a failed ping. *)
Theorem Server_pingerOutput_after_cycle (engine : Engine) (name : string)
    (task : PingerTask AnyPinger) (x : SSHExchange * HTTPExchange)
    (w : World (SSHExchange * HTTPExchange)) :
  let r := @Ping AnyPinger AnyPinger_Pinger (Pinger task) x in
  let engine' :=
    mkEngine (<[name := fst (PingerTask_updateStatus task (fst r) (snd r) w)]>
                (Pingers engine))
      (DefaultSchedule engine) in
  server.Server_pingerOutput engine' name
  = match snd r with
    | Some output => server.mkHTTPReply 200 "text/plain" (server.Bytes output)
    | None =>
        server.http_Error "Not Found: no output has been recorded (yet) for pinger" 404
    end /\
  (forall p, Pinger task = HTTP p -> Result_Status (fst r) <> StatusOK ->
     server.Server_pingerOutput engine' name
     = server.http_Error "Not Found: no output has been recorded (yet) for pinger" 404) /\
  (forall p, Pinger task = SSH p -> connect (fst x) = None ->
     server.Server_pingerOutput engine' name
     = server.mkHTTPReply 200 "text/plain" (server.Bytes (written (fst x)))) /\
  (forall other, other <> name ->
     server.Server_pingerOutput engine' other = server.Server_pingerOutput engine other).
Proof.
  intros r engine'. subst r engine'.
  unfold server.Server_pingerOutput. cbn [Pingers]. rewrite lookup_insert_eq.
  cbn [Output PingerTask_updateStatus bind time_Now send log_event ret fst snd].
  split; [| split; [| split]].
  - destruct (snd (@Ping AnyPinger AnyPinger_Pinger (Pinger task) x)); reflexivity.
  - intros p Hp Hnok. rewrite Hp in *. cbn [Ping AnyPinger_Pinger] in *.
    unfold HTTPPinger_Ping in *.
    destruct (http_NewRequest (snd x)); [reflexivity |].
    destruct (client_Do (snd x)); [reflexivity |].
    destruct (negb _); [reflexivity | contradiction Hnok; reflexivity].
  - intros p Hp Hconn. rewrite Hp. cbn [Ping AnyPinger_Pinger].
    unfold SSHPinger_Ping, SSHClient_Run. rewrite Hconn.
    destruct (session_Run (fst x)) as [[status | msg] |]; simpl;
      destruct (negb _); reflexivity.
  - intros other Hne. rewrite lookup_insert_ne by congruence. reflexivity.
Qed.

(** ** What an alert carries *)

(** The results of the pingers: OK without an error, or NOK with an error
    whose message is not empty. *)
Lemma HTTPPinger_Ping_result (p : HTTPPinger) (x : HTTPExchange) :
  fst (HTTPPinger_Ping p x) = mkResult StatusOK None \/
  (Result_Status (fst (HTTPPinger_Ping p x)) = StatusNOK /\
   exists msg, Error (fst (HTTPPinger_Ping p x)) = Some msg /\ msg <> ""%string).
Proof.
  unfold HTTPPinger_Ping.
  destruct (http_NewRequest x) as [err |];
    [right; split; [reflexivity | eexists; split; [reflexivity | discriminate]] |].
  destruct (client_Do x) as [err | response];
    [right; split; [reflexivity | eexists; split; [reflexivity | discriminate]] |].
  destruct (negb _);
    [right; split; [reflexivity | eexists; split; [reflexivity | discriminate]] |].
  left. reflexivity.
Qed.

Lemma SSHPinger_Ping_result (p : SSHPinger) (y : SSHExchange) :
  fst (SSHPinger_Ping p y) = mkResult StatusOK None \/
  (Result_Status (fst (SSHPinger_Ping p y)) = StatusNOK /\
   exists msg, Error (fst (SSHPinger_Ping p y)) = Some msg /\ msg <> ""%string).
Proof.
  unfold SSHPinger_Ping, SSHClient_Run.
  destruct (connect y) as [err |];
    [right; split; [reflexivity | eexists; split; [reflexivity | discriminate]] |].
  destruct (negb _);
    [right; split; [reflexivity | eexists; split; [reflexivity | discriminate]] |].
  left. reflexivity.
Qed.

(** X24. The alert built for a published status update carries the name,
    the consecutive count and the two timestamps of the update unchanged,
    the flag OK exactly when the latest status is OK, and as output URL the
    base URL followed by "/pingers/", the name and "/output"; the time of
    the dispatch is recorded under the name. When the latest result is one
    that the HTTP or the SSH pinger returned, the error text of the alert
    is empty exactly when the flag OK is set. *)
Theorem alert_payload (dispatcher dispatcher' : Dispatcher) (now now' : Z)
    (statusUpdate : StatusUpdate) (update : PingerUpdate) :
  Dispatcher_Start_step dispatcher now now' statusUpdate = (dispatcher', Some update) ->
  let status := StatusUpdate_Status statusUpdate in
  PingerUpdate_Name update = StatusUpdate_Name statusUpdate /\
  PingerUpdate_Consecutive update = Consecutive status /\
  PingerUpdate_LatestOK update = LatestOK status /\
  PingerUpdate_LatestNOK update = LatestNOK status /\
  (OK (PingerUpdate_Status update) = true <->
   Result_Status (LatestResult status) = StatusOK) /\
  OutputURL (PingerUpdate_Status update)
  = advertisedBaseURL dispatcher +:+ "/pingers/"
    +:+ StatusUpdate_Name statusUpdate +:+ "/output" /\
  alertHistory dispatcher' !! StatusUpdate_Name statusUpdate = Some now' /\
  ((exists p x, LatestResult status = fst (HTTPPinger_Ping p x)) \/
   (exists p y, LatestResult status = fst (SSHPinger_Ping p y)) ->
   (OK (PingerUpdate_Status update) = true <->
    PingerStatus_Error (PingerUpdate_Status update) = ""%string)).
Proof.
  intros Hstep status. subst status. unfold Dispatcher_Start_step in Hstep.
  destruct (Dispatcher_shouldPublish dispatcher now statusUpdate); [| discriminate].
  cbn [negb] in Hstep. injection Hstep as <- <-.
  cbn [PingerUpdate_Name PingerUpdate_Consecutive PingerUpdate_LatestOK
       PingerUpdate_LatestNOK PingerUpdate_Status OK OutputURL PingerStatus_Error
       Dispatcher_dispatch alertHistory].
  split; [reflexivity |]. split; [reflexivity |]. split; [reflexivity |].
  split; [reflexivity |].
  split; [unfold Status_eqb; apply bool_decide_eq_true |].
  split; [reflexivity |].
  split; [apply lookup_insert_eq |].
  intros Hresult.
  assert (Hshape :
    LatestResult (StatusUpdate_Status statusUpdate) = mkResult StatusOK None \/
    (Result_Status (LatestResult (StatusUpdate_Status statusUpdate)) = StatusNOK /\
     exists msg, Error (LatestResult (StatusUpdate_Status statusUpdate)) = Some msg /\
                 msg <> ""%string)).
  { destruct Hresult as [(p & x & ->) | (p & y & ->)];
      [apply HTTPPinger_Ping_result | apply SSHPinger_Ping_result]. }
  destruct Hshape as [-> | (Hnok & msg & Hmsg & Hne)].
  - split; reflexivity.
  - rewrite Hmsg, Hnok. simpl. split; [discriminate | contradiction].
Qed.

Lemma alert_payload_witness :
  exists dispatcher' update,
    Dispatcher_Start_step (sample.dispatcher ∅) 0 time.Second
      (sample.event StatusOK 1) = (dispatcher', Some update) /\
    PingerUpdate_Name update = "google.com"%string /\
    OutputURL (PingerUpdate_Status update)
    = "https://127.0.0.1:8443/pingers/google.com/output"%string /\
    alertHistory dispatcher' !! "google.com"%string = Some time.Second.
Proof.
  destruct (Dispatcher_Start_step (sample.dispatcher ∅) 0 time.Second
              (sample.event StatusOK 1)) as [dispatcher' [update |]] eqn:Hstep;
    [| vm_compute in Hstep; discriminate].
  exists dispatcher', update. split; [reflexivity |].
  destruct (alert_payload (sample.dispatcher ∅) dispatcher' 0 time.Second
              (sample.event StatusOK 1) update Hstep)
    as (Hname & _ & _ & _ & _ & Hurl & Hhist & _).
  split; [exact Hname |]. split; [exact Hurl | exact Hhist].
Defined.

(** X25. With exponential backoff the waits of a check cycle double from
    one to the next whatever the checker answers: the i-th wait of the
    cycle (counting from 1) is the retry delay times [2^i], in 64-bit
    arithmetic, so that the configured delay itself is never waited. *)
Theorem ping_backoff_waits_any_checker `{ping.Pinger P}
    (task : PingerTask P) (retries : config.Retries) (w : World Exchange) :
  config.Schedule_Retries (Schedule task) = Some retries ->
  config.ExponentialBackoff retries = true ->
  1 <= config.Attempts retries < max_int64 ->
  exists (k : nat) r w',
    PingerTask_ping task w = Return (Some r, w') /\
    pings w' = (pings w + S k)%nat /\
    sleeps (drop (length (trace w)) (trace w'))
    = (fun i => wrap64 (config.Delay retries * 2 ^ Z.of_nat (S i))) <$> seq 0 k.
Proof.
  intros Hretries Hb Hn.
  destruct (ping_shape task retries Hretries w Hn) as (k & Hk & Hping & _).
  exists k. eexists. eexists. split; [exact Hping |].
  split; [reflexivity |].
  unfold advance. cbn [trace]. rewrite drop_app_length.
  rewrite sleeps_app, sleeps_retry_trace, results_length. simpl.
  rewrite app_nil_r. apply map_ext. intros i.
  apply (next_delay_iter_backoff retries i _ Hb).
Qed.

Lemma ping_backoff_waits_any_checker_witness :
  exists (k : nat) r w',
    PingerTask_ping (sample.task (config.mkRetries 4 time.Second true))
      (sample.world sample.always_down) = Return (Some r, w') /\
    pings w' = (0 + S k)%nat /\
    sleeps (drop 0 (trace w'))
    = (fun i => wrap64 (time.Second * 2 ^ Z.of_nat (S i))) <$> seq 0 k.
Proof.
  apply (ping_backoff_waits_any_checker (H := HTTPPinger_Pinger)
           (sample.task (config.mkRetries 4 time.Second true))
           (config.mkRetries 4 time.Second true)
           (sample.world sample.always_down)).
  - reflexivity.
  - reflexivity.
  - vm_compute. split; [discriminate | reflexivity].
Defined.

(** ** The first cycle of a task *)

(** X26. Every endpoint is alerted on once after start-up, healthy or not:
    for a checker whose results are never Unknown, such as the HTTP and the
    SSH pinger, and a schedule with at least one attempt, the first cycle
    of [Start] returns, and the status update it sends has consecutive
    count 1 and a status OK or NOK, so that every dispatcher publishes it as
    a transition from Unknown, whatever its alert history. *)
Theorem first_cycle_is_published `{ping.Pinger P}
    (task : PingerTask P) (w : World Exchange) (delay : Z)
    (retries : config.Retries) :
  config.Interval (Schedule task) = Some delay ->
  config.Schedule_Retries (Schedule task) = Some retries ->
  1 <= config.Attempts retries < max_int64 ->
  (forall x, Result_Status (fst (Ping (Pinger task) x)) <> StatusUnknown) ->
  exists task' w' u,
    PingerTask_Start 1 task w = Return (Some task', w') /\
    last (sent (drop (length (trace w)) (trace w'))) = Some u /\
    StatusUpdate_Name u = Name task /\
    StatusUpdate_Status u = Status task' /\
    Consecutive (Status task') = 1 /\
    Result_Status (LatestResult (Status task')) <> StatusUnknown /\
    forall dispatcher now, Dispatcher_shouldPublish dispatcher now u = true.
Proof.
  intros Hdelay Hretries Hn Hknown.
  unfold PingerTask_Start. cbn [Schedule]. rewrite Hdelay, Hretries.
  set (task0 := mkPingerTask (Name task) (Type_ task) (Pinger task) (Schedule task)
                  Start_status (Output task)).
  rewrite Start_loop_S.
  set (w1 := snd (time_Sleep delay w)).
  destruct (ping_shape task0 retries Hretries w1 Hn) as (k & _ & Hping & _).
  assert (Hr : Result_Status (fst (ping_at (Pinger task0) w1 k)) <> StatusUnknown)
    by apply Hknown.
  destruct (ping_at (Pinger task0) w1 k) as [result output].
  cbn [fst] in Hping, Hr. rewrite Hping.
  set (w2 := advance w1 (S k) _) in *.
  exists (fst (PingerTask_updateStatus task0 result output w2)).
  eexists. exists (mkStatusUpdate (Name task)
                     (Status (fst (PingerTask_updateStatus task0 result output w2)))).
  split; [reflexivity |].
  assert (Hc : Consecutive (Status (fst (PingerTask_updateStatus task0 result output w2)))
               = 1).
  { rewrite updateStatus_Status. cbn [Consecutive]. unfold Status_eqb.
    rewrite bool_decide_eq_false_2; [reflexivity |]. exact Hr. }
  split; [| split; [reflexivity | split; [reflexivity | split; [exact Hc |]]]].
  - rewrite updateStatus_world. subst w2 w1. unfold advance, time_Sleep, log_event.
    cbn [snd trace]. rewrite <- !app_assoc, drop_app_length.
    rewrite !sent_app, sent_retry_trace. reflexivity.
  - split; [exact Hr |]. intros dispatcher now.
    apply shouldPublish_transition, statusChanged_spec.
    cbn [StatusUpdate_Status]. split; [exact Hc | exact Hr].
Qed.

Lemma first_cycle_is_published_witness :
  exists task' w' u,
    PingerTask_Start (H := HTTPPinger_Pinger) 1
      (sample.task (config.mkRetries 3 time.Second false))
      (sample.world sample.always_up) = Return (Some task', w') /\
    last (sent (drop 0 (trace w'))) = Some u /\
    Dispatcher_shouldPublish (sample.dispatcher ∅) 0 u = true.
Proof.
  destruct (first_cycle_is_published (H := HTTPPinger_Pinger)
              (sample.task (config.mkRetries 3 time.Second false))
              (sample.world sample.always_up) (10 * time.Minute)
              (config.mkRetries 3 time.Second false) eq_refl eq_refl)
    as (task' & w' & u & Hrun & Hlast & _ & _ & _ & _ & Hpub).
  - vm_compute. split; [discriminate | reflexivity].
  - intros x. destruct (HTTPPinger_Ping_result sample.pinger x) as [Hok | [Hnok _]].
    + change (Ping (Pinger (sample.task (config.mkRetries 3 time.Second false))) x)
        with (HTTPPinger_Ping sample.pinger x).
      rewrite Hok. discriminate.
    + change (Ping (Pinger (sample.task (config.mkRetries 3 time.Second false))) x)
        with (HTTPPinger_Ping sample.pinger x).
      rewrite Hnok. discriminate.
  - exists task', w', u. split; [exact Hrun |]. split; [exact Hlast | apply Hpub].
Defined.
